(** * Scrape orchestration and scheduling engine: a shallow embedding

    The development follows [app/core/config.py],
    [app/services/enhanced_job_scraper.py] and
    [app/services/job_scheduler.py].  Python objects become records that are
    passed explicitly; everything the program reads from outside (the wall
    clock, random draws, network answers, the persistence session) is an
    explicit input of the function that reads it.

    Conventions.
    - [datetime] values are integers counting microseconds (the resolution of
      Python's [datetime]); a [timedelta] is a difference of such integers.
    - [float] seconds ([time.time()], token counts, delays) are rationals:
      the arithmetic is exact, rounding is not modelled.
    - Python [int] is [Z]; [str] is [string] (a byte string; [lower] acts on
      the ASCII letters). *)

From Stdlib Require Import ZArith QArith Qminmax Lqa Lia Bool List.
From Stdlib Require Import Ascii String.
From stdpp Require Import gmap strings list pretty.

Local Open Scope string_scope.
Local Open Scope list_scope.
Local Open Scope Z_scope.

(** ** Python values shared by the modules *)

Definition datetime := Z.
Definition timedelta := Z.

(** [timedelta(minutes=m)]. *)
Definition timedelta_minutes (m : Z) : timedelta := m * 60 * 1000000.

(** [timedelta(seconds=s)]. *)
Definition timedelta_seconds (s : Z) : timedelta := s * 1000000.

(** [datetime.min] and [datetime.max], counted from 1970-01-01: the years
    1 to 9999.  Arithmetic that leaves this range raises [OverflowError]. *)
Definition datetime_min : datetime := -62135596800 * 1000000.
Definition datetime_max : datetime := 253402300799 * 1000000 + 999999.

Definition in_datetime_range (d : Z) : bool :=
  (datetime_min <=? d) && (d <=? datetime_max).

(** The exceptions that travel through the modelled code.  [aiohttp]'s
    [ClientResponseError] and its connection errors are the two kinds of
    [ClientError] the code can meet; [OtherError] stands for any further
    [Exception] (a database session that cannot be opened, malformed JSON). *)
Inductive Exn : Type :=
  | ClientResponseError (status : Z) (message : string)
  | ClientConnectionError (message : string)
  | AsyncioTimeoutError
  | JobScrapeError (message : string)
  | ZeroDivisionError
  | OtherError (message : string).

(** [str(e)]. *)
Definition exn_str (e : Exn) : string :=
  match e with
  | ClientResponseError st m => pretty st +:+ ", message='" +:+ m +:+ "'"
  | ClientConnectionError m => m
  | AsyncioTimeoutError => ""
  | JobScrapeError m => m
  | ZeroDivisionError => "float division by zero"
  | OtherError m => m
  end.

(** A computation that returns or raises. *)
Inductive Result (A : Type) : Type :=
  | Returns (a : A)
  | Raises (e : Exn).
Arguments Returns {A} a.
Arguments Raises {A} e.

(** ** [app/core/config.py] *)

Module Config.

(** The fields of [Settings] that the scraper and the scheduler read. *)
Record Settings : Type := {
  SCRAPING_ENABLED : bool;
  SCRAPING_INTERVAL_MINUTES : Z;
  SCRAPING_MAX_JOBS_PER_RUN : Z;
  SCRAPING_CONCURRENT_REQUESTS : Z;
  SCRAPING_DELAY_BETWEEN_REQUESTS : Q;
  RATE_LIMIT_REQUESTS_PER_MINUTE : Z;
  RATE_LIMIT_BURST_SIZE : Z;
  ENABLE_REMOTEOK : bool;
  ENABLE_YCOMBINATOR : bool;
  ENABLE_WELLFOUND : bool;
  ENABLE_OTTA : bool;
  ENABLE_ERROR_NOTIFICATIONS : bool;
  ERROR_NOTIFICATION_EMAIL : option string;
  SLACK_WEBHOOK_URL : option string;
  SMTP_USER : string
}.

(** [os.getenv(name, default)] over an environment [env]. *)
Definition getenv (env : string -> option string) (name default : string) : string :=
  match env name with
  | Some v => v
  | None => default
  end.

(** [str.lower()] on ASCII letters. *)
Definition lower_ascii (c : ascii) : ascii :=
  let n := nat_of_ascii c in
  if (65 <=? n)%nat && (n <=? 90)%nat then ascii_of_nat (n + 32) else c.

Fixpoint lower (s : string) : string :=
  match s with
  | EmptyString => EmptyString
  | String c r => String (lower_ascii c) (lower r)
  end.

(** Python truthiness of an optional string: [None] and [""] are false. *)
Definition truthy (o : option string) : bool :=
  match o with
  | Some (String _ _) => true
  | _ => false
  end.

(** *** Python's [int(text)] on ASCII text

    Blanks around the number are dropped, a sign may come first, and the
    digits may be grouped by single underscores. *)
Definition is_space (c : ascii) : bool :=
  let n := nat_of_ascii c in
  ((9 <=? n) && (n <=? 13) || (28 <=? n) && (n <=? 32))%nat.

Definition is_empty (s : string) : bool :=
  match s with
  | EmptyString => true
  | String _ _ => false
  end.

Fixpoint lstrip (s : string) : string :=
  match s with
  | EmptyString => EmptyString
  | String c r => if is_space c then lstrip r else s
  end.

Fixpoint rstrip (s : string) : string :=
  match s with
  | EmptyString => EmptyString
  | String c r =>
      let r' := rstrip r in
      if is_space c && is_empty r' then EmptyString else String c r'
  end.

Definition digit_value (c : ascii) : option Z :=
  let n := nat_of_ascii c in
  if ((48 <=? n) && (n <=? 57))%nat then Some (Z.of_nat n - 48) else None.

(** The digits after the sign: [acc] is the value read so far and
    [after_digit] tells whether the last character read was a digit. *)
Fixpoint digits_from (acc : Z) (after_digit : bool) (s : string) : option Z :=
  match s with
  | EmptyString => if after_digit then Some acc else None
  | String c r =>
      match digit_value c with
      | Some d => digits_from (10 * acc + d) true r
      | None =>
          if Ascii.eqb c "_" && after_digit then digits_from acc false r else None
      end
  end.

Definition py_int (text : string) : option Z :=
  match rstrip (lstrip text) with
  | String "-" r => Z.opp <$> digits_from 0 false r
  | String "+" r => digits_from 0 false r
  | s => digits_from 0 false s
  end.

(** [int(text)] as the interpreter runs it: a text of more than
    [sys.get_int_max_str_digits()] digits, 4300 unless the interpreter is
    told otherwise, is a [ValueError] whatever else it holds; the sign, the
    blanks and the underscores are not counted. *)
Fixpoint count_digits (s : string) : Z :=
  match s with
  | EmptyString => 0
  | String c r =>
      match digit_value c with
      | Some _ => 1 + count_digits r
      | None => count_digits r
      end
  end.

Definition int_max_str_digits : Z := 4300.

Definition py_int_limited (text : string) : option Z :=
  if int_max_str_digits <? count_digits text then None else py_int text.

(** The texts pydantic reads as a boolean, whatever the case of their
    letters; any other text is a validation error. *)
Definition pydantic_bool (text : string) : option bool :=
  let t := lower text in
  if existsb (String.eqb t) ["1"; "on"; "t"; "true"; "y"; "yes"] then Some true
  else if existsb (String.eqb t) ["0"; "off"; "f"; "false"; "n"; "no"] then Some false
  else None.

(** A flag of [Settings].  The class body computes
    [os.getenv(name, default).lower() == "true"], which never fails and is
    the value of the field when the variable is not set; when it is set,
    [Settings()] reads the variable again and parses it as a boolean, and
    [None] is the validation error that stops the import of the module. *)
Definition env_flag (env : string -> option string) (name default : string) : option bool :=
  match env name with
  | Some text => pydantic_bool text
  | None => Some (String.eqb (lower default) "true")
  end.

(** [int(os.getenv(name, default))]; [None] is the [ValueError] that stops
    the import of the module. *)
Definition env_int (env : string -> option string) (name default : string) : option Z :=
  py_int_limited (getenv env name default).

(** The class body of [Settings] followed by [settings = Settings()]:
    every [int(...)] of the body must succeed, and then every flag that is
    set must read as a boolean.  The variable [SCRAPING_DELAY_BETWEEN_REQUESTS]
    is read by [float(...)] and, for the legacy field [SCRAPING_RATE_LIMIT],
    by [int(...)]: when it is set it has to be the text of an integer, and
    the delay is that integer.  No field carries a validator or a
    constraint; pydantic reads the numeric variables again and converts them
    to the declared types (for the plain decimal text of an integer, to the
    same value).  [int(...)] runs with the interpreter's default limit on
    the digits of an integer. *)
Definition load (env : string -> option string) : option Settings :=
  interval ← env_int env "SCRAPING_INTERVAL_MINUTES" "60";
  max_jobs ← env_int env "SCRAPING_MAX_JOBS_PER_RUN" "200";
  concurrent ← env_int env "SCRAPING_CONCURRENT_REQUESTS" "5";
  delay ← match env "SCRAPING_DELAY_BETWEEN_REQUESTS" with
          | None => Some 2%Q
          | Some text => inject_Z <$> py_int_limited text
          end;
  rpm ← env_int env "RATE_LIMIT_REQUESTS_PER_MINUTE" "100";
  burst ← env_int env "RATE_LIMIT_BURST_SIZE" "20";
  _ ← env_int env "SMTP_PORT" "587";
  scraping_enabled ← env_flag env "SCRAPING_ENABLED" "true";
  remoteok ← env_flag env "ENABLE_REMOTEOK" "true";
  ycombinator ← env_flag env "ENABLE_YCOMBINATOR" "true";
  _ ← env_flag env "ENABLE_GITHUB_JOBS" "false";
  _ ← env_flag env "ENABLE_STACKOVERFLOW_JOBS" "false";
  wellfound ← env_flag env "ENABLE_WELLFOUND" "true";
  otta ← env_flag env "ENABLE_OTTA" "true";
  _ ← env_flag env "USE_PROXY_ROTATION" "false";
  _ ← env_flag env "USE_USER_AGENT_ROTATION" "true";
  notifications ← env_flag env "ENABLE_ERROR_NOTIFICATIONS" "true";
  _ ← env_flag env "ENABLE_PERFORMANCE_MONITORING" "true";
  Some {| SCRAPING_ENABLED := scraping_enabled;
          SCRAPING_INTERVAL_MINUTES := interval;
          SCRAPING_MAX_JOBS_PER_RUN := max_jobs;
          SCRAPING_CONCURRENT_REQUESTS := concurrent;
          SCRAPING_DELAY_BETWEEN_REQUESTS := delay;
          RATE_LIMIT_REQUESTS_PER_MINUTE := rpm;
          RATE_LIMIT_BURST_SIZE := burst;
          ENABLE_REMOTEOK := remoteok;
          ENABLE_YCOMBINATOR := ycombinator;
          ENABLE_WELLFOUND := wellfound;
          ENABLE_OTTA := otta;
          ENABLE_ERROR_NOTIFICATIONS := notifications;
          ERROR_NOTIFICATION_EMAIL := env "ERROR_NOTIFICATION_EMAIL";
          SLACK_WEBHOOK_URL := env "SLACK_WEBHOOK_URL";
          SMTP_USER := getenv env "SMTP_USER" "" |}.

(** Whether every character of a text passes a test. *)
Fixpoint all_chars (test : ascii -> bool) (s : string) : bool :=
  match s with
  | EmptyString => true
  | String c r => test c && all_chars test r
  end.

(** The environment that sets the schedule interval and the target count
    to the decimal text of two integers, and nothing else. *)
Definition env_with (interval max_jobs : Z) (name : string) : option string :=
  if String.eqb name "SCRAPING_INTERVAL_MINUTES" then Some (pretty interval)
  else if String.eqb name "SCRAPING_MAX_JOBS_PER_RUN" then Some (pretty max_jobs)
  else None.

(** The bounds the specification gives for a valid configuration. *)
Definition within_bounds (cfg : Settings) : bool :=
  (5 <=? SCRAPING_INTERVAL_MINUTES cfg)
  && (10 <=? SCRAPING_MAX_JOBS_PER_RUN cfg) && (SCRAPING_MAX_JOBS_PER_RUN cfg <=? 1000).

End Config.

(** ** [app/services/enhanced_job_scraper.py]: the rate limiter *)

Module RateLimiter.

(** The attributes of a [RateLimiter] object (the lock apart: calls are
    serialised by it, so a history is a sequence of calls).  The floats of
    the code are kept as rationals, without the rounding of binary64: the
    tests and the paths taken are the code's wherever its arithmetic is
    exact (integral token counts up to 2^53, no time passed, a rate of
    zero), and the value of a refill or of a wait is the code's up to
    rounding only.  The theorems on the limiter state ranges, signs and
    paths, never the value of a wait. *)
Record t : Type := {
  requests_per_minute : Z;
  burst_size : Z;
  tokens : Q;
  last_update : Q
}.

(** [RateLimiter(requests_per_minute, burst_size)], built when
    [time.time()] reads [now]. *)
Definition init (rpm burst : Z) (now : Q) : t :=
  {| requests_per_minute := rpm;
     burst_size := burst;
     tokens := inject_Z burst;
     last_update := now |}.

(** Python's [min(a, b)]: the first argument unless the second is smaller. *)
Definition py_min (a b : Q) : Q := if Qlt_le_dec b a then b else a.

(** [self.requests_per_minute / 60.0]. *)
Definition rate (rl : t) : Q := (inject_Z (requests_per_minute rl) / 60)%Q.

Definition set_tokens (rl : t) (now tok : Q) : t :=
  {| requests_per_minute := requests_per_minute rl;
     burst_size := burst_size rl;
     tokens := tok;
     last_update := now |}.

(** [acquire()], when [time.time()] reads [now].  The result is the time
    slept waiting for a token ([None] on the immediate path); with a refill
    rate of zero the division on the waiting path raises. *)
Definition acquire (rl : t) (now : Q) : t * Result (option Q) :=
  let time_passed := (now - last_update rl)%Q in
  let refilled :=
    py_min (inject_Z (burst_size rl)) (tokens rl + time_passed * rate rl)%Q in
  if Qle_bool 1 refilled then
    (set_tokens rl now (refilled - 1)%Q, Returns None)
  else if Qeq_bool (rate rl) 0 then
    (set_tokens rl now refilled, Raises ZeroDivisionError)
  else
    let wait_time := ((1 - refilled) / rate rl)%Q in
    (set_tokens rl now 0%Q, Returns (Some wait_time)).

(** The limiter states visited by a sequence of [acquire] calls, the clock
    reading [nows] one after the other: the state before the first call,
    then the state after each call. *)
Fixpoint history (rl : t) (nows : list Q) : list t :=
  match nows with
  | [] => [rl]
  | now :: rest => rl :: history (fst (acquire rl now)) rest
  end.

(** The bounds the data model states for the token count. *)
Definition tokens_in_range (rl : t) : Prop :=
  (0 <= tokens rl /\ tokens rl <= inject_Z (burst_size rl))%Q.

End RateLimiter.

(** ** The request executor: [EnhancedJobScraper._make_request] *)

Module Executor.

(** What the network does with one request. *)
Inductive NetOutcome (B : Type) : Type :=
  | NetResponse (status : Z) (message : string) (body : B)
  | NetConnectionError (message : string)
  | NetTimeout.
Arguments NetResponse {B} status message body.
Arguments NetConnectionError {B} message.
Arguments NetTimeout {B}.

(** Everything one attempt reads from outside. *)
Record Attempt (B : Type) : Type := {
  at_now : Q;            (* [time.time()] inside [acquire] *)
  at_draw : Q;           (* [random.random()] of the jitter, in [0, 1) *)
  at_net : NetOutcome B; (* the answer of the network *)
  at_elapsed : Q;        (* seconds since the first attempt, read by the decorator *)
  at_backoff_draw : Q    (* [random.random()] of the backoff jitter *)
}.
Arguments at_now {B} _.
Arguments at_draw {B} _.
Arguments at_net {B} _.
Arguments at_elapsed {B} _.
Arguments at_backoff_draw {B} _.

(** What an attempt does that can be observed from outside. *)
Inductive Effect : Type :=
  | LimiterWait (seconds : Q)
  | JitterSleep (seconds : Q)
  | Request (url : string)
  | BackoffSleep (seconds : Q)
  | LogError (message : string).

(** [random.uniform(a, b)] with [random.random()] returning [u]. *)
Definition uniform (a b u : Q) : Q := (a + (b - a) * u)%Q.

(** The delay slept before a request:
    [random.uniform(0.5, settings.SCRAPING_DELAY_BETWEEN_REQUESTS)]. *)
Definition jitter_delay (cfg : Config.Settings) (u : Q) : Q :=
  uniform (1 # 2) (Config.SCRAPING_DELAY_BETWEEN_REQUESTS cfg) u.

(** The exceptions the decorator retries on:
    [(aiohttp.ClientError, asyncio.TimeoutError)]. *)
Definition retryable (e : Exn) : bool :=
  match e with
  | ClientResponseError _ _ | ClientConnectionError _ | AsyncioTimeoutError => true
  | _ => false
  end.

Definition max_tries : nat := 3.
Definition max_time : Q := 60%Q.

Section Request.
Context {B : Type}.
Variable cfg : Config.Settings.
Variable url : string.

(** [response.raise_for_status()] and the two handlers around the
    request. *)
Definition send (net : NetOutcome B) : Result B :=
  match net with
  | NetResponse status message body =>
      if (400 <=? status)%Z
      then Raises (JobScrapeError ("HTTP " +:+ pretty status +:+ ": " +:+ message))
      else Returns body
  | NetConnectionError message => Raises (ClientConnectionError message)
  | NetTimeout => Raises (JobScrapeError ("Request timeout for " +:+ url))
  end.

(** The body of [_make_request], without its decorator. *)
Definition request_once (rl : RateLimiter.t) (a : Attempt B)
  : RateLimiter.t * list Effect * Result B :=
  match RateLimiter.acquire rl (at_now a) with
  | (rl', Raises e) => (rl', [], Raises e)
  | (rl', Returns waited) =>
      let wait_eff := match waited with
                      | Some s => [LimiterWait s]
                      | None => []
                      end in
      (rl', wait_eff ++ [JitterSleep (jitter_delay cfg (at_draw a)); Request url],
       send (at_net a))
  end.

(** The wait before the retry after attempt number [k] (from 0):
    [backoff.expo] yields [2 ^ k], full jitter draws from [0, 2 ^ k], and
    the wait never passes the time left. *)
Definition backoff_seconds (k : nat) (a : Attempt B) : Q :=
  RateLimiter.py_min (uniform 0%Q (inject_Z (2 ^ Z.of_nat k)) (at_backoff_draw a))
                     (max_time - at_elapsed a)%Q.

(** [backoff.on_exception(backoff.expo, (aiohttp.ClientError,
    asyncio.TimeoutError), max_tries=3, max_time=60)] around the body:
    attempt number [k] is made with [remaining] tries left after it. *)
Fixpoint retry_from (remaining k : nat) (rl : RateLimiter.t)
    (w : nat -> Attempt B) : RateLimiter.t * list Effect * Result B :=
  let a := w k in
  match request_once rl a with
  | (rl', effs, Returns b) => (rl', effs, Returns b)
  | (rl', effs, Raises e) =>
      if retryable e then
        match remaining with
        | O => (rl', effs, Raises e)
        | S rem =>
            if Qle_bool max_time (at_elapsed a) then (rl', effs, Raises e)
            else
              let '(rl'', effs', r) := retry_from rem (S k) rl' w in
              (rl'', effs ++ BackoffSleep (backoff_seconds k a) :: effs', r)
        end
      else (rl', effs, Raises e)
  end.

(** [_make_request(url)]. *)
Definition _make_request (rl : RateLimiter.t) (w : nat -> Attempt B)
  : RateLimiter.t * list Effect * Result B :=
  retry_from (max_tries - 1) 0 rl w.

End Request.

Definition is_request (e : Effect) : bool :=
  match e with
  | Request _ => true
  | _ => false
  end.

(** The number of requests a trace sent. *)
Definition attempts (effs : list Effect) : nat :=
  length (List.filter is_request effs).

End Executor.

(** ** The scraper: [EnhancedJobScraper] and [JobDataManager] *)

Module Scraper.
Import Executor.

(** The dataclass [JobData]. *)
Record JobData : Type := {
  title : string;
  company : string;
  description : string;
  location : string;
  salary_min : option Z;
  salary_max : option Z;
  job_type : string;
  remote_type : string;
  experience_level : string;
  skills : list string;
  external_url : string;
  source : string;
  posted_date : datetime;
  source_id : string
}.

(** [_generate_job_hash]: the MD5 digest of
    [f"{title.lower()}-{company.lower()}-{source_id}"].  The digest is
    represented by the text it is taken of (collisions of MD5 are not
    modelled). *)
Definition _generate_job_hash (jd : JobData) : string :=
  Config.lower (title jd) +:+ "-" +:+ Config.lower (company jd) +:+ "-" +:+ source_id jd.

(** [_is_duplicate_job] on the set [scraped_job_hashes]: the answer and the
    set afterwards. *)
Definition _is_duplicate_job (hashes : gset string) (jd : JobData) : bool * gset string :=
  let job_hash := _generate_job_hash jd in
  if decide (job_hash ∈ hashes) then (true, hashes)
  else (false, {[job_hash]} ∪ hashes).

(** The attributes of an [EnhancedJobScraper] that change during a run. *)
Record t : Type := {
  rate_limiter : RateLimiter.t;
  scraped_job_hashes : gset string
}.

(** [EnhancedJobScraper()]: a fresh limiter and an empty set of hashes. *)
Definition init (cfg : Config.Settings) (now : Q) : t :=
  {| rate_limiter := RateLimiter.init (Config.RATE_LIMIT_REQUESTS_PER_MINUTE cfg)
                                      (Config.RATE_LIMIT_BURST_SIZE cfg) now;
     scraped_job_hashes := ∅ |}.

(** A listing as a source answers it: [None] is a body that is not the
    JSON expected; an item [None] is one whose processing raises. *)
Definition Listing := option (list (option JobData)).

(** Everything a run reads from outside. *)
Record World : Type := {
  w_time0 : Q;                                   (* [time.time()] when the limiter is built *)
  w_remoteok : nat -> Attempt Listing;           (* attempts at [remoteok.io/api] *)
  w_yc_companies : nat -> Attempt (option (list (option string))); (* the company list *)
  w_yc_jobs : nat -> nat -> Attempt Listing;     (* per company: attempts at its jobs *)
  w_wellfound : nat -> JobData;                  (* the random draws of sample job [i] *)
  w_otta : nat -> JobData;
  w_persist : list JobData -> Result Z           (* the database session *)
}.

(** The loop of the sample adapters and the tail of the others:
    [if not self._is_duplicate_job(job_data): jobs.append(job_data)]. *)
Fixpoint keep_new (hashes : gset string) (items : list JobData)
  : list JobData * gset string :=
  match items with
  | [] => ([], hashes)
  | jd :: rest =>
      let '(dup, hashes') := _is_duplicate_job hashes jd in
      let '(jobs, hashes'') := keep_new hashes' rest in
      (if dup then jobs else jd :: jobs, hashes'')
  end.

(** RemoteOK's loop: an item whose processing raises is skipped (the line
    it logs is about one record and is not kept among the effects). *)
Definition well_formed (items : list (option JobData)) : list JobData :=
  omap (fun x => x) items.

(** Y Combinator's inner loop has no handler of its own: the first item
    that raises ends the company's listing, the jobs before it stay. *)
Fixpoint until_malformed (items : list (option JobData)) : list JobData :=
  match items with
  | Some jd :: rest => jd :: until_malformed rest
  | _ => []
  end.

(** The text of the exception [response.json()] raises on such a body. *)
Definition bad_json : string := "Attempt to decode JSON with unexpected mimetype".

Section Adapters.
Variable cfg : Config.Settings.
Variable w : World.

(** [scrape_remoteok_jobs(limit)], for the limits [scrape_all_sources]
    passes, which are at least 1 (so that the slice [data[1:limit+1]] takes
    [limit] items after the first). *)
Definition scrape_remoteok_jobs (s : t) (limit : Z)
  : list JobData * t * list Effect :=
  if negb (Config.ENABLE_REMOTEOK cfg) then ([], s, [])
  else
    let '(rl, effs, r) :=
      _make_request cfg "https://remoteok.io/api" (rate_limiter s) (w_remoteok w) in
    let s1 := {| rate_limiter := rl; scraped_job_hashes := scraped_job_hashes s |} in
    match r with
    | Returns (Some data) =>
        (* data[1:limit+1] *)
        let job_listings := take (Z.to_nat limit) (drop 1 data) in
        let '(jobs, hashes) := keep_new (scraped_job_hashes s) (well_formed job_listings) in
        (jobs, {| rate_limiter := rl; scraped_job_hashes := hashes |}, effs)
    | Returns None =>
        ([], s1, effs ++ [LogError ("Error scraping RemoteOK: " +:+ bad_json)])
    | Raises e =>
        ([], s1, effs ++ [LogError ("Error scraping RemoteOK: " +:+ exn_str e)])
    end.

(** The loop over [companies[:limit]] of [scrape_ycombinator_jobs];
    [i] is the position of the company in the list and a company is given
    by its id.  An entry [None] is one that is not a company record: reading
    it raises, the handler of the loop logs it and goes on to the next entry
    without a request. *)
Fixpoint yc_companies (i : nat) (companies : list (option string)) (s : t)
  : list JobData * t * list Effect :=
  match companies with
  | [] => ([], s, [])
  | None :: rest => yc_companies (S i) rest s
  | Some company_id :: rest =>
      let '(rl, effs, r) :=
        _make_request cfg
          ("https://www.ycombinator.com/api/worklist/jobs?company_id=" +:+ company_id)
          (rate_limiter s) (w_yc_jobs w i) in
      let items := match r with
                   | Returns (Some items) => until_malformed items
                   | _ => []
                   end in
      let '(jobs, hashes) := keep_new (scraped_job_hashes s) items in
      let '(jobs', s', effs') :=
        yc_companies (S i) rest {| rate_limiter := rl; scraped_job_hashes := hashes |} in
      (jobs ++ jobs', s', effs ++ effs')
  end.

(** [scrape_ycombinator_jobs(limit)]. *)
Definition scrape_ycombinator_jobs (s : t) (limit : Z)
  : list JobData * t * list Effect :=
  if negb (Config.ENABLE_YCOMBINATOR cfg) then ([], s, [])
  else
    let '(rl, effs, r) :=
      _make_request cfg "https://www.ycombinator.com/api/worklist/companies"
                    (rate_limiter s) (w_yc_companies w) in
    let s1 := {| rate_limiter := rl; scraped_job_hashes := scraped_job_hashes s |} in
    match r with
    | Returns (Some companies) =>
        let '(jobs, s2, effs') := yc_companies 0 (take (Z.to_nat limit) companies) s1 in
        (jobs, s2, effs ++ effs')
    | Returns None =>
        ([], s1, effs ++ [LogError ("Error scraping Y Combinator: " +:+ bad_json)])
    | Raises e =>
        ([], s1, effs ++ [LogError ("Error scraping Y Combinator: " +:+ exn_str e)])
    end.

(** [_generate_wellfound_sample_jobs(limit)]: the random fields are the
    world's, the generator fixes the link, the source and the id. *)
Definition _generate_wellfound_sample_jobs (limit : Z) : list JobData :=
  map (fun i : nat =>
         let d := w_wellfound w i in
         {| title := title d; company := company d; description := description d;
            location := location d; salary_min := salary_min d;
            salary_max := salary_max d; job_type := job_type d;
            remote_type := remote_type d; experience_level := experience_level d;
            skills := skills d;
            external_url := "https://wellfound.com/jobs/" +:+ pretty (Z.of_nat i + 1000);
            source := "wellfound";
            posted_date := posted_date d;
            source_id := pretty (1000 + Z.of_nat i) |})
      (seq 0 (Z.to_nat limit)).

(** [_generate_otta_sample_jobs(limit)]. *)
Definition _generate_otta_sample_jobs (limit : Z) : list JobData :=
  map (fun i : nat =>
         let d := w_otta w i in
         {| title := title d; company := company d;
            description := "Join our mission to build the future of fintech/technology. We offer competitive salary, equity, and amazing benefits.";
            location := location d; salary_min := salary_min d;
            salary_max := salary_max d; job_type := "full-time";
            remote_type := remote_type d; experience_level := experience_level d;
            skills := skills d;
            external_url := "https://otta.com/jobs/" +:+ pretty (Z.of_nat i + 2000);
            source := "otta";
            posted_date := posted_date d;
            source_id := pretty (2000 + Z.of_nat i) |})
      (seq 0 (Z.to_nat limit)).

(** [scrape_wellfound_jobs(limit)]. *)
Definition scrape_wellfound_jobs (s : t) (limit : Z)
  : list JobData * t * list Effect :=
  if negb (Config.ENABLE_WELLFOUND cfg) then ([], s, [])
  else
    let '(jobs, hashes) :=
      keep_new (scraped_job_hashes s) (_generate_wellfound_sample_jobs limit) in
    (jobs, {| rate_limiter := rate_limiter s; scraped_job_hashes := hashes |}, []).

(** [scrape_otta_jobs(limit)]. *)
Definition scrape_otta_jobs (s : t) (limit : Z)
  : list JobData * t * list Effect :=
  if negb (Config.ENABLE_OTTA cfg) then ([], s, [])
  else
    let '(jobs, hashes) :=
      keep_new (scraped_job_hashes s) (_generate_otta_sample_jobs limit) in
    (jobs, {| rate_limiter := rate_limiter s; scraped_job_hashes := hashes |}, []).

End Adapters.

(** What an adapter owes the set of hashes: the jobs it returns have
    fingerprints that differ from one another, that were not in the set
    when it started and that are in the set when it ends; nothing leaves
    the set. *)
Definition fresh_batch (before : gset string) (jobs : list JobData)
    (after : gset string) : Prop :=
  before ⊆ after
  /\ NoDup (_generate_job_hash <$> jobs)
  /\ (forall jd, (jd ∈ jobs) ->
        (_generate_job_hash jd ∉ before) /\ (_generate_job_hash jd ∈ after)).

(** An adapter keeps that promise from whatever scraper state it starts. *)
Definition adapter_ok (task : t -> list JobData * t * list Effect) : Prop :=
  forall s, let '(jobs, s', _) := task s in
            fresh_batch (scraped_job_hashes s) jobs (scraped_job_hashes s').


End Scraper.

Module JobDataManager.
Import Executor Scraper.

(** What a run leaves behind: the dict [scrape_all_sources] returns (or the
    exception it raises), the batch [all_jobs] handed to persistence, the
    scraper it used and the effects of its requests. *)
Record RunOutput : Type := {
  out_results : Result (gmap string Z);
  out_all_jobs : list JobData;
  out_scraper : option Scraper.t;
  out_effects : list Effect
}.

(** [_save_jobs_to_database(jobs)]: nothing is opened for an empty batch;
    otherwise the result is the session's: the count of the jobs it stored
    (a failure on one job is caught inside the loop), or the exception that
    escapes the function ([SessionLocal()] and [db.close()] stand outside
    the handlers).  Opening and closing the HTTP session around the adapters
    are taken to succeed. *)
Definition _save_jobs_to_database (w : World) (jobs : list JobData) : Result Z :=
  match jobs with
  | [] => Returns 0
  | _ => w_persist w jobs
  end.

Definition bool_to_int (b : bool) : Z := if b then 1 else 0.

(** One turn of [for source_name, task in tasks]: the coroutines are awaited
    one after the other, in the order they were appended.  The adapters
    catch every exception themselves, so the handler of this loop is never
    entered. *)
Definition await_task (enabled : bool) (source_name : string)
    (task : Scraper.t -> list JobData * Scraper.t * list Effect)
    (acc : gmap string Z * list JobData * Scraper.t * list Effect)
  : gmap string Z * list JobData * Scraper.t * list Effect :=
  let '(results, all_jobs, s, effs) := acc in
  if enabled then
    let '(jobs, s', effs') := task s in
    (<[source_name := Z.of_nat (length jobs)]> results, all_jobs ++ jobs, s', effs ++ effs')
  else acc.

(** [scrape_all_sources(total_jobs)], with everything it leaves behind. *)
Definition run (cfg : Config.Settings) (w : World) (total_jobs : Z) : RunOutput :=
  if negb (Config.SCRAPING_ENABLED cfg) then
    {| out_results := Returns ∅; out_all_jobs := []; out_scraper := None;
       out_effects := [] |}
  else
    let scraper := Scraper.init cfg (w_time0 w) in
    let enabled_sources :=
      bool_to_int (Config.ENABLE_REMOTEOK cfg) + bool_to_int (Config.ENABLE_YCOMBINATOR cfg)
      + bool_to_int (Config.ENABLE_WELLFOUND cfg) + bool_to_int (Config.ENABLE_OTTA cfg) in
    if enabled_sources =? 0 then
      {| out_results := Returns ∅; out_all_jobs := []; out_scraper := Some scraper;
         out_effects := [] |}
    else
      let jobs_per_source := Z.max 1 (total_jobs / enabled_sources) in
      let acc0 := ((∅ : gmap string Z), ([] : list JobData), scraper, ([] : list Effect)) in
      let acc1 := await_task (Config.ENABLE_REMOTEOK cfg) "RemoteOK"
                    (fun s => scrape_remoteok_jobs cfg w s jobs_per_source) acc0 in
      let acc2 := await_task (Config.ENABLE_YCOMBINATOR cfg) "Y Combinator"
                    (fun s => scrape_ycombinator_jobs cfg w s jobs_per_source) acc1 in
      let acc3 := await_task (Config.ENABLE_WELLFOUND cfg) "Wellfound"
                    (fun s => scrape_wellfound_jobs cfg w s jobs_per_source) acc2 in
      let acc4 := await_task (Config.ENABLE_OTTA cfg) "Otta"
                    (fun s => scrape_otta_jobs cfg w s jobs_per_source) acc3 in
      let '(results, all_jobs, s, effs) := acc4 in
      {| out_results :=
           match _save_jobs_to_database w all_jobs with
           | Returns saved_count =>
               Returns (<["total_saved" := saved_count]>
                          (<["total_scraped" := Z.of_nat (length all_jobs)]> results))
           | Raises e => Raises e
           end;
         out_all_jobs := all_jobs;
         out_scraper := Some s;
         out_effects := effs |}.

Definition scrape_all_sources (cfg : Config.Settings) (w : World) (total_jobs : Z)
  : Result (gmap string Z) :=
  out_results (run cfg w total_jobs).

(** The share of a source in a run: [max(1, total_jobs // enabled_sources)]. *)
Definition enabled_sources (cfg : Config.Settings) : Z :=
  bool_to_int (Config.ENABLE_REMOTEOK cfg) + bool_to_int (Config.ENABLE_YCOMBINATOR cfg)
  + bool_to_int (Config.ENABLE_WELLFOUND cfg) + bool_to_int (Config.ENABLE_OTTA cfg).

Definition jobs_per_source (cfg : Config.Settings) (total_jobs : Z) : Z :=
  Z.max 1 (total_jobs / enabled_sources cfg).




Definition is_error_log (e : Effect) : bool :=
  match e with
  | LogError _ => true
  | _ => false
  end.

(** The fetch errors the adapters reported in a run: their
    [logger.error("Error scraping ...")] lines, the only trace an adapter's
    failure leaves. *)
Definition fetch_errors (out : RunOutput) : list Effect :=
  List.filter is_error_log (out_effects out).

End JobDataManager.

(** ** [app/services/job_scheduler.py] *)

(** The APScheduler triggers [start] builds; an interval trigger is kept
    with the length of its interval in seconds. *)
Inductive Trigger : Type :=
  | IntervalTrigger (seconds : Z)
  | CronTrigger (hour minute : Z)
  | DateTrigger (run_date : datetime).

(** The length [IntervalTrigger(minutes=m)] gives its interval: an interval
    of no length becomes one second. *)
Definition interval_length (minutes : Z) : Z :=
  if minutes * 60 =? 0 then 1 else minutes * 60.

(** The dicts the status functions return: Python values as a tree.  The
    texts that library formatting produces ([datetime.isoformat()],
    [str(job.trigger)]) are kept as the value they are the text of. *)
#[warnings="-register-all"]
Inductive PyVal : Type :=
  | PNone
  | PBool (b : bool)
  | PInt (z : Z)
  | PFloat (q : Q)
  | PStr (s : string)
  | PIsoformat (d : datetime)
  | PTriggerStr (tr : Trigger)
  | PList (l : list PyVal)
  | PDict (items : list (string * PyVal)).

(** [d[key]] on a dict value. *)
Fixpoint assoc (key : string) (items : list (string * PyVal)) : option PyVal :=
  match items with
  | [] => None
  | (k, v) :: rest => if String.eqb k key then Some v else assoc key rest
  end.

Definition py_get (key : string) (v : PyVal) : option PyVal :=
  match v with
  | PDict items => assoc key items
  | _ => None
  end.

(** [needle in hay] on strings. *)
Fixpoint contains (needle hay : string) : bool :=
  String.prefix needle hay ||
  match hay with
  | EmptyString => false
  | String _ rest => contains needle rest
  end.

(** Whether some key or some string of the value spells [needle], whatever
    the case of its letters. *)
Fixpoint mentions (needle : string) (v : PyVal) : bool :=
  match v with
  | PStr s => contains needle (Config.lower s)
  | PList l => existsb (mentions needle) l
  | PDict items =>
      existsb (fun kv => contains needle (Config.lower (fst kv)) || mentions needle (snd kv))
              items
  | _ => false
  end.

Definition py_opt_iso (o : option datetime) : PyVal :=
  match o with
  | Some d => PIsoformat d
  | None => PNone
  end.

Module JobScrapingMetrics.

Record t : Type := {
  last_run : option datetime;
  last_success : option datetime;
  consecutive_failures : Z;
  total_runs : Z;
  total_jobs_scraped : Z;
  total_jobs_saved : Z
}.

(** [JobScrapingMetrics()]. *)
Definition init : t :=
  {| last_run := None; last_success := None; consecutive_failures := 0;
     total_runs := 0; total_jobs_scraped := 0; total_jobs_saved := 0 |}.

(** [record_run_start()], [datetime.now()] reading [now]. *)
Definition record_run_start (now : datetime) (m : t) : t :=
  {| last_run := Some now;
     last_success := last_success m;
     consecutive_failures := consecutive_failures m;
     total_runs := total_runs m + 1;
     total_jobs_scraped := total_jobs_scraped m;
     total_jobs_saved := total_jobs_saved m |}.

(** [record_run_success(jobs_scraped, jobs_saved)]. *)
Definition record_run_success (now : datetime) (jobs_scraped jobs_saved : Z) (m : t) : t :=
  {| last_run := last_run m;
     last_success := Some now;
     consecutive_failures := 0;
     total_runs := total_runs m;
     total_jobs_scraped := total_jobs_scraped m + jobs_scraped;
     total_jobs_saved := total_jobs_saved m + jobs_saved |}.

(** [record_run_failure()]. *)
Definition record_run_failure (m : t) : t :=
  {| last_run := last_run m;
     last_success := last_success m;
     consecutive_failures := consecutive_failures m + 1;
     total_runs := total_runs m;
     total_jobs_scraped := total_jobs_scraped m;
     total_jobs_saved := total_jobs_saved m |}.

(** [is_healthy()], [datetime.now()] reading [now]. *)
Definition is_healthy (cfg : Config.Settings) (now : datetime) (m : t) : bool :=
  match last_run m with
  | None => false
  | Some _ =>
      let max_time_since_success :=
        timedelta_minutes (Config.SCRAPING_INTERVAL_MINUTES cfg * 2) in
      match last_success m with
      | Some ls =>
          if now - ls <=? max_time_since_success then true
          else consecutive_failures m <? 3
      | None => consecutive_failures m <? 3
      end
  end.

(** [get_status()]; the clock is read once by [is_healthy] and once for
    the uptime. *)
Definition get_status (cfg : Config.Settings) (now_health now_uptime : datetime) (m : t)
  : PyVal :=
  PDict [
    ("last_run", py_opt_iso (last_run m));
    ("last_success", py_opt_iso (last_success m));
    ("consecutive_failures", PInt (consecutive_failures m));
    ("total_runs", PInt (total_runs m));
    ("total_jobs_scraped", PInt (total_jobs_scraped m));
    ("total_jobs_saved", PInt (total_jobs_saved m));
    ("is_healthy", PBool (is_healthy cfg now_health m));
    ("uptime_minutes",
     match last_run m with
     | Some lr => PFloat ((inject_Z (now_uptime - lr) / 1000000) / 60)%Q
     | None => PInt 0
     end)
  ].

End JobScrapingMetrics.

Module JobScrapingScheduler.

(** A job registered with the APScheduler instance. *)
Record Job : Type := {
  job_id : string;
  job_name : string;
  job_trigger : Trigger;
  next_run_time : option datetime
}.

(** The attributes of the scheduler object: its metrics, and the state of
    [self.scheduler] ([running] and the registered jobs). *)
Record t : Type := {
  metrics : JobScrapingMetrics.t;
  running : bool;
  jobs : list Job
}.

(** [JobScrapingScheduler()]. *)
Definition init : t :=
  {| metrics := JobScrapingMetrics.init; running := false; jobs := [] |}.

(** What a task does that reaches outside the process; an invocation of
    the scraper is recorded with the batch it emitted (the jobs handed to
    persistence) and the effects of its requests. *)
Inductive Event : Type :=
  | ScraperInvoked (num_jobs : Z) (batch : list Scraper.JobData)
                   (effects : list Executor.Effect)
  | SlackPost (url message level : string)
  | EmailSent (recipient message level : string).

(** Everything one invocation of the scrape task reads from outside. *)
Record TaskWorld : Type := {
  tw_start : datetime;       (* [datetime.now()] in [record_run_start] *)
  tw_end : datetime;         (* [datetime.now()] in [record_run_success] *)
  tw_run : Scraper.World;    (* what the scraper meets if it runs *)
  tw_slack_fails : bool      (* whether a post to the webhook raises *)
}.

Section WithSettings.
Variable cfg : Config.Settings.

(** [_send_notification(message, level)]: one [try] around both
    channels, so a webhook that raises leaves the mail unsent. *)
Definition _send_notification (slack_fails : bool) (message level : string)
  : list Event :=
  let slack :=
    match Config.SLACK_WEBHOOK_URL cfg with
    | Some url => if Config.truthy (Some url) then [SlackPost url message level] else []
    | None => []
    end in
  let email :=
    match Config.ERROR_NOTIFICATION_EMAIL cfg with
    | Some recipient =>
        if Config.truthy (Some recipient) && Config.truthy (Some (Config.SMTP_USER cfg))
        then [EmailSent recipient message level] else []
    | None => []
    end in
  match slack with
  | [] => email
  | _ => if slack_fails then slack else slack ++ email
  end.

(** [_send_alert(message)]. *)
Definition _send_alert (slack_fails : bool) (message : string) : list Event :=
  _send_notification slack_fails ("ðŸš¨ ALERT: " +:+ message) "error".

(** [scrape_jobs_task()]: the metrics afterwards and the events of this
    invocation.  Whatever the run raises is caught by the handler, so the
    task itself never raises (and the scheduler's listener never sees an
    exception of it). *)
Definition scrape_jobs_task (w : TaskWorld) (m : JobScrapingMetrics.t)
  : JobScrapingMetrics.t * list Event :=
  let m1 := JobScrapingMetrics.record_run_start (tw_start w) m in
  if negb (Config.SCRAPING_ENABLED cfg) then (m1, [])
  else if JobScrapingMetrics.consecutive_failures m1 >=? 5 then
    (m1, _send_alert (tw_slack_fails w)
           "Job scraping disabled due to consecutive failures")
  else
    let num_jobs := Config.SCRAPING_MAX_JOBS_PER_RUN cfg in
    let out := JobDataManager.run cfg (tw_run w) num_jobs in
    let invoked := ScraperInvoked num_jobs (JobDataManager.out_all_jobs out)
                                  (JobDataManager.out_effects out) in
    match JobDataManager.out_results out with
    | Returns results =>
        let total_scraped := default 0 (results !! "total_scraped") in
        let total_saved := default 0 (results !! "total_saved") in
        let m2 := JobScrapingMetrics.record_run_success (tw_end w)
                    total_scraped total_saved m1 in
        (m2,
         invoked ::
         if Config.ENABLE_ERROR_NOTIFICATIONS cfg && (total_saved >? 0)
         then _send_notification (tw_slack_fails w)
                ("Job scraping successful: " +:+ pretty total_saved +:+ " new jobs added")
                "info"
         else [])
    | Raises e =>
        (JobScrapingMetrics.record_run_failure m1,
         invoked :: _send_alert (tw_slack_fails w)
                      ("Job scraping failed: " +:+ exn_str e))
    end.

(** The task as the scheduler object runs it. *)
Definition trigger (w : TaskWorld) (st : t) : t * list Event :=
  let '(m, evs) := scrape_jobs_task w (metrics st) in
  ({| metrics := m; running := running st; jobs := jobs st |}, evs).

(** A sequence of triggers, one after the other (the job is registered
    with [max_instances=1]): the state afterwards and the events of each
    trigger. *)
Fixpoint triggers (ws : list TaskWorld) (st : t) : t * list (list Event) :=
  match ws with
  | [] => (st, [])
  | w :: rest =>
      let '(st1, evs) := trigger w st in
      let '(st2, evss) := triggers rest st1 in
      (st2, evs :: evss)
  end.

(** How a call of [start()] ends. *)
Inductive StartOutcome : Type :=
  | Started
  | NotStarted            (* scraping is disabled: nothing is done *)
  | RaisedOverflowError.

(** [start()], [datetime.now()] reading [now]; [next_fire] is
    APScheduler's computation of a trigger's next run time.  The result is
    the scheduler afterwards and how the call ended.  [IntervalTrigger]
    takes as its start date the clock reading plus its interval, and that
    raises [OverflowError] when the sum leaves the range of [datetime] (an
    interval too long for a [timedelta] does so from any reading); so does
    the run date of the initial job.  Jobs added before
    [self.scheduler.start()] wait in the scheduler, which is not running
    yet. *)
Definition start (next_fire : Trigger -> datetime -> option datetime)
    (now : datetime) (st : t) : t * StartOutcome :=
  if negb (Config.SCRAPING_ENABLED cfg) then (st, NotStarted)
  else
    let mk id name tr :=
      {| job_id := id; job_name := name; job_trigger := tr;
         next_run_time := next_fire tr now |} in
    let interval := Config.SCRAPING_INTERVAL_MINUTES cfg in
    if negb (in_datetime_range (now + timedelta_seconds (interval_length interval))) then
      (st, RaisedOverflowError)
    else
      let jobs2 :=
        jobs st ++
        [ mk "job_scraping_task" "Job Scraping Task"
             (IntervalTrigger (interval_length interval));
          mk "job_cleanup_task" "Job Cleanup Task" (CronTrigger 2 0) ] in
      if negb (in_datetime_range (now + timedelta_seconds (interval_length 30))) then
        ({| metrics := metrics st; running := running st; jobs := jobs2 |},
         RaisedOverflowError)
      else
        let jobs3 :=
          jobs2 ++ [ mk "health_check_task" "Health Check Task"
                        (IntervalTrigger (interval_length 30)) ] in
        if negb (in_datetime_range (now + timedelta_seconds 30)) then
          ({| metrics := metrics st; running := true; jobs := jobs3 |},
           RaisedOverflowError)
        else
          ({| metrics := metrics st;
              running := true;
              jobs := jobs3 ++
                [ mk "initial_scraping_task" "Initial Job Scraping Task"
                     (DateTrigger (now + timedelta_seconds 30)) ] |},
           Started).

(** The channels a notification goes through, and how many of them one
    notification reaches: the webhook when one is configured, and the mail
    when a recipient and an SMTP user are configured and the post to the
    webhook, if there was one, did not raise. *)
Definition slack_configured : bool := Config.truthy (Config.SLACK_WEBHOOK_URL cfg).

Definition mail_configured : bool :=
  Config.truthy (Config.ERROR_NOTIFICATION_EMAIL cfg)
  && Config.truthy (Some (Config.SMTP_USER cfg)).

Definition channels_configured : nat :=
  ((if slack_configured then 1 else 0) + (if mail_configured then 1 else 0))%nat.

Definition channels_reached (slack_fails : bool) : nat :=
  ((if slack_configured then 1 else 0)
   + (if mail_configured && negb (slack_configured && slack_fails) then 1 else 0))%nat.

(** [get_status()] of the scheduler. *)
Definition get_status (now_health now_uptime : datetime) (st : t) : PyVal :=
  let jobs_info :=
    if running st then
      map (fun j =>
             PDict [ ("id", PStr (job_id j));
                     ("name", PStr (job_name j));
                     ("next_run", py_opt_iso (next_run_time j));
                     ("trigger", PTriggerStr (job_trigger j)) ])
          (jobs st)
    else [] in
  PDict [
    ("scheduler_running", PBool (running st));
    ("jobs", PList jobs_info);
    ("metrics", JobScrapingMetrics.get_status cfg now_health now_uptime (metrics st));
    ("configuration",
     PDict [
       ("scraping_enabled", PBool (Config.SCRAPING_ENABLED cfg));
       ("interval_minutes", PInt (Config.SCRAPING_INTERVAL_MINUTES cfg));
       ("max_jobs_per_run", PInt (Config.SCRAPING_MAX_JOBS_PER_RUN cfg));
       ("concurrent_requests", PInt (Config.SCRAPING_CONCURRENT_REQUESTS cfg));
       ("delay_between_requests", PFloat (Config.SCRAPING_DELAY_BETWEEN_REQUESTS cfg))
     ])
  ].

End WithSettings.

Definition is_scraper_invoked (e : Event) : bool :=
  match e with
  | ScraperInvoked _ _ _ => true
  | _ => false
  end.

(** An alert as it leaves the process: a post or a mail of level
    ["error"]. *)
Definition is_alert (e : Event) : bool :=
  match e with
  | SlackPost _ _ level | EmailSent _ _ level => String.eqb level "error"
  | ScraperInvoked _ _ _ => false
  end.

Definition alerts (evs : list Event) : list Event :=
  List.filter is_alert evs.

(** Whether an invocation was skipped: it returned before the scraper. *)
Definition skipped (cfg : Config.Settings) (m : JobScrapingMetrics.t) : bool :=
  negb (Config.SCRAPING_ENABLED cfg) || (JobScrapingMetrics.consecutive_failures m >=? 5).

(** The fingerprints of the jobs a task emitted. *)
Definition emitted (evs : list Event) : list string :=
  concat (map (fun e => match e with
                        | ScraperInvoked _ batch _ => Scraper._generate_job_hash <$> batch
                        | _ => []
                        end) evs).

(** The alert of a trigger that finds the breaker open. *)
Definition suspension_alert (cfg : Config.Settings) (w : TaskWorld) : list Event :=
  _send_alert cfg (tw_slack_fails w) "Job scraping disabled due to consecutive failures".

(** A trigger whose run, if it is made, fails: the scraper raises. *)
Definition run_fails (cfg : Config.Settings) (w : TaskWorld) : Prop :=
  exists e,
    JobDataManager.scrape_all_sources cfg (tw_run w) (Config.SCRAPING_MAX_JOBS_PER_RUN cfg)
    = Raises e.

End JobScrapingScheduler.

(** * Further parts of the three modules *)

(** ** Sequences of [acquire] calls *)

Module RateLimiterRuns.
Import RateLimiter.

(** What each call of a sequence of [acquire] calls returns, the clock
    reading [nows] one after the other. *)
Fixpoint outcomes (rl : t) (nows : list Q) : list (Result (option Q)) :=
  match nows with
  | [] => []
  | now :: rest => snd (acquire rl now) :: outcomes (fst (acquire rl now)) rest
  end.

End RateLimiterRuns.

(** ** What a trace of [_make_request] holds *)

Module ExecutorTraces.
Import Executor.

Definition is_backoff (e : Effect) : bool :=
  match e with
  | BackoffSleep _ => true
  | _ => false
  end.

(** The number of pauses the decorator made between attempts. *)
Definition backoffs (effs : list Effect) : nat :=
  length (List.filter is_backoff effs).

(** The lengths of those pauses. *)
Definition backoff_pauses (effs : list Effect) : list Q :=
  omap (fun e => match e with
                 | BackoffSleep s => Some s
                 | _ => None
                 end) effs.

(** A connection refused before the time limit of the decorator. *)
Definition refused_in_time {B : Type} (a : Attempt B) : Prop :=
  (exists m, at_net a = NetConnectionError m) /\ (at_elapsed a < max_time)%Q.

End ExecutorTraces.

(** ** What a run returns *)

Module RunCounts.

(** The sum of the counts a results dict holds for the four sources (a
    source without an entry counts for nothing). *)
Definition source_counts (results : gmap string Z) : Z :=
  default 0 (results !! "RemoteOK") + default 0 (results !! "Y Combinator")
  + default 0 (results !! "Wellfound") + default 0 (results !! "Otta").

End RunCounts.

(** ** Texts of environment variables *)

Module ConfigTexts.

(** Whether a text holds the character [c]. *)
Fixpoint holds (c : ascii) (s : string) : bool :=
  match s with
  | EmptyString => false
  | String c' r => Ascii.eqb c' c || holds c r
  end.

(** The characters [int(text)] can accept: digits, blanks, a sign, an
    underscore. *)
Definition int_char (c : ascii) : bool :=
  match Config.digit_value c with
  | Some _ => true
  | None => Config.is_space c || Ascii.eqb c "_" || Ascii.eqb c "+" || Ascii.eqb c "-"
  end.

End ConfigTexts.

(** ** The field parsers of the scraper *)

Module Parsers.

Definition is_digit (c : ascii) : bool :=
  match Config.digit_value c with
  | Some _ => true
  | None => false
  end.

(** The digits a text starts with. *)
Fixpoint take_digits (s : string) : string :=
  match s with
  | EmptyString => EmptyString
  | String c r => if is_digit c then String c (take_digits r) else EmptyString
  end.

(** [re.findall(r'\d+', text)[0]] when there is one: the first run of
    digits, as long as it goes. *)
Fixpoint first_digits (s : string) : option string :=
  match s with
  | EmptyString => None
  | String c r => if is_digit c then Some (String c (take_digits r)) else first_digits r
  end.

(** [int(digits)]: interpreters with a limit on the length of the text of
    an integer ([sys.get_int_max_str_digits()]) raise [ValueError] past
    it. *)
Definition int_of_digits (limit : option nat) (digits : string) : option Z :=
  match limit with
  | Some n => if (n <? String.length digits)%nat then None else Config.py_int digits
  | None => Config.py_int digits
  end.

(** [_parse_salary(salary_str)].  The argument is whatever the listing
    holds; the function reads its truth value and its text [str(salary_str)],
    and the bare [except] turns a failing conversion into [None]. *)
Definition _parse_salary (limit : option nat) (truthy : bool) (text : string) : option Z :=
  if negb truthy then None
  else
    match first_digits text with
    | Some digits =>
        match int_of_digits limit digits with
        | Some salary => Some (if salary <? 1000 then salary * 1000 else salary)
        | None => None
        end
    | None => None
    end.

(** [re.sub(r'<[^>]+>', '', text)], scanning from the left.  [inside] is
    [None] outside a tag and [Some buf] after a [<] whose [>] has not been
    met yet, [buf] being what followed the [<] so far.  A [>] closes the tag,
    which is dropped, unless it follows the [<] at once (the pattern asks for
    one character between them); a [<] that is never closed stays. *)
Fixpoint strip_tags_from (inside : option string) (s : string) : string :=
  match s with
  | EmptyString =>
      match inside with
      | None => EmptyString
      | Some buf => String "<" buf
      end
  | String c r =>
      match inside with
      | None =>
          if Ascii.eqb c "<" then strip_tags_from (Some EmptyString) r
          else String c (strip_tags_from None r)
      | Some buf =>
          if Ascii.eqb c ">" then
            if Config.is_empty buf
            then String "<" (String ">" (strip_tags_from None r))
            else strip_tags_from None r
          else strip_tags_from (Some (buf +:+ String c EmptyString)) r
      end
  end.

Definition strip_tags (s : string) : string := strip_tags_from None s.

(** [text.split()]: the words between runs of blanks; [word] is the word
    being read. *)
Fixpoint split_from (word : string) (s : string) : list string :=
  match s with
  | EmptyString => if Config.is_empty word then [] else [word]
  | String c r =>
      if Config.is_space c then
        if Config.is_empty word then split_from EmptyString r
        else word :: split_from EmptyString r
      else split_from (word +:+ String c EmptyString) r
  end.

Definition split (s : string) : list string := split_from EmptyString s.

(** [sep.join(words)]. *)
Fixpoint join (sep : string) (words : list string) : string :=
  match words with
  | [] => EmptyString
  | [word] => word
  | word :: rest => word +:+ sep +:+ join sep rest
  end.

(** [text[:n]]. *)
Fixpoint prefix (n : nat) (s : string) : string :=
  match n, s with
  | S n', String c r => String c (prefix n' r)
  | _, _ => EmptyString
  end.

(** [_clean_description(description)]. *)
Definition _clean_description (description : string) : string :=
  if Config.is_empty description then "Job description not available."
  else
    let clean_desc := strip_tags description in
    let clean_desc := join " " (split clean_desc) in
    if (2000 <? String.length clean_desc)%nat then prefix 2000 clean_desc +:+ "..."
    else clean_desc.

(** Whether a text holds a tag: a [<], a character other than [>], and a
    [>] somewhere after. *)
Fixpoint has_tag (s : string) : bool :=
  match s with
  | EmptyString => false
  | String c r =>
      (Ascii.eqb c "<"
       && match r with
          | String c' r' => negb (Ascii.eqb c' ">") && ConfigTexts.holds ">" r'
          | EmptyString => false
          end)
      || has_tag r
  end.

(** What squeezing the blanks may do to a text: characters other than
    blanks stay, a blank is dropped or becomes one space. *)
Inductive squeezes : string -> string -> Prop :=
  | squeezes_nil : squeezes "" ""
  | squeezes_keep c s t :
      Config.is_space c = false -> squeezes s t -> squeezes (String c s) (String c t)
  | squeezes_drop c s t :
      Config.is_space c = true -> squeezes s t -> squeezes (String c s) t
  | squeezes_space c s t :
      Config.is_space c = true -> squeezes s t -> squeezes (String c s) (String " " t).

(** The function on an [int] of the listing and on a [str]. *)
Definition parse_salary_int (limit : option nat) (z : Z) : option Z :=
  _parse_salary limit (negb (z =? 0)) (pretty z).

Definition parse_salary_str (limit : option nat) (s : string) : option Z :=
  _parse_salary limit (negb (Config.is_empty s)) s.

End Parsers.

(** ** The table [jobs], as the cleanups see it *)

Module JobsTable.

(** A row of [jobs]: its key and the column [posted_date], which may be
    NULL. *)
Record Row : Type := {
  row_id : Z;
  row_posted_date : option datetime
}.

(** [timedelta(days=d)]. *)
Definition timedelta_days (d : Z) : timedelta := d * 86400 * 1000000.

(** The SQL condition [posted_date < cutoff]: a row whose date is NULL
    does not satisfy it. *)
Definition posted_before (cutoff : datetime) (r : Row) : bool :=
  match row_posted_date r with
  | Some d => d <? cutoff
  | None => false
  end.

(** [db.query(Job).filter(Job.posted_date < cutoff).delete(...)]: the rows
    left and the number of rows deleted. *)
Definition delete_posted_before (cutoff : datetime) (table : list Row) : list Row * Z :=
  (List.filter (fun r => negb (posted_before cutoff r)) table,
   Z.of_nat (length (List.filter (posted_before cutoff) table))).

(** What the database session does during a cleanup: it works, it raises
    before the transaction is committed (opening it, the statement, the
    commit), or it raises when it is closed, after the commit. *)
Inductive Session : Type :=
  | Works
  | RaisesBeforeCommit (e : Exn)
  | RaisesAtClose (e : Exn).

End JobsTable.

(** ** The other tasks of the scheduler: [app/services/job_scheduler.py] *)

Module SchedulerTasks.
Import JobScrapingScheduler.

Definition is_mail (e : Event) : bool :=
  match e with
  | EmailSent _ _ _ => true
  | _ => false
  end.

Section WithSettings.
Variable cfg : Config.Settings.

(** [health_check_task()]: the status dict is built first (that reads the
    clock and cannot raise), then [is_healthy()] is asked,
    [datetime.now()] reading [now]. *)
Definition health_check_task (now : datetime) (slack_fails : bool)
    (m : JobScrapingMetrics.t) : list Event :=
  if negb (JobScrapingMetrics.is_healthy cfg now m) then
    _send_alert cfg slack_fails
      ("Job scraping system unhealthy: "
       +:+ pretty (JobScrapingMetrics.consecutive_failures m)
       +:+ " consecutive failures")
  else [].

(** [cleanup_old_jobs()] of the scheduler, [datetime.now()] reading [now]:
    the table afterwards and what the task sends.  A session that raises
    before the commit leaves the table as it was. *)
Definition cleanup_old_jobs (now : datetime) (session : JobsTable.Session)
    (slack_fails : bool) (table : list JobsTable.Row)
  : list JobsTable.Row * list Event :=
  let cutoff_date := now - JobsTable.timedelta_days 60 in
  let '(table', deleted_count) := JobsTable.delete_posted_before cutoff_date table in
  match session with
  | JobsTable.Works =>
      (table',
       if deleted_count >? 0
       then _send_notification cfg slack_fails
              ("Cleanup completed: removed " +:+ pretty deleted_count +:+ " old jobs")
              "info"
       else [])
  | JobsTable.RaisesBeforeCommit e =>
      (table, _send_alert cfg slack_fails ("Job cleanup failed: " +:+ exn_str e))
  | JobsTable.RaisesAtClose e =>
      (table', _send_alert cfg slack_fails ("Job cleanup failed: " +:+ exn_str e))
  end.

End WithSettings.

End SchedulerTasks.

(** ** The admin endpoints: [app/api/admin.py] *)

Module Admin.
Import JobsTable.

(** What an endpoint answers: a JSON body, or an [HTTPException]. *)
Inductive Response : Type :=
  | Json (body : PyVal)
  | HTTPException (status_code : Z) (detail : string).

Definition status_of (r : Response) : Z :=
  match r with
  | Json _ => 200
  | HTTPException status_code _ => status_code
  end.

(** The request body [ScrapingConfigUpdate]: every field may be absent. *)
Record ScrapingConfigUpdate : Type := {
  scraping_enabled : option bool;
  interval_minutes : option Z;
  max_jobs_per_run : option Z
}.

Definition entry {A : Type} (key : string) (val : A -> PyVal) (o : option A)
  : list (string * PyVal) :=
  match o with
  | Some a => [(key, val a)]
  | None => []
  end.

(** [update_scraping_config(config)]: the two checks re-raise their
    [HTTPException]; nothing is written anywhere. *)
Definition update_scraping_config (cfg : Config.Settings) (config : ScrapingConfigUpdate)
  : Response :=
  let updates := entry "scraping_enabled" PBool (scraping_enabled config) in
  if match interval_minutes config with
     | Some i => i <? 5
     | None => false
     end
  then HTTPException 400 "Interval must be at least 5 minutes"
  else
    let updates := updates ++ entry "interval_minutes" PInt (interval_minutes config) in
    if match max_jobs_per_run config with
       | Some n => (n <? 10) || (n >? 1000)
       | None => false
       end
    then HTTPException 400 "Max jobs per run must be between 10 and 1000"
    else
      let updates := updates ++ entry "max_jobs_per_run" PInt (max_jobs_per_run config) in
      Json (PDict [
        ("message", PStr "Configuration updated (restart required to take effect)");
        ("updates", PDict updates);
        ("current_config",
         PDict [ ("scraping_enabled", PBool (Config.SCRAPING_ENABLED cfg));
                 ("interval_minutes", PInt (Config.SCRAPING_INTERVAL_MINUTES cfg));
                 ("max_jobs_per_run", PInt (Config.SCRAPING_MAX_JOBS_PER_RUN cfg)) ])
      ]).

(** [trigger_manual_scraping(request, background_tasks)]: the answer and
    the calls of [run_enhanced_job_scraper] added to the background tasks,
    each with its [num_jobs].  The [HTTPException] of the check is raised
    inside the [try] whose only handler is [except Exception]: it is caught
    there and answered as a 500 whose detail is its text, [str_of 400 ...]
    (the text is the web framework's). *)
Definition trigger_manual_scraping (str_of : Z -> string -> string)
    (cfg : Config.Settings) (num_jobs : Z) : Response * list Z :=
  if negb (Config.SCRAPING_ENABLED cfg) then
    (HTTPException 500 (str_of 400 "Scraping is disabled in configuration"), [])
  else
    (Json (PDict [
       ("message", PStr ("Manual scraping started for " +:+ pretty num_jobs +:+ " jobs"));
       ("status", PStr "started") ]),
     [num_jobs]).

(** The background tasks run after the answer is sent: each is a run of
    the scraper, made without the scheduler and its metrics. *)
Definition run_background (cfg : Config.Settings) (w : Scraper.World) (tasks : list Z)
  : list JobScrapingScheduler.Event :=
  map (fun num_jobs =>
         let out := JobDataManager.run cfg w num_jobs in
         JobScrapingScheduler.ScraperInvoked num_jobs (JobDataManager.out_all_jobs out)
                                             (JobDataManager.out_effects out))
      tasks.

(** [cleanup_old_jobs(days_old, db)], [datetime.now()] reading [now]: the
    table afterwards and the answer.  [timedelta(days=...)] and the
    subtraction raise [OverflowError] out of their ranges ([overflow_text] is
    the text Python gives that error); that and a session that raises are
    answered as a 500 after a rollback. *)
Definition cleanup_old_jobs (overflow_text : string) (days_old : Z) (now : datetime)
    (session : Session) (table : list Row) : list Row * Response :=
  if days_old <? 30 then
    (table, HTTPException 400 "Cannot delete jobs newer than 30 days")
  else if 999999999 <? days_old then
    (table, HTTPException 500 overflow_text)
  else
    let cutoff_date := now - timedelta_days days_old in
    if cutoff_date <? datetime_min then
      (table, HTTPException 500 overflow_text)
    else
      match session with
      | RaisesBeforeCommit e => (table, HTTPException 500 (exn_str e))
      | _ =>
          let '(table', deleted_count) := delete_posted_before cutoff_date table in
          (table',
           Json (PDict [ ("message", PStr "Cleanup completed");
                         ("deleted_jobs", PInt deleted_count);
                         ("cutoff_date", PIsoformat cutoff_date) ]))
      end.

End Admin.

(** ** Concrete configurations and worlds used by the examples *)

Module Scenarios.
Import Executor Scraper.

(** The configuration of an empty environment: every default. *)
Definition defaults : Config.Settings :=
  {| Config.SCRAPING_ENABLED := true;
     Config.SCRAPING_INTERVAL_MINUTES := 60;
     Config.SCRAPING_MAX_JOBS_PER_RUN := 200;
     Config.SCRAPING_CONCURRENT_REQUESTS := 5;
     Config.SCRAPING_DELAY_BETWEEN_REQUESTS := 2%Q;
     Config.RATE_LIMIT_REQUESTS_PER_MINUTE := 100;
     Config.RATE_LIMIT_BURST_SIZE := 20;
     Config.ENABLE_REMOTEOK := true;
     Config.ENABLE_YCOMBINATOR := true;
     Config.ENABLE_WELLFOUND := true;
     Config.ENABLE_OTTA := true;
     Config.ENABLE_ERROR_NOTIFICATIONS := true;
     Config.ERROR_NOTIFICATION_EMAIL := None;
     Config.SLACK_WEBHOOK_URL := None;
     Config.SMTP_USER := "" |}.

(** A limiter as [EnhancedJobScraper()] builds it from the defaults. *)
Definition limiter0 : RateLimiter.t := RateLimiter.init 100 20 0%Q.

(** A source whose every request times out: attempt [k] starts [k]
    seconds after the first. *)
Definition always_timeout {B : Type} (k : nat) : Attempt B :=
  {| at_now := inject_Z (Z.of_nat k); at_draw := 0%Q; at_net := NetTimeout;
     at_elapsed := inject_Z (Z.of_nat k); at_backoff_draw := 0%Q |}.

(** A source whose every request is refused at connection. *)
Definition always_refused {B : Type} (k : nat) : Attempt B :=
  {| at_now := inject_Z (Z.of_nat k); at_draw := 0%Q;
     at_net := NetConnectionError "Cannot connect to host";
     at_elapsed := inject_Z (Z.of_nat k); at_backoff_draw := 0%Q |}.

(** A source that always answers 503. *)
Definition always_unavailable {B : Type} (body : B) (k : nat) : Attempt B :=
  {| at_now := inject_Z (Z.of_nat k); at_draw := 0%Q;
     at_net := NetResponse 503 "Service Unavailable" body;
     at_elapsed := inject_Z (Z.of_nat k); at_backoff_draw := 0%Q |}.

(** A sample job as a source lists it. *)
Definition sample (t c : string) : JobData :=
  {| title := t; company := c; description := ""; location := "Remote";
     salary_min := None; salary_max := None; job_type := "full-time";
     remote_type := "remote"; experience_level := "mid"; skills := [];
     external_url := ""; source := ""; posted_date := 0; source_id := "" |}.

(** A persistence whose session raises outside the handlers of
    [_save_jobs_to_database], and one that stores every job. *)
Definition session_raises (jobs : list JobData) : Result Z :=
  Raises (OtherError "Can't reconnect until invalid transaction is rolled back").

Definition db_saves_all (jobs : list JobData) : Result Z :=
  Returns (Z.of_nat (length jobs)).

(** A run in which RemoteOK and Y Combinator time out on every request
    and the sample sources draw the same job every time. *)
Definition network_down (persist : list JobData -> Result Z) : World :=
  {| w_time0 := 0%Q;
     w_remoteok := always_timeout;
     w_yc_companies := always_timeout;
     w_yc_jobs := fun _ => always_timeout;
     w_wellfound := fun _ => sample "Backend Engineer" "InnovateCo";
     w_otta := fun _ => sample "Senior Backend Engineer" "Monzo";
     w_persist := persist |}.

(** The trigger number [k] of a scheduler with hourly triggers. *)
Definition at_hour (k : Z) (run : World) : JobScrapingScheduler.TaskWorld :=
  {| JobScrapingScheduler.tw_start := k * 3600000000;
     JobScrapingScheduler.tw_end := k * 3600000000 + 5000000;
     JobScrapingScheduler.tw_run := run;
     JobScrapingScheduler.tw_slack_fails := false |}.

(** The defaults with a Slack webhook and four jobs per run. *)
Definition alerting : Config.Settings :=
  {| Config.SCRAPING_ENABLED := true;
     Config.SCRAPING_INTERVAL_MINUTES := 60;
     Config.SCRAPING_MAX_JOBS_PER_RUN := 4;
     Config.SCRAPING_CONCURRENT_REQUESTS := 5;
     Config.SCRAPING_DELAY_BETWEEN_REQUESTS := 2%Q;
     Config.RATE_LIMIT_REQUESTS_PER_MINUTE := 100;
     Config.RATE_LIMIT_BURST_SIZE := 20;
     Config.ENABLE_REMOTEOK := true;
     Config.ENABLE_YCOMBINATOR := true;
     Config.ENABLE_WELLFOUND := true;
     Config.ENABLE_OTTA := true;
     Config.ENABLE_ERROR_NOTIFICATIONS := true;
     Config.ERROR_NOTIFICATION_EMAIL := None;
     Config.SLACK_WEBHOOK_URL := Some "https://hooks.slack.com/services/T0/B0/x";
     Config.SMTP_USER := "" |}.

(** The same with Y Combinator switched off: three sources enabled. *)
Definition three_sources : Config.Settings :=
  {| Config.SCRAPING_ENABLED := true;
     Config.SCRAPING_INTERVAL_MINUTES := 60;
     Config.SCRAPING_MAX_JOBS_PER_RUN := 6;
     Config.SCRAPING_CONCURRENT_REQUESTS := 5;
     Config.SCRAPING_DELAY_BETWEEN_REQUESTS := 2%Q;
     Config.RATE_LIMIT_REQUESTS_PER_MINUTE := 100;
     Config.RATE_LIMIT_BURST_SIZE := 20;
     Config.ENABLE_REMOTEOK := true;
     Config.ENABLE_YCOMBINATOR := false;
     Config.ENABLE_WELLFOUND := true;
     Config.ENABLE_OTTA := true;
     Config.ENABLE_ERROR_NOTIFICATIONS := true;
     Config.ERROR_NOTIFICATION_EMAIL := None;
     Config.SLACK_WEBHOOK_URL := Some "https://hooks.slack.com/services/T0/B0/x";
     Config.SMTP_USER := "" |}.

(** Three sources enabled, RemoteOK being the one switched off. *)
Definition without_remoteok : Config.Settings :=
  {| Config.SCRAPING_ENABLED := true;
     Config.SCRAPING_INTERVAL_MINUTES := 60;
     Config.SCRAPING_MAX_JOBS_PER_RUN := 6;
     Config.SCRAPING_CONCURRENT_REQUESTS := 5;
     Config.SCRAPING_DELAY_BETWEEN_REQUESTS := 2%Q;
     Config.RATE_LIMIT_REQUESTS_PER_MINUTE := 100;
     Config.RATE_LIMIT_BURST_SIZE := 20;
     Config.ENABLE_REMOTEOK := false;
     Config.ENABLE_YCOMBINATOR := true;
     Config.ENABLE_WELLFOUND := true;
     Config.ENABLE_OTTA := true;
     Config.ENABLE_ERROR_NOTIFICATIONS := true;
     Config.ERROR_NOTIFICATION_EMAIL := None;
     Config.SLACK_WEBHOOK_URL := Some "https://hooks.slack.com/services/T0/B0/x";
     Config.SMTP_USER := "" |}.


(** An environment that asks for a run every minute with one job per run
    (the bounds of the specification are 5 minutes and [10, 1000]). *)
Definition out_of_bounds_env (name : string) : option string :=
  if String.eqb name "SCRAPING_INTERVAL_MINUTES" then Some "1"
  else if String.eqb name "SCRAPING_MAX_JOBS_PER_RUN" then Some "1"
  else None.

(** APScheduler's next run time, as far as the examples need it: an
    interval trigger fires one interval from now. *)
Definition next_fire (tr : Trigger) (now : datetime) : option datetime :=
  match tr with
  | IntervalTrigger seconds => Some (now + timedelta_seconds seconds)
  | CronTrigger _ _ => None
  | DateTrigger run_date => Some run_date
  end.

(** The scheduler of the alerting configuration, started at the origin of
    the clock. *)
Definition started : JobScrapingScheduler.t :=
  fst (JobScrapingScheduler.start alerting next_fire 0 JobScrapingScheduler.init).

(** Five triggers whose runs fail: the persistence session raises. *)
Definition five_failures : list JobScrapingScheduler.TaskWorld :=
  map (fun k => at_hour k (network_down session_raises)) [1; 2; 3; 4; 5].

(** A started scheduler after those five triggers. *)
Definition after_five_failures : JobScrapingScheduler.t :=
  fst (JobScrapingScheduler.triggers alerting five_failures
         started).

End Scenarios.

(** ** Further concrete worlds *)

Module Scenarios2.
Import Executor Scraper Scenarios.

(** A source that refuses the first connection and answers the second
    request with the listing [body]. *)
Definition refused_then_ok {B : Type} (body : B) (k : nat) : Attempt B :=
  {| at_now := inject_Z (Z.of_nat k); at_draw := (1 # 2)%Q;
     at_net := match k with
               | O => NetConnectionError "Cannot connect to host"
               | _ => NetResponse 200 "OK" body
               end;
     at_elapsed := inject_Z (Z.of_nat k); at_backoff_draw := (1 # 2)%Q |}.

(** A source that refuses every connection, the second attempt starting 61
    seconds after the first. *)
Definition refused_slowly {B : Type} (k : nat) : Attempt B :=
  {| at_now := inject_Z (61 * Z.of_nat k); at_draw := (1 # 2)%Q;
     at_net := NetConnectionError "Cannot connect to host";
     at_elapsed := inject_Z (61 * Z.of_nat k); at_backoff_draw := (1 # 2)%Q |}.

(** The alerting configuration with a mail recipient and an SMTP user
    besides the webhook. *)
Definition webhook_and_mail : Config.Settings :=
  {| Config.SCRAPING_ENABLED := true;
     Config.SCRAPING_INTERVAL_MINUTES := 60;
     Config.SCRAPING_MAX_JOBS_PER_RUN := 4;
     Config.SCRAPING_CONCURRENT_REQUESTS := 5;
     Config.SCRAPING_DELAY_BETWEEN_REQUESTS := 2%Q;
     Config.RATE_LIMIT_REQUESTS_PER_MINUTE := 100;
     Config.RATE_LIMIT_BURST_SIZE := 20;
     Config.ENABLE_REMOTEOK := true;
     Config.ENABLE_YCOMBINATOR := true;
     Config.ENABLE_WELLFOUND := true;
     Config.ENABLE_OTTA := true;
     Config.ENABLE_ERROR_NOTIFICATIONS := true;
     Config.ERROR_NOTIFICATION_EMAIL := Some "ops@jobright.ai";
     Config.SLACK_WEBHOOK_URL := Some "https://hooks.slack.com/services/T0/B0/x";
     Config.SMTP_USER := "scraper@jobright.ai" |}.

(** The trigger number [k] of a scheduler with hourly triggers, while the
    webhook cannot be reached. *)
Definition webhook_down (k : Z) (run : World) : JobScrapingScheduler.TaskWorld :=
  {| JobScrapingScheduler.tw_start := k * 3600000000;
     JobScrapingScheduler.tw_end := k * 3600000000 + 5000000;
     JobScrapingScheduler.tw_run := run;
     JobScrapingScheduler.tw_slack_fails := true |}.

(** Seven triggers whose runs fail. *)
Definition seven_failures : list JobScrapingScheduler.TaskWorld :=
  map (fun k => at_hour k (network_down session_raises)) [1; 2; 3; 4; 5; 6; 7].

(** A table with a job posted ten days before day 100, one posted ninety
    days before it, and one without a date. *)
Definition day (d : Z) : datetime := d * 86400 * 1000000.

Definition three_rows : list JobsTable.Row :=
  [ {| JobsTable.row_id := 1; JobsTable.row_posted_date := Some (day 90) |};
    {| JobsTable.row_id := 2; JobsTable.row_posted_date := Some (day 10) |};
    {| JobsTable.row_id := 3; JobsTable.row_posted_date := None |} ].

(** An environment that asks for a delay of two and a half seconds. *)
Definition fractional_delay_env (name : string) : option string :=
  if String.eqb name "SCRAPING_DELAY_BETWEEN_REQUESTS" then Some "2.5" else None.

(** Only the two sample sources. *)
Definition samples_only : Config.Settings :=
  {| Config.SCRAPING_ENABLED := true;
     Config.SCRAPING_INTERVAL_MINUTES := 60;
     Config.SCRAPING_MAX_JOBS_PER_RUN := 7;
     Config.SCRAPING_CONCURRENT_REQUESTS := 5;
     Config.SCRAPING_DELAY_BETWEEN_REQUESTS := 2%Q;
     Config.RATE_LIMIT_REQUESTS_PER_MINUTE := 100;
     Config.RATE_LIMIT_BURST_SIZE := 20;
     Config.ENABLE_REMOTEOK := false;
     Config.ENABLE_YCOMBINATOR := false;
     Config.ENABLE_WELLFOUND := true;
     Config.ENABLE_OTTA := true;
     Config.ENABLE_ERROR_NOTIFICATIONS := true;
     Config.ERROR_NOTIFICATION_EMAIL := None;
     Config.SLACK_WEBHOOK_URL := None;
     Config.SMTP_USER := "" |}.

(** A limiter without refill, its burst of two spent. *)
Definition spent_limiter : RateLimiter.t :=
  {| RateLimiter.requests_per_minute := 0; RateLimiter.burst_size := 2;
     RateLimiter.tokens := 0%Q; RateLimiter.last_update := 0%Q |}.

(** A request for a run every ten minutes with fifty jobs. *)
Definition modest_update : Admin.ScrapingConfigUpdate :=
  {| Admin.scraping_enabled := None;
     Admin.interval_minutes := Some 10;
     Admin.max_jobs_per_run := Some 50 |}.

End Scenarios2.

(** * Properties *)

(** ** The token bucket *)

Section RateLimiterFacts.
Import RateLimiter.
Local Open Scope Q_scope.

Lemma py_min_le_l a b : py_min a b <= a.
Proof. unfold py_min. destruct (Qlt_le_dec b a); cbn; lra. Qed.

Lemma py_min_cases a b : py_min a b == a \/ py_min a b == b.
Proof. unfold py_min. destruct (Qlt_le_dec b a); [right | left]; reflexivity. Qed.

Lemma acquire_burst_size rl now : burst_size (fst (acquire rl now)) = burst_size rl.
Proof.
  unfold acquire.
  destruct (Qle_bool 1 _); [reflexivity|].
  destruct (Qeq_bool _ _); reflexivity.
Qed.

(** One acquisition keeps the token count within its bounds, on each of
    its three paths. *)
Lemma acquire_in_range rl now :
  (0 <= burst_size rl)%Z -> tokens_in_range rl -> tokens_in_range (fst (acquire rl now)).
Proof.
  intros Hb [Hlo Hhi]. unfold tokens_in_range, acquire.
  assert (HB : 0 <= inject_Z (burst_size rl)).
  { change 0 with (inject_Z 0). rewrite <- Zle_Qle. exact Hb. }
  set (refilled := py_min _ _).
  pose proof (py_min_le_l (inject_Z (burst_size rl))
                (tokens rl + (now - last_update rl) * rate rl)) as Hle.
  fold refilled in Hle.
  destruct (Qle_bool 1 refilled) eqn:Hone; cbn [fst set_tokens tokens burst_size].
  - apply Qle_bool_iff in Hone. split; lra.
  - destruct (Qeq_bool (rate rl) 0) eqn:Hrate; cbn [fst set_tokens tokens burst_size].
    + apply Qeq_bool_iff in Hrate. split; [|exact Hle].
      destruct (py_min_cases (inject_Z (burst_size rl))
                  (tokens rl + (now - last_update rl) * rate rl)) as [He | He];
        fold refilled in He; rewrite He; [exact HB|].
      rewrite Hrate. lra.
    + split; lra.
Qed.

Lemma history_in_range nows : forall rl,
  (0 <= burst_size rl)%Z -> tokens_in_range rl -> Forall tokens_in_range (history rl nows).
Proof.
  induction nows as [|now rest IH]; intros rl Hb Hin; cbn [history].
  - constructor; [exact Hin | constructor].
  - constructor; [exact Hin|].
    apply IH.
    + rewrite acquire_burst_size. exact Hb.
    + apply acquire_in_range; assumption.
Qed.

Lemma init_in_range rpm burst now : (0 <= burst)%Z -> tokens_in_range (init rpm burst now).
Proof.
  intros Hb. unfold tokens_in_range, init; cbn.
  split; [|lra].
  change 0 with (inject_Z 0). rewrite <- Zle_Qle. exact Hb.
Qed.

(** C7.  For a limiter built with a burst size that is not negative, and
    for any sequence of [acquire] calls at any clock readings, the token
    count stays between 0 and the burst size in every state visited: before
    the first call and after each call, whichever path the call takes
    (immediate, waiting and then set to zero, or raising). *)
Theorem tokens_stay_in_range (rpm burst : Z) (now0 : Q) (nows : list Q) :
  (0 <= burst)%Z ->
  Forall tokens_in_range (history (init rpm burst now0) nows).
Proof.
  intros Hb. apply history_in_range; [exact Hb | apply init_in_range; exact Hb].
Qed.

Lemma tokens_stay_in_range_witness :
  Forall tokens_in_range (history (init 100 20 0) [0; 0; 1 # 10; 5; 4; 100]).
Proof. apply (tokens_stay_in_range 100 20 0 [0; 0; 1 # 10; 5; 4; 100]). lia. Defined.

(** The waiting path leaves the bucket empty. *)
Lemma acquire_waited_empties rl now rl' s :
  acquire rl now = (rl', Returns (Some s)) -> tokens rl' = 0.
Proof.
  unfold acquire. destruct (Qle_bool 1 _); [discriminate|].
  destruct (Qeq_bool _ _); [discriminate|].
  intros H; inversion H; reflexivity.
Qed.

End RateLimiterFacts.

(** ** The request executor *)

Section ExecutorFacts.
Import Executor.
Local Open Scope Q_scope.






End ExecutorFacts.

(** ** Retries *)

Section RetryFacts.
Import Executor.

Lemma attempts_app effs effs' : attempts (effs ++ effs') = (attempts effs + attempts effs')%nat.
Proof. unfold attempts. rewrite List.filter_app, length_app. reflexivity. Qed.

(** An attempt that reaches the network sends exactly one request. *)
Lemma request_once_attempts {B} cfg url rl (a : Attempt B) rl' effs r :
  request_once cfg url rl a = (rl', effs, r) -> (attempts effs <= 1)%nat.
Proof.
  unfold request_once.
  destruct (RateLimiter.acquire rl (at_now a)) as [rl1 [[s|] | e]];
    intros H; inversion H; subst; cbn; lia.
Qed.

(** The handlers inside the body turn a timeout and an HTTP error status
    into [JobScrapeError], which the decorator does not retry on. *)
Lemma send_timeout_not_retryable {B} url :
  exists e, send (B := B) url NetTimeout = Raises e /\ retryable e = false.
Proof. eexists; split; reflexivity. Qed.

Lemma send_status_not_retryable {B} url status message (body : B) :
  400 <= status ->
  exists e, send url (NetResponse status message body) = Raises e /\ retryable e = false.
Proof.
  intros H. unfold send. destruct (400 <=? status) eqn:E; [|lia].
  eexists; split; reflexivity.
Qed.

(** Whatever the first attempt meets, a timeout or an error status ends
    [_make_request] there: no second request is sent. *)
Lemma no_retry_after_timeout {B} cfg url rl (w : nat -> Attempt B) :
  at_net (w 0%nat) = NetTimeout ->
  let '(_, effs, r) := _make_request cfg url rl w in
  (attempts effs <= 1)%nat /\
  (r = Raises (JobScrapeError ("Request timeout for " +:+ url)) \/ r = Raises ZeroDivisionError).
Proof.
  intros Hnet. unfold _make_request. cbn [max_tries Nat.sub retry_from].
  destruct (request_once cfg url rl (w 0%nat)) as [[rl1 effs] r] eqn:Hreq.
  pose proof (request_once_attempts _ _ _ _ _ _ _ Hreq) as Hle.
  unfold request_once in Hreq. rewrite Hnet in Hreq.
  destruct (RateLimiter.acquire rl (at_now (w 0%nat))) as [rl2 [waited | e]] eqn:Hacq.
  - inversion Hreq; subst. cbn. split; [exact Hle | left; reflexivity].
  - inversion Hreq; subst.
    unfold RateLimiter.acquire in Hacq.
    destruct (Qle_bool 1 _); [discriminate|].
    destruct (Qeq_bool _ _); [|discriminate].
    inversion Hacq; subst. cbn. split; [lia | right; reflexivity].
Qed.

(** C3 on the code.  A source whose requests always time out is asked once:
    [_make_request] sends one request and raises [JobScrapeError], where the
    claim counts three attempts. *)
Theorem timeout_is_attempted_once :
  let '(_, effs, r) :=
    _make_request (B := Scraper.Listing) Scenarios.defaults "https://remoteok.io/api"
                  Scenarios.limiter0 Scenarios.always_timeout in
  attempts effs = 1%nat
  /\ r = Raises (JobScrapeError "Request timeout for https://remoteok.io/api").
Proof. vm_compute. split; reflexivity. Qed.

(** The same for a source that always answers 503. *)
Lemma unavailable_is_attempted_once :
  let '(_, effs, r) :=
    _make_request (B := Scraper.Listing) Scenarios.defaults "https://remoteok.io/api"
                  Scenarios.limiter0 (Scenarios.always_unavailable None) in
  attempts effs = 1%nat
  /\ r = Raises (JobScrapeError "HTTP 503: Service Unavailable").
Proof. vm_compute. split; reflexivity. Qed.

(** The decorator does its work on the one transient condition that
    reaches it, a connection error: three requests, then the error. *)
Lemma refused_is_attempted_three_times :
  let '(_, effs, r) :=
    _make_request (B := Scraper.Listing) Scenarios.defaults "https://remoteok.io/api"
                  Scenarios.limiter0 Scenarios.always_refused in
  attempts effs = 3%nat
  /\ r = Raises (ClientConnectionError "Cannot connect to host").
Proof. vm_compute. split; reflexivity. Qed.

(** No input makes [_make_request] send more than three requests. *)
Lemma retry_from_attempts {B} cfg url (w : nat -> Attempt B) :
  forall remaining k rl,
    let '(_, effs, _) := retry_from cfg url remaining k rl w in
    (attempts effs <= S remaining)%nat.
Proof.
  induction remaining as [|rem IH]; intros k rl; cbn [retry_from].
  - destruct (request_once cfg url rl (w k)) as [[rl1 effs] r] eqn:Hreq.
    pose proof (request_once_attempts _ _ _ _ _ _ _ Hreq).
    destruct r as [b | e]; [lia|]. destruct (retryable e); lia.
  - destruct (request_once cfg url rl (w k)) as [[rl1 effs] r] eqn:Hreq.
    pose proof (request_once_attempts _ _ _ _ _ _ _ Hreq).
    destruct r as [b | e]; [lia|].
    destruct (retryable e); [|lia].
    destruct (Qle_bool max_time (at_elapsed (w k))); [lia|].
    specialize (IH (S k) rl1).
    destruct (retry_from cfg url rem (S k) rl1 w) as [[rl2 effs'] r'].
    rewrite attempts_app. change (BackoffSleep ?s :: effs') with ([BackoffSleep s] ++ effs').
    rewrite attempts_app. cbn. lia.
Qed.

Lemma make_request_at_most_three {B} cfg url rl (w : nat -> Attempt B) :
  let '(_, effs, _) := _make_request cfg url rl w in (attempts effs <= 3)%nat.
Proof. apply (retry_from_attempts cfg url w 2%nat 0%nat rl). Qed.

End RetryFacts.

(** ** Run metrics *)

Section MetricsFacts.
Import JobScrapingMetrics.

(** C6, as the code has it.  [is_healthy] answers true exactly when a run
    has been recorded and, besides, either the last success is no older
    than 2 x the schedule interval or fewer than 3 runs failed in a row. *)
Theorem is_healthy_iff (cfg : Config.Settings) (now : datetime) (m : t) :
  is_healthy cfg now m = true <->
  last_run m <> None /\
  ((exists ls, last_success m = Some ls
               /\ now - ls <= timedelta_minutes (Config.SCRAPING_INTERVAL_MINUTES cfg * 2))
   \/ consecutive_failures m < 3).
Proof.
  unfold is_healthy.
  destruct (last_run m) as [lr|]; [|split; [discriminate | intros [H _]; congruence]].
  destruct (last_success m) as [ls|].
  - destruct (now - ls <=? _) eqn:E.
    + split; [|reflexivity]. intros _. split; [discriminate|].
      left. exists ls. split; [reflexivity | lia].
    + rewrite Z.ltb_lt. split.
      * intros H. split; [discriminate | right; exact H].
      * intros [_ [[ls' [Hls Hle]] | H]]; [|exact H].
        inversion Hls; subst. lia.
  - rewrite Z.ltb_lt. split.
    + intros H. split; [discriminate | right; exact H].
    + intros [_ [[ls' [Hls _]] | H]]; [discriminate | exact H].
Qed.

(** C6, as the specification states it, fails on the initial state: no
    run is recorded, the failure count 0 is below 3, and the answer is
    false. *)
Lemma initial_state_is_unhealthy :
  consecutive_failures init < 3
  /\ last_run init = None
  /\ is_healthy Scenarios.defaults 0 init = false.
Proof. repeat split. Qed.

End MetricsFacts.

(** ** The scheduled task *)

Section SchedulerFacts.
Import JobScrapingScheduler.
Variable cfg : Config.Settings.

Abbreviation cf := JobScrapingMetrics.consecutive_failures.

(** The two early returns of the task. *)
Lemma task_disabled w m :
  Config.SCRAPING_ENABLED cfg = false ->
  scrape_jobs_task cfg w m = (JobScrapingMetrics.record_run_start (tw_start w) m, []).
Proof. intros H. unfold scrape_jobs_task. rewrite H. reflexivity. Qed.

Lemma task_breaker_open w m :
  Config.SCRAPING_ENABLED cfg = true ->
  5 <= cf m ->
  scrape_jobs_task cfg w m =
  (JobScrapingMetrics.record_run_start (tw_start w) m,
   _send_alert cfg (tw_slack_fails w) "Job scraping disabled due to consecutive failures").
Proof.
  intros He Hc. unfold scrape_jobs_task. rewrite He. cbn [negb].
  cbn [JobScrapingMetrics.record_run_start JobScrapingMetrics.consecutive_failures].
  destruct (cf m >=? 5) eqn:E; [reflexivity | lia].
Qed.

(** Notifications never invoke the scraper. *)
Lemma notification_no_scraper slack_fails message level :
  List.filter is_scraper_invoked (_send_notification cfg slack_fails message level) = [].
Proof.
  unfold _send_notification.
  destruct (Config.SLACK_WEBHOOK_URL cfg) as [[|c u]|];
    destruct (Config.ERROR_NOTIFICATION_EMAIL cfg) as [[|c' r]|];
    cbn; try reflexivity;
    destruct (Config.SMTP_USER cfg); destruct slack_fails; reflexivity.
Qed.

(** C10.  An invocation that is skipped, because scraping is disabled or
    because the breaker is open, counts as a run (the run counter goes up by
    one and the time of the last run is the time of this invocation) and
    leaves the failure count, the time of the last success and both totals
    as they were; it does not invoke the scraper. *)
Theorem skipped_run_counts_as_run_only (w : TaskWorld) (m : JobScrapingMetrics.t) :
  skipped cfg m = true ->
  let '(m', evs) := scrape_jobs_task cfg w m in
  JobScrapingMetrics.total_runs m' = JobScrapingMetrics.total_runs m + 1
  /\ JobScrapingMetrics.last_run m' = Some (tw_start w)
  /\ cf m' = cf m
  /\ JobScrapingMetrics.last_success m' = JobScrapingMetrics.last_success m
  /\ JobScrapingMetrics.total_jobs_scraped m' = JobScrapingMetrics.total_jobs_scraped m
  /\ JobScrapingMetrics.total_jobs_saved m' = JobScrapingMetrics.total_jobs_saved m
  /\ List.filter is_scraper_invoked evs = [].
Proof.
  unfold skipped. intros Hs.
  destruct (Config.SCRAPING_ENABLED cfg) eqn:He.
  - cbn in Hs. rewrite task_breaker_open by (try assumption; lia).
    cbn. repeat split. apply notification_no_scraper.
  - rewrite task_disabled by assumption. cbn. repeat split.
Qed.

(** A run that is not skipped invokes the scraper, once. *)
Lemma unskipped_run_invokes_scraper w m :
  skipped cfg m = false ->
  exists batch effs,
    List.filter is_scraper_invoked (snd (scrape_jobs_task cfg w m))
    = [ScraperInvoked (Config.SCRAPING_MAX_JOBS_PER_RUN cfg) batch effs].
Proof.
  unfold skipped, scrape_jobs_task. intros Hs.
  apply orb_false_iff in Hs as [He Hc]. rewrite He.
  cbn [JobScrapingMetrics.record_run_start JobScrapingMetrics.consecutive_failures].
  rewrite Hc.
  destruct (JobDataManager.out_results _) as [results | e]; cbn [snd List.filter is_scraper_invoked].
  - do 2 eexists. f_equal.
    destruct (_ && _); [apply notification_no_scraper | reflexivity].
  - do 2 eexists. f_equal. apply notification_no_scraper.
Qed.

End SchedulerFacts.

Lemma skipped_run_counts_as_run_only_witness :
  let cfg := Scenarios.alerting in
  let w := Scenarios.at_hour 6 (Scenarios.network_down Scenarios.session_raises) in
  let m := JobScrapingScheduler.metrics Scenarios.after_five_failures in
  let '(m', evs) := JobScrapingScheduler.scrape_jobs_task cfg w m in
  JobScrapingMetrics.total_runs m' = JobScrapingMetrics.total_runs m + 1
  /\ JobScrapingMetrics.last_run m' = Some (JobScrapingScheduler.tw_start w)
  /\ JobScrapingMetrics.consecutive_failures m' = JobScrapingMetrics.consecutive_failures m
  /\ JobScrapingMetrics.last_success m' = JobScrapingMetrics.last_success m
  /\ JobScrapingMetrics.total_jobs_scraped m' = JobScrapingMetrics.total_jobs_scraped m
  /\ JobScrapingMetrics.total_jobs_saved m' = JobScrapingMetrics.total_jobs_saved m
  /\ List.filter JobScrapingScheduler.is_scraper_invoked evs = [].
Proof.
  intros cfg w m.
  apply (skipped_run_counts_as_run_only cfg w m).
  vm_compute. reflexivity.
Defined.

(** ** The circuit breaker *)

Section BreakerFacts.
Import JobScrapingScheduler.
Variable cfg : Config.Settings.
Hypothesis enabled : Config.SCRAPING_ENABLED cfg = true.

Abbreviation cf := JobScrapingMetrics.consecutive_failures.

Abbreviation suspension_alert := (JobScrapingScheduler.suspension_alert cfg).
Abbreviation run_fails := (JobScrapingScheduler.run_fails cfg).

(** While the breaker is open every trigger is skipped, the count stays,
    and every trigger sends the suspension alert again. *)
Lemma open_breaker_triggers ws : forall st,
  5 <= cf (metrics st) ->
  let '(st', evss) := triggers cfg ws st in
  cf (metrics st') = cf (metrics st)
  /\ running st' = running st
  /\ jobs st' = jobs st
  /\ evss = map suspension_alert ws.
Proof.
  induction ws as [|w rest IH]; intros st Hc; cbn [triggers].
  - repeat split.
  - unfold trigger. rewrite task_breaker_open by assumption.
    set (st1 := {| metrics := _; running := _; jobs := _ |}).
    specialize (IH st1 Hc).
    destruct (triggers cfg rest st1) as [st2 evss].
    destruct IH as (H1 & H2 & H3 & H4).
    subst evss. repeat split; assumption.
Qed.

(** An alert is made of alerts only, one for each channel it reaches. *)
Lemma alert_reaches_channels slack_fails message :
  alerts (_send_alert cfg slack_fails message) = _send_alert cfg slack_fails message
  /\ length (_send_alert cfg slack_fails message) = channels_reached cfg slack_fails.
Proof.
  unfold _send_alert, _send_notification, channels_reached, slack_configured,
    mail_configured, alerts.
  destruct (Config.SLACK_WEBHOOK_URL cfg) as [[|c u]|];
    destruct (Config.ERROR_NOTIFICATION_EMAIL cfg) as [[|c' r]|];
    destruct (Config.SMTP_USER cfg) as [|c'' user];
    destruct slack_fails; split; reflexivity.
Qed.

Lemma channels_reached_all slack_fails :
  slack_fails = false -> channels_reached cfg slack_fails = channels_configured cfg.
Proof.
  intros ->. unfold channels_reached, channels_configured.
  rewrite andb_false_r, andb_true_r. reflexivity.
Qed.

(** C4, as the code has it.  While the breaker is open the scheduler sends
    the suspension alert on every skipped trigger: a sequence of skipped
    triggers with no success or reset in between leaves the failure count
    as it is and emits, trigger by trigger, the alert of that trigger, which
    consists of one alert for each channel it reaches (the webhook when one
    is configured; the mail when it is configured and the post to the
    webhook, if any, did not raise).  When no post raises, n triggers emit n
    alerts on every configured channel. *)
Theorem alert_on_every_skipped_trigger (ws : list TaskWorld) (st : t) :
  5 <= cf (metrics st) ->
  let '(st', evss) := triggers cfg ws st in
  cf (metrics st') = cf (metrics st)
  /\ evss = map suspension_alert ws
  /\ Forall (fun evs => alerts evs = evs) evss
  /\ map (fun evs => length (alerts evs)) evss
     = map (fun w => channels_reached cfg (tw_slack_fails w)) ws
  /\ (Forall (fun w => tw_slack_fails w = false) ws ->
      length (alerts (concat evss)) = (length ws * channels_configured cfg)%nat).
Proof.
  intros Hc.
  pose proof (open_breaker_triggers ws st Hc) as H.
  destruct (triggers cfg ws st) as [st' evss].
  destruct H as (H1 & _ & _ & H4). subst evss.
  split; [exact H1|]. split; [reflexivity|].
  clear H1. split; [|split].
  - apply List.Forall_forall. intros evs Hin.
    apply in_map_iff in Hin as [w [<- _]].
    apply alert_reaches_channels.
  - induction ws as [|w rest IH]; [reflexivity|].
    cbn [map]. rewrite IH. f_equal.
    unfold suspension_alert, JobScrapingScheduler.suspension_alert.
    destruct (alert_reaches_channels (tw_slack_fails w)
                "Job scraping disabled due to consecutive failures") as [-> ->].
    reflexivity.
  - intros Hall. induction ws as [|w rest IH]; [reflexivity|].
    inversion Hall as [|? ? Hw Hrest]; subst.
    cbn [map concat length]. unfold alerts in *. rewrite List.filter_app, length_app.
    rewrite (IH Hrest).
    unfold suspension_alert, JobScrapingScheduler.suspension_alert.
    destruct (alert_reaches_channels (tw_slack_fails w)
                "Job scraping disabled due to consecutive failures") as [Ha Hl].
    unfold alerts in Ha. rewrite Ha, Hl, (channels_reached_all _ Hw). lia.
Qed.

(** A trigger whose run fails, with the breaker closed, adds one to the
    failure count. *)
Lemma failing_trigger w st e :
  cf (metrics st) < 5 ->
  JobDataManager.scrape_all_sources cfg (tw_run w) (Config.SCRAPING_MAX_JOBS_PER_RUN cfg)
    = Raises e ->
  let st' := fst (trigger cfg w st) in
  cf (metrics st') = cf (metrics st) + 1
  /\ running st' = running st /\ jobs st' = jobs st.
Proof.
  intros Hc Hrun. unfold trigger, scrape_jobs_task. rewrite enabled. cbn [negb].
  cbn [JobScrapingMetrics.record_run_start JobScrapingMetrics.consecutive_failures].
  destruct (cf (metrics st) >=? 5) eqn:E; [lia|].
  unfold JobDataManager.scrape_all_sources in Hrun. rewrite Hrun.
  cbn. repeat split.
Qed.

Lemma failing_triggers ws : forall st,
  Forall run_fails ws ->
  cf (metrics st) + Z.of_nat (length ws) <= 5 ->
  let st' := fst (triggers cfg ws st) in
  cf (metrics st') = cf (metrics st) + Z.of_nat (length ws)
  /\ running st' = running st /\ jobs st' = jobs st.
Proof.
  induction ws as [|w rest IH]; intros st Hall Hc; cbn [triggers].
  - cbn. repeat split. lia.
  - inversion Hall as [|? ? [e He] Hrest]; subst.
    cbn [length] in Hc.
    pose proof (failing_trigger w st e ltac:(lia) He) as (H1 & H2 & H3).
    destruct (trigger cfg w st) as [st1 evs]. cbn [fst] in *.
    specialize (IH st1 Hrest ltac:(lia)).
    destruct (triggers cfg rest st1) as [st2 evss]. cbn [fst] in *.
    destruct IH as (I1 & I2 & I3).
    cbn [length]. repeat split; [lia | congruence | congruence].
Qed.

Lemma status_reports_count now1 now2 st :
  py_get "scheduler_running" (get_status cfg now1 now2 st) = Some (PBool (running st))
  /\ (py_get "metrics" (get_status cfg now1 now2 st) ≫= py_get "consecutive_failures")
     = Some (PInt (cf (metrics st))).
Proof. split; reflexivity. Qed.

(** C5, as the code has it.  After 5 consecutive failing runs the 6th
    trigger performs no fetch: the task returns before the scraper is
    invoked, having sent the suspension alert.  The status then reports
    [consecutive_failures] = 5 under ["metrics"] and leaves
    ["scheduler_running"] as it was; the suspension shows in the status
    only through that count. *)
Theorem sixth_trigger_after_five_failures
    (ws : list TaskWorld) (w6 : TaskWorld) (st : t) (now1 now2 : datetime) :
  cf (metrics st) = 0 ->
  length ws = 5%nat ->
  Forall run_fails ws ->
  let st5 := fst (triggers cfg ws st) in
  let '(st6, evs6) := trigger cfg w6 st5 in
  let status := get_status cfg now1 now2 st6 in
  cf (metrics st5) = 5
  /\ evs6 = suspension_alert w6
  /\ List.filter is_scraper_invoked evs6 = []
  /\ (py_get "metrics" status ≫= py_get "consecutive_failures") = Some (PInt 5)
  /\ py_get "scheduler_running" status = Some (PBool (running st)).
Proof.
  intros Hc Hlen Hall st5.
  pose proof (failing_triggers ws st Hall ltac:(rewrite Hc, Hlen; lia)) as (H1 & H2 & H3).
  fold st5 in H1, H2, H3. rewrite Hc, Hlen in H1. cbn in H1.
  unfold trigger. rewrite task_breaker_open by (try assumption; lia).
  cbn zeta.
  split; [exact H1|]. split; [reflexivity|].
  split; [apply notification_no_scraper|].
  split.
  - cbn. rewrite H1. reflexivity.
  - cbn. rewrite H2. reflexivity.
Qed.

End BreakerFacts.

Section BreakerExamples.
Import JobScrapingScheduler Scenarios.

Lemma alert_on_every_skipped_trigger_witness :
  let ws := [at_hour 6 (network_down session_raises); at_hour 7 (network_down session_raises)] in
  let '(st', evss) := triggers alerting ws after_five_failures in
  JobScrapingMetrics.consecutive_failures (metrics st')
  = JobScrapingMetrics.consecutive_failures (metrics after_five_failures)
  /\ evss = map (suspension_alert alerting) ws
  /\ Forall (fun evs => alerts evs = evs) evss
  /\ map (fun evs => length (alerts evs)) evss
     = map (fun w => channels_reached alerting (tw_slack_fails w)) ws
  /\ (Forall (fun w => tw_slack_fails w = false) ws ->
      length (alerts (concat evss)) = (length ws * channels_configured alerting)%nat).
Proof.
  intros ws.
  apply (alert_on_every_skipped_trigger alerting eq_refl ws after_five_failures).
  vm_compute. discriminate.
Defined.

(** C4, as the specification states it, fails: two triggers in a row find
    the breaker open, nothing succeeds or resets the count in between, and
    each of them posts the suspension alert: two alerts in one episode. *)
Lemma two_skipped_triggers_two_alerts :
  let ws := [at_hour 6 (network_down session_raises); at_hour 7 (network_down session_raises)] in
  let '(st', evss) := triggers alerting ws after_five_failures in
  JobScrapingMetrics.consecutive_failures (metrics after_five_failures) = 5
  /\ JobScrapingMetrics.consecutive_failures (metrics st') = 5
  /\ JobScrapingMetrics.last_success (metrics st') = None
  /\ map (fun evs => length (alerts evs)) evss = [1%nat; 1%nat]
  /\ ~ (length (alerts (concat evss)) <= 1)%nat.
Proof. vm_compute. repeat split. intros H. inversion H. inversion H1. Qed.

Lemma sixth_trigger_after_five_failures_witness :
  let w6 := at_hour 6 (network_down db_saves_all) in
  let st := started in
  let st5 := fst (triggers alerting five_failures st) in
  let '(st6, evs6) := trigger alerting w6 st5 in
  let status := get_status alerting 21600000000 21600000000 st6 in
  JobScrapingMetrics.consecutive_failures (metrics st5) = 5
  /\ evs6 = suspension_alert alerting w6
  /\ List.filter is_scraper_invoked evs6 = []
  /\ (py_get "metrics" status ≫= py_get "consecutive_failures") = Some (PInt 5)
  /\ py_get "scheduler_running" status = Some (PBool (running st)).
Proof.
  intros w6 st.
  apply (sixth_trigger_after_five_failures alerting eq_refl five_failures w6 st
           21600000000 21600000000).
  - reflexivity.
  - reflexivity.
  - repeat constructor; exists (OtherError "Can't reconnect until invalid transaction is rolled back");
      vm_compute; reflexivity.
Defined.

(** C5, as the specification states it, fails in its second half: after
    five failing runs and the skipped sixth trigger the status dict holds no
    scheduler state at all.  No key and no string of it spells "suspended",
    ["scheduler_running"] is still true, and the only trace of the
    suspension is the failure count. *)
Lemma status_has_no_suspended_state :
  let '(st6, evs6) :=
    trigger alerting (at_hour 6 (network_down db_saves_all)) after_five_failures in
  let status := get_status alerting 21600000000 21600000000 st6 in
  List.filter is_scraper_invoked evs6 = []
  /\ mentions "suspend" status = false
  /\ py_get "scheduler_running" status = Some (PBool true)
  /\ py_get "metrics" status
     = Some (PDict [("last_run", PIsoformat 21600000000);
                    ("last_success", PNone);
                    ("consecutive_failures", PInt 5);
                    ("total_runs", PInt 6);
                    ("total_jobs_scraped", PInt 0);
                    ("total_jobs_saved", PInt 0);
                    ("is_healthy", PBool false);
                    ("uptime_minutes", PFloat (0 # 60000000))]).
Proof. vm_compute. repeat split. Qed.

End BreakerExamples.

(** ** Deduplication *)

Section DedupFacts.
Import Executor Scraper.
#[local] Set Warnings "-clear-no-such-hyp".

Lemma is_duplicate_first hashes jd :
  _generate_job_hash jd ∉ hashes ->
  _is_duplicate_job hashes jd = (false, {[_generate_job_hash jd]} ∪ hashes).
Proof. intros H. unfold _is_duplicate_job. rewrite decide_False by exact H. reflexivity. Qed.

Lemma is_duplicate_later hashes jd :
  _generate_job_hash jd ∈ hashes ->
  _is_duplicate_job hashes jd = (true, hashes).
Proof. intros H. unfold _is_duplicate_job. rewrite decide_True by exact H. reflexivity. Qed.

Lemma fresh_batch_nil before after : before ⊆ after -> fresh_batch before [] after.
Proof.
  intros H. split; [exact H|]. split; [constructor|].
  intros jd Hin. inversion Hin.
Qed.

Lemma fresh_batch_app h0 h1 h2 jobs1 jobs2 :
  fresh_batch h0 jobs1 h1 -> fresh_batch h1 jobs2 h2 -> fresh_batch h0 (jobs1 ++ jobs2) h2.
Proof.
  intros (Sub1 & N1 & New1) (Sub2 & N2 & New2). split; [set_solver|]. split.
  - rewrite fmap_app. apply NoDup_app. split; [exact N1|]. split; [|exact N2].
    intros h Hin1 Hin2.
    apply list_elem_of_fmap in Hin1 as [j1 [-> Hj1]].
    apply list_elem_of_fmap in Hin2 as [j2 [Heq Hj2]].
    destruct (New1 j1 Hj1) as [_ Hin]. destruct (New2 j2 Hj2) as [Hnot _].
    rewrite <- Heq in Hnot. contradiction.
  - intros jd Hin. apply elem_of_app in Hin as [Hin | Hin].
    + destruct (New1 jd Hin). split; [assumption | set_solver].
    + destruct (New2 jd Hin). split; [set_solver | assumption].
Qed.

(** The loop every adapter ends with. *)
Lemma keep_new_fresh items : forall hashes,
  fresh_batch hashes (fst (keep_new hashes items)) (snd (keep_new hashes items)).
Proof.
  induction items as [|jd rest IH]; intros hashes; cbn [keep_new].
  - apply fresh_batch_nil. reflexivity.
  - destruct (decide (_generate_job_hash jd ∈ hashes)) as [Hin | Hnot].
    + rewrite is_duplicate_later by exact Hin.
      specialize (IH hashes). destruct (keep_new hashes rest) as [jobs h']. exact IH.
    + rewrite is_duplicate_first by exact Hnot.
      specialize (IH ({[_generate_job_hash jd]} ∪ hashes)).
      destruct (keep_new _ rest) as [jobs h']. cbn [fst snd] in *.
      destruct IH as (Sub & N & New). split; [set_solver|]. split.
      * rewrite fmap_cons. apply NoDup_cons. split; [|exact N].
        intros Hin. apply list_elem_of_fmap in Hin as [j [Heq Hj]].
        destruct (New j Hj) as [Hn _]. rewrite <- Heq in Hn. set_solver.
      * intros j Hj. apply elem_of_cons in Hj as [-> | Hj].
        -- split; [exact Hnot | set_solver].
        -- destruct (New j Hj). split; [set_solver | assumption].
Qed.

Lemma keep_new_app items1 items2 hashes :
  keep_new hashes (items1 ++ items2)
  = (fst (keep_new hashes items1) ++ fst (keep_new (snd (keep_new hashes items1)) items2),
     snd (keep_new (snd (keep_new hashes items1)) items2)).
Proof.
  revert hashes. induction items1 as [|jd rest IH]; intros hashes; cbn [keep_new app fst snd].
  - destruct (keep_new hashes items2); reflexivity.
  - destruct (_is_duplicate_job hashes jd) as [dup h1].
    rewrite IH. destruct (keep_new h1 rest) as [jobs h2]. cbn [fst snd].
    destruct dup; reflexivity.
Qed.

(** A fingerprint once in the set stays there, whatever is seen next. *)
Lemma keep_new_grows items hashes : hashes ⊆ snd (keep_new hashes items).
Proof. apply (keep_new_fresh items hashes). Qed.

(** Items with fingerprints all new and all different pass unchanged. *)
Lemma keep_new_all_new items : forall hashes,
  NoDup (_generate_job_hash <$> items) ->
  (forall jd, (jd ∈ items) -> _generate_job_hash jd ∉ hashes) ->
  fst (keep_new hashes items) = items.
Proof.
  induction items as [|jd rest IH]; intros hashes Hnd Hnew; cbn [keep_new]; [reflexivity|].
  rewrite fmap_cons in Hnd. apply NoDup_cons in Hnd as [Hhd Hnd].
  rewrite is_duplicate_first by (apply Hnew; left).
  specialize (IH ({[_generate_job_hash jd]} ∪ hashes) Hnd).
  destruct (keep_new _ rest) as [jobs h']. cbn [fst] in *.
  f_equal. apply IH. intros j Hj Hin.
  apply elem_of_union in Hin as [Hin | Hin].
  - apply elem_of_singleton in Hin. apply Hhd. rewrite <- Hin.
    apply list_elem_of_fmap. exists j. split; [reflexivity | exact Hj].
  - apply (Hnew j); [right; exact Hj | exact Hin].
Qed.

Section Adapters.
Variable cfg : Config.Settings.
Variable w : World.

Lemma remoteok_ok limit : adapter_ok (fun s => scrape_remoteok_jobs cfg w s limit).
Proof.
  intros s. unfold scrape_remoteok_jobs.
  destruct (Config.ENABLE_REMOTEOK cfg); cbn [negb];
    [|apply fresh_batch_nil; reflexivity].
  destruct (_make_request _ _ _ _) as [[rl effs] [[data|] | e]];
    try (apply fresh_batch_nil; reflexivity).
  pose proof (keep_new_fresh (well_formed (take (Z.to_nat limit) (drop 1 data)))
                (scraped_job_hashes s)) as H.
  destruct (keep_new _ _) as [jobs hashes]. exact H.
Qed.

Lemma yc_companies_ok companies : forall i, adapter_ok (yc_companies cfg w i companies).
Proof.
  induction companies as [|[c|] rest IH]; intros i s; cbn [yc_companies].
  - apply fresh_batch_nil. reflexivity.
  - destruct (_make_request _ _ _ _) as [[rl effs] r].
    set (items := match r with Returns (Some items) => until_malformed items | _ => [] end).
    pose proof (keep_new_fresh items (scraped_job_hashes s)) as H.
    destruct (keep_new _ items) as [jobs hashes]. cbn [fst snd] in H.
    specialize (IH (S i) {| rate_limiter := rl; scraped_job_hashes := hashes |}).
    destruct (yc_companies cfg w (S i) rest _) as [[jobs' s'] effs'].
    eapply fresh_batch_app; [exact H | exact IH].
  - apply IH.
Qed.

Lemma ycombinator_ok limit : adapter_ok (fun s => scrape_ycombinator_jobs cfg w s limit).
Proof.
  intros s. unfold scrape_ycombinator_jobs.
  destruct (Config.ENABLE_YCOMBINATOR cfg); cbn [negb];
    [|apply fresh_batch_nil; reflexivity].
  destruct (_make_request _ _ _ _) as [[rl effs] [[companies|] | e]];
    try (apply fresh_batch_nil; reflexivity).
  pose proof (yc_companies_ok (take (Z.to_nat limit) companies) 0%nat
                {| rate_limiter := rl; scraped_job_hashes := scraped_job_hashes s |}) as H.
  destruct (yc_companies _ _ _ _ _) as [[jobs s2] effs']. exact H.
Qed.

Lemma wellfound_ok limit : adapter_ok (fun s => scrape_wellfound_jobs cfg w s limit).
Proof.
  intros s. unfold scrape_wellfound_jobs.
  destruct (Config.ENABLE_WELLFOUND cfg); cbn [negb];
    [|apply fresh_batch_nil; reflexivity].
  pose proof (keep_new_fresh (_generate_wellfound_sample_jobs w limit)
                (scraped_job_hashes s)) as H.
  destruct (keep_new _ _) as [jobs hashes]. exact H.
Qed.

Lemma otta_ok limit : adapter_ok (fun s => scrape_otta_jobs cfg w s limit).
Proof.
  intros s. unfold scrape_otta_jobs.
  destruct (Config.ENABLE_OTTA cfg); cbn [negb];
    [|apply fresh_batch_nil; reflexivity].
  pose proof (keep_new_fresh (_generate_otta_sample_jobs w limit)
                (scraped_job_hashes s)) as H.
  destruct (keep_new _ _) as [jobs hashes]. exact H.
Qed.

(** The invariant of the loop over the tasks: the batch so far has no
    fingerprint twice and every fingerprint of it is in the scraper's
    set. *)
Lemma await_task_fresh enabled name task acc :
  adapter_ok task ->
  (let '(_, all_jobs, s, _) := acc in fresh_batch ∅ all_jobs (scraped_job_hashes s)) ->
  let '(_, all_jobs, s, _) := JobDataManager.await_task enabled name task acc in
  fresh_batch ∅ all_jobs (scraped_job_hashes s).
Proof.
  intros Hok Hacc. destruct acc as [[[results all_jobs] s] effs].
  unfold JobDataManager.await_task. destruct enabled; [|exact Hacc].
  specialize (Hok s). destruct (task s) as [[jobs s'] effs'].
  eapply fresh_batch_app; eassumption.
Qed.

End Adapters.

(** The batch of one run holds no fingerprint twice. *)
Lemma run_batch_nodup cfg w total_jobs :
  NoDup (_generate_job_hash <$> JobDataManager.out_all_jobs (JobDataManager.run cfg w total_jobs)).
Proof.
  unfold JobDataManager.run.
  destruct (Config.SCRAPING_ENABLED cfg); cbn [negb]; [|constructor].
  destruct (_ =? 0); [constructor|].
  set (limit := Z.max 1 _).
  set (acc0 := (_, _, Scraper.init cfg (w_time0 w), _)).
  assert (H0 : let '(_, all_jobs, s, _) := acc0 in
               fresh_batch ∅ all_jobs (scraped_job_hashes s)).
  { apply fresh_batch_nil. reflexivity. }
  pose proof (await_task_fresh (Config.ENABLE_REMOTEOK cfg) "RemoteOK" _ acc0
                (remoteok_ok cfg w limit) H0) as H1.
  set (acc1 := JobDataManager.await_task _ "RemoteOK" _ acc0) in *.
  pose proof (await_task_fresh (Config.ENABLE_YCOMBINATOR cfg) "Y Combinator" _ acc1
                (ycombinator_ok cfg w limit) H1) as H2.
  set (acc2 := JobDataManager.await_task _ "Y Combinator" _ acc1) in *.
  pose proof (await_task_fresh (Config.ENABLE_WELLFOUND cfg) "Wellfound" _ acc2
                (wellfound_ok cfg w limit) H2) as H3.
  set (acc3 := JobDataManager.await_task _ "Wellfound" _ acc2) in *.
  pose proof (await_task_fresh (Config.ENABLE_OTTA cfg) "Otta" _ acc3
                (otta_ok cfg w limit) H3) as H4.
  set (acc4 := JobDataManager.await_task _ "Otta" _ acc3) in *.
  destruct acc4 as [[[results all_jobs] s] effs]. cbn.
  apply H4.
Qed.

End DedupFacts.

Section DedupAcrossRuns.
Import Executor Scraper.
#[local] Set Warnings "-clear-no-such-hyp".

(** C2, as the code has it.  Within one scraper, that is within one run,
    the first [seen] call for a fingerprint answers false and marks it, and
    every later call answers true and changes nothing, so the batch of one
    run never holds the same fingerprint twice.  The set belongs to the
    scraper, and every run builds a new scraper whose set is empty: nothing
    is remembered from one scheduled run to the next. *)
Theorem dedup_holds_within_one_run
    (cfg : Config.Settings) (w : World) (total_jobs : Z) (now : Q)
    (hashes : gset string) (jd : JobData) (later : list JobData) :
  let '(first, h1) := _is_duplicate_job hashes jd in
  let h2 := snd (keep_new h1 later) in
  let '(again, h3) := _is_duplicate_job h2 jd in
  (first = false <-> _generate_job_hash jd ∉ hashes)
  /\ (_generate_job_hash jd ∈ h1)
  /\ again = true
  /\ h3 = h2
  /\ NoDup (_generate_job_hash <$>
              JobDataManager.out_all_jobs (JobDataManager.run cfg w total_jobs))
  /\ scraped_job_hashes (Scraper.init cfg now) = ∅.
Proof.
  assert (Hin1 : _generate_job_hash jd ∈ snd (_is_duplicate_job hashes jd)).
  { unfold _is_duplicate_job. case_decide; cbn; set_solver. }
  assert (Hfirst : fst (_is_duplicate_job hashes jd) = false
                   <-> _generate_job_hash jd ∉ hashes).
  { unfold _is_duplicate_job. case_decide; cbn; split; intros; try done. }
  destruct (_is_duplicate_job hashes jd) as [first h1]. cbn [fst snd] in *.
  assert (Hin2 : _generate_job_hash jd ∈ snd (keep_new h1 later)).
  { pose proof (keep_new_grows later h1). set_solver. }
  rewrite is_duplicate_later by exact Hin2.
  split; [exact Hfirst|]. split; [exact Hin1|]. split; [reflexivity|].
  split; [reflexivity|]. split; [apply run_batch_nodup | reflexivity].
Qed.

(** C2, as the specification states it, fails: two scheduled triggers in
    the same process, the sources listing the same two jobs both times, and
    both runs emit both fingerprints. *)
Lemma second_run_emits_the_same_fingerprints :
  let ws := [Scenarios.at_hour 1 (Scenarios.network_down Scenarios.db_saves_all);
             Scenarios.at_hour 2 (Scenarios.network_down Scenarios.db_saves_all)] in
  map JobScrapingScheduler.emitted
      (snd (JobScrapingScheduler.triggers Scenarios.alerting ws JobScrapingScheduler.init))
  = [ ["backend engineer-innovateco-1000"; "senior backend engineer-monzo-2000"];
      ["backend engineer-innovateco-1000"; "senior backend engineer-monzo-2000"] ].
Proof. vm_compute. reflexivity. Qed.

End DedupAcrossRuns.

(** ** Run-level failure *)

Section RunFailure.
Import Executor Scraper JobDataManager.














End RunFailure.

Section RunClassification.
Import Executor Scraper JobDataManager JobScrapingScheduler.

Abbreviation cf := JobScrapingMetrics.consecutive_failures.



End RunClassification.

Section RunClassificationExamples.
Import Executor Scraper JobDataManager JobScrapingScheduler Scenarios.


(** The run of that example: RemoteOK times out on every fetch, the two
    sample sources list two jobs each, all four are emitted and the run is
    recorded as a success. *)
Lemma one_source_down_is_a_success :
  let w := at_hour 1 (network_down db_saves_all) in
  let out := run three_sources (tw_run w) 6 in
  let m' := fst (scrape_jobs_task three_sources w JobScrapingMetrics.init) in
  length (fetch_errors out) = 1%nat
  /\ (_generate_job_hash <$> out_all_jobs out)
     = ["backend engineer-innovateco-1000"; "backend engineer-innovateco-1001";
        "senior backend engineer-monzo-2000"; "senior backend engineer-monzo-2001"]
  /\ JobScrapingMetrics.consecutive_failures m' = 0
  /\ JobScrapingMetrics.last_success m' = Some (tw_end w)
  /\ JobScrapingMetrics.total_jobs_scraped m' = 4
  /\ JobScrapingMetrics.total_jobs_saved m' = 4.
Proof. vm_compute. repeat split. Qed.

(** The same with Y Combinator as the source that is down: RemoteOK is
    switched off, the list of companies times out on every fetch, the two
    sample sources list two jobs each and the run is recorded as a
    success. *)
Lemma ycombinator_down_is_a_success :
  let w := at_hour 1 (network_down db_saves_all) in
  let out := run without_remoteok (tw_run w) 6 in
  let m' := fst (scrape_jobs_task without_remoteok w JobScrapingMetrics.init) in
  length (fetch_errors out) = 1%nat
  /\ (_generate_job_hash <$> out_all_jobs out)
     = ["backend engineer-innovateco-1000"; "backend engineer-innovateco-1001";
        "senior backend engineer-monzo-2000"; "senior backend engineer-monzo-2001"]
  /\ JobScrapingMetrics.consecutive_failures m' = 0
  /\ JobScrapingMetrics.last_success m' = Some (tw_end w)
  /\ JobScrapingMetrics.total_jobs_scraped m' = 4
  /\ JobScrapingMetrics.total_jobs_saved m' = 4.
Proof. vm_compute. repeat split. Qed.


End RunClassificationExamples.

(** ** Loading the configuration *)

Section ConfigFacts.
Import Config.

Lemma lstrip_no_space s : all_chars (fun c => negb (is_space c)) s = true -> lstrip s = s.
Proof.
  destruct s as [|c r]; [reflexivity|]. cbn [all_chars lstrip].
  intros H. apply andb_true_iff in H as [Hc _].
  destruct (is_space c); [discriminate | reflexivity].
Qed.

Lemma rstrip_no_space s : all_chars (fun c => negb (is_space c)) s = true -> rstrip s = s.
Proof.
  induction s as [|c r IH]; [reflexivity|]. cbn [all_chars rstrip].
  intros H. apply andb_true_iff in H as [Hc Hr].
  rewrite (IH Hr). destruct (is_space c); [discriminate | reflexivity].
Qed.

Lemma digit_char_value d :
  (d < 10)%N -> digit_value (pretty_N_char d) = Some (Z.of_N d).
Proof.
  intros H.
  assert (d = 0 \/ d = 1 \/ d = 2 \/ d = 3 \/ d = 4 \/ d = 5 \/ d = 6 \/ d = 7
          \/ d = 8 \/ d = 9)%N as Hd by lia.
  repeat (destruct Hd as [-> | Hd]; [reflexivity|]). subst. reflexivity.
Qed.

Lemma digit_char_no_space d : is_space (pretty_N_char d) = false.
Proof. unfold pretty_N_char. repeat case_match; reflexivity. Qed.

(** The digits [pretty] writes contain no blank. *)
Lemma pretty_go_no_space x : forall s,
  all_chars (fun c => negb (is_space c)) s = true ->
  all_chars (fun c => negb (is_space c)) (pretty_N_go x s) = true.
Proof.
  induction (N.lt_wf_0 x) as [x _ IH]; intros s Hs.
  assert (x = 0 \/ 0 < x)%N as [-> | Hpos] by lia; [exact Hs|].
  rewrite pretty_N_go_step by exact Hpos.
  apply IH; [apply N.div_lt; lia|].
  cbn [all_chars]. rewrite digit_char_no_space, Hs. reflexivity.
Qed.

(** They start with a digit. *)
Lemma pretty_go_head x : forall s,
  (0 < x)%N -> exists d r, (d < 10)%N /\ pretty_N_go x s = String (pretty_N_char d) r.
Proof.
  induction (N.lt_wf_0 x) as [x _ IH]; intros s Hpos.
  rewrite pretty_N_go_step by exact Hpos.
  destruct (N.eq_0_gt_0_cases (x `div` 10)) as [Hz | Hq].
  - rewrite Hz, pretty_N_go_0. exists (x `mod` 10)%N, s.
    split; [apply N.mod_lt; lia | reflexivity].
  - apply IH; [apply N.div_lt; lia | exact Hq].
Qed.

(** Reading them back gives the number: [p] is the power of ten of their
    count. *)
Lemma digits_from_pretty_go x :
  (0 < x)%N ->
  exists p : Z, forall s acc after_digit,
    digits_from acc after_digit (pretty_N_go x s)
    = digits_from (acc * p + Z.of_N x) true s.
Proof.
  induction (N.lt_wf_0 x) as [x _ IH]; intros Hpos.
  assert (Hdm : Z.of_N x = 10 * Z.of_N (x `div` 10) + Z.of_N (x `mod` 10)).
  { rewrite (N.div_mod x 10) at 1 by lia. lia. }
  assert (Hd : (x `mod` 10 < 10)%N) by (apply N.mod_lt; lia).
  destruct (N.eq_0_gt_0_cases (x `div` 10)) as [Hz | Hq].
  - exists 10. intros s acc after_digit.
    rewrite pretty_N_go_step by exact Hpos. rewrite Hz, pretty_N_go_0.
    cbn [digits_from]. rewrite (digit_char_value _ Hd).
    f_equal. rewrite Hdm, Hz. lia.
  - destruct (IH (x `div` 10)%N ltac:(apply N.div_lt; lia) Hq) as [p Hp].
    exists (10 * p). intros s acc after_digit.
    rewrite pretty_N_go_step by exact Hpos. rewrite Hp.
    cbn [digits_from]. rewrite (digit_char_value _ Hd).
    f_equal. rewrite Hdm. lia.
Qed.

Lemma py_int_pretty_pos p : py_int (pretty (Zpos p)) = Some (Zpos p).
Proof.
  change (pretty (Zpos p)) with (pretty_N_go (Npos p) "").
  assert (Hns : all_chars (fun c => negb (is_space c)) (pretty_N_go (Npos p) "") = true)
    by (apply pretty_go_no_space; reflexivity).
  unfold py_int. rewrite (lstrip_no_space _ Hns), (rstrip_no_space _ Hns).
  destruct (digits_from_pretty_go (Npos p) ltac:(lia)) as [q Hq].
  assert (Hval : digits_from 0 false (pretty_N_go (Npos p) "") = Some (Zpos p)).
  { rewrite Hq. cbn [digits_from]. f_equal. }
  destruct (pretty_go_head (Npos p) "" ltac:(lia)) as (d & r & Hd & Hhead).
  rewrite Hhead in *.
  assert (d = 0 \/ d = 1 \/ d = 2 \/ d = 3 \/ d = 4 \/ d = 5 \/ d = 6 \/ d = 7
          \/ d = 8 \/ d = 9)%N as Hcases by lia.
  repeat (destruct Hcases as [-> | Hcases]; [exact Hval|]). subst. exact Hval.
Qed.

(** Python's [int] reads back every integer from its decimal text. *)
Lemma py_int_pretty (z : Z) : py_int (pretty z) = Some z.
Proof.
  destruct z as [|p|p].
  - reflexivity.
  - apply py_int_pretty_pos.
  - change (pretty (Zneg p)) with (String "-" (pretty_N_go (Npos p) "")).
    assert (Hns : all_chars (fun c => negb (is_space c))
                    (String "-" (pretty_N_go (Npos p) "")) = true).
    { cbn [all_chars]. rewrite pretty_go_no_space by reflexivity. reflexivity. }
    unfold py_int. rewrite (lstrip_no_space _ Hns), (rstrip_no_space _ Hns).
    destruct (digits_from_pretty_go (Npos p) ltac:(lia)) as [q Hq].
    rewrite Hq. reflexivity.
Qed.

(** Every character [pretty] writes for a number is a digit. *)
Lemma count_digits_pretty_go x : forall s,
  count_digits s = Z.of_nat (String.length s) ->
  count_digits (pretty_N_go x s) = Z.of_nat (String.length (pretty_N_go x s)).
Proof.
  induction (N.lt_wf_0 x) as [x _ IH]; intros s Hs.
  assert (x = 0 \/ 0 < x)%N as [-> | Hpos] by lia; [exact Hs|].
  rewrite pretty_N_go_step by exact Hpos.
  apply IH; [apply N.div_lt; lia|].
  assert (Hd : (x `mod` 10 < 10)%N) by (apply N.mod_lt; lia).
  cbn [count_digits String.length]. rewrite (digit_char_value _ Hd), Hs. lia.
Qed.

Lemma count_digits_pretty (z : Z) :
  count_digits (pretty z) = Z.of_nat (String.length (pretty (Z.abs z))).
Proof.
  destruct z as [|p|p].
  - reflexivity.
  - apply (count_digits_pretty_go (Npos p) ""). reflexivity.
  - change (pretty (Zneg p)) with (String "-" (pretty_N_go (Npos p) "")).
    change (pretty (Z.abs (Zneg p))) with (pretty_N_go (Npos p) "").
    cbn [count_digits]. change (digit_value "-") with (@None Z). cbv iota.
    apply (count_digits_pretty_go (Npos p) ""). reflexivity.
Qed.

(** Within the limit on its digits, [int] reads back an integer from its
    decimal text. *)
Lemma py_int_limited_pretty (z : Z) :
  (String.length (pretty (Z.abs z)) <= 4300)%nat ->
  py_int_limited (pretty z) = Some z.
Proof.
  intros Hlen. unfold py_int_limited, int_max_str_digits.
  rewrite count_digits_pretty.
  destruct (Z.ltb_spec 4300 (Z.of_nat (String.length (pretty (Z.abs z))))) as [Hlt|_];
    [lia | apply py_int_pretty].
Qed.

(** A text [int] cannot read is refused with or without the limit. *)
Lemma py_int_limited_none text : py_int text = None -> py_int_limited text = None.
Proof. intros Hbad. unfold py_int_limited. rewrite Hbad. destruct (_ <? _); reflexivity. Qed.

Lemma py_int_limited_some text z : py_int_limited text = Some z -> py_int text = Some z.
Proof. unfold py_int_limited. destruct (_ <? _); [discriminate | trivial]. Qed.

End ConfigFacts.

Section ConfigBounds.
Import Config JobScrapingScheduler.

Lemma load_env_with iv mj :
  (String.length (pretty (Z.abs iv)) <= 4300)%nat ->
  (String.length (pretty (Z.abs mj)) <= 4300)%nat ->
  load (env_with iv mj)
  = Some {| SCRAPING_ENABLED := true;
            SCRAPING_INTERVAL_MINUTES := iv;
            SCRAPING_MAX_JOBS_PER_RUN := mj;
            SCRAPING_CONCURRENT_REQUESTS := 5;
            SCRAPING_DELAY_BETWEEN_REQUESTS := 2%Q;
            RATE_LIMIT_REQUESTS_PER_MINUTE := 100;
            RATE_LIMIT_BURST_SIZE := 20;
            ENABLE_REMOTEOK := true;
            ENABLE_YCOMBINATOR := true;
            ENABLE_WELLFOUND := true;
            ENABLE_OTTA := true;
            ENABLE_ERROR_NOTIFICATIONS := true;
            ERROR_NOTIFICATION_EMAIL := None;
            SLACK_WEBHOOK_URL := None;
            SMTP_USER := "" |}.
Proof.
  intros Hiv Hmj. unfold load, env_int.
  change (getenv (env_with iv mj) "SCRAPING_INTERVAL_MINUTES" "60") with (pretty iv).
  change (getenv (env_with iv mj) "SCRAPING_MAX_JOBS_PER_RUN" "200") with (pretty mj).
  rewrite (py_int_limited_pretty iv Hiv), (py_int_limited_pretty mj Hmj). reflexivity.
Qed.

(** A text that is not an integer stops the load. *)
Lemma load_rejects_non_integer env text :
  env "SCRAPING_INTERVAL_MINUTES" = Some text -> py_int text = None -> load env = None.
Proof.
  intros Henv Hbad. unfold load, env_int, getenv.
  rewrite Henv, (py_int_limited_none _ Hbad). reflexivity.
Qed.

(** [start] with scraping enabled and the interval within reach of the
    clock: the scrape job is the first one registered, with the interval of
    the settings; out of reach, [start] raises and registers nothing. *)
Lemma start_registers_interval cfg next_fire now :
  SCRAPING_ENABLED cfg = true ->
  in_datetime_range (now + timedelta_seconds (interval_length (SCRAPING_INTERVAL_MINUTES cfg))) = true ->
  (job_trigger <$> head (jobs (fst (start cfg next_fire now init))))
  = Some (IntervalTrigger (interval_length (SCRAPING_INTERVAL_MINUTES cfg)))
  /\ (job_id <$> head (jobs (fst (start cfg next_fire now init)))) = Some "job_scraping_task".
Proof.
  intros He Hr. unfold start. rewrite He, Hr. cbn [negb].
  destruct (in_datetime_range (now + timedelta_seconds (interval_length 30))); cbn [negb];
    [|split; reflexivity].
  destruct (in_datetime_range (now + timedelta_seconds 30)); split; reflexivity.
Qed.

Lemma start_raises_out_of_range cfg next_fire now :
  SCRAPING_ENABLED cfg = true ->
  in_datetime_range (now + timedelta_seconds (interval_length (SCRAPING_INTERVAL_MINUTES cfg))) = false ->
  start cfg next_fire now init = (init, RaisedOverflowError).
Proof. intros He Hr. unfold start. rewrite He, Hr. reflexivity. Qed.

(** C9, as the code has it.  Loading converts the texts of the environment
    to integers and checks no bound: whatever integers the schedule interval
    and the per-run target count are set to (their decimal texts being within
    the 4300 digits [int] reads), the configuration is accepted with exactly
    these values, an interval below 5 minutes and a target outside 10..1000
    included.  The target count reaches the scrape task unchanged, as the
    argument it gives the scraper.  The interval reaches [start], which
    registers the scrape job with it whenever the first run time, the clock
    plus the interval, is a [datetime] (an interval of 0 minutes becoming
    one second); when it is not, [start] raises and registers no job.  No
    bound other than the range of [datetime] is checked. *)
Theorem integers_are_loaded_unchecked
    (iv mj : Z) (next_fire : Trigger -> datetime -> option datetime)
    (now : datetime) (w : TaskWorld) :
  (String.length (pretty (Z.abs iv)) <= 4300)%nat ->
  (String.length (pretty (Z.abs mj)) <= 4300)%nat ->
  exists cfg,
    load (env_with iv mj) = Some cfg
    /\ SCRAPING_INTERVAL_MINUTES cfg = iv
    /\ SCRAPING_MAX_JOBS_PER_RUN cfg = mj
    /\ within_bounds cfg = (5 <=? iv) && (10 <=? mj) && (mj <=? 1000)
    /\ (exists batch effs,
          List.filter is_scraper_invoked
            (snd (scrape_jobs_task cfg w JobScrapingMetrics.init))
          = [ScraperInvoked mj batch effs])
    /\ (in_datetime_range (now + timedelta_seconds (interval_length iv)) = true ->
        (job_trigger <$> head (jobs (fst (start cfg next_fire now init))))
        = Some (IntervalTrigger (interval_length iv))
        /\ (job_id <$> head (jobs (fst (start cfg next_fire now init))))
           = Some "job_scraping_task")
    /\ (in_datetime_range (now + timedelta_seconds (interval_length iv)) = false ->
        start cfg next_fire now init = (init, RaisedOverflowError)).
Proof.
  intros Hiv Hmj.
  eexists. split; [apply (load_env_with iv mj Hiv Hmj)|].
  split; [reflexivity|]. split; [reflexivity|]. split; [reflexivity|].
  split; [|split].
  - match goal with
    | |- context [scrape_jobs_task ?c _ _] =>
        exact (unskipped_run_invokes_scraper c w JobScrapingMetrics.init eq_refl)
    end.
  - intros Hr. apply start_registers_interval; [reflexivity | exact Hr].
  - intros Hr. apply start_raises_out_of_range; [reflexivity | exact Hr].
Qed.

Lemma integers_are_loaded_unchecked_witness :
  exists cfg,
    load (env_with 1 1) = Some cfg
    /\ SCRAPING_INTERVAL_MINUTES cfg = 1
    /\ SCRAPING_MAX_JOBS_PER_RUN cfg = 1
    /\ within_bounds cfg = (5 <=? 1) && (10 <=? 1) && (1 <=? 1000)
    /\ (exists batch effs,
          List.filter is_scraper_invoked
            (snd (scrape_jobs_task cfg
                    (Scenarios.at_hour 1 (Scenarios.network_down Scenarios.db_saves_all))
                    JobScrapingMetrics.init))
          = [ScraperInvoked 1 batch effs])
    /\ (in_datetime_range (0 + timedelta_seconds (interval_length 1)) = true ->
        (job_trigger <$> head (jobs (fst (start cfg Scenarios.next_fire 0 init))))
        = Some (IntervalTrigger (interval_length 1))
        /\ (job_id <$> head (jobs (fst (start cfg Scenarios.next_fire 0 init))))
           = Some "job_scraping_task")
    /\ (in_datetime_range (0 + timedelta_seconds (interval_length 1)) = false ->
        start cfg Scenarios.next_fire 0 init = (init, RaisedOverflowError)).
Proof.
  apply (integers_are_loaded_unchecked 1 1 Scenarios.next_fire 0
           (Scenarios.at_hour 1 (Scenarios.network_down Scenarios.db_saves_all))).
  - vm_compute. lia.
  - vm_compute. lia.
Defined.

(** C9, as the specification states it, fails: an interval of 1 minute and
    a target of 1 job are outside the bounds, the load accepts them, and
    the scheduler runs with them, the scrape job firing every 60 seconds. *)
Lemma out_of_bounds_values_are_loaded :
  exists cfg,
    load Scenarios.out_of_bounds_env = Some cfg
    /\ within_bounds cfg = false
    /\ SCRAPING_INTERVAL_MINUTES cfg = 1
    /\ SCRAPING_MAX_JOBS_PER_RUN cfg = 1
    /\ snd (start cfg Scenarios.next_fire 0 init) = Started
    /\ (job_trigger <$> head (jobs (fst (start cfg Scenarios.next_fire 0 init))))
       = Some (IntervalTrigger 60).
Proof. eexists. split; [vm_compute; reflexivity|]. repeat split. Qed.

End ConfigBounds.

(** * Further properties of the code *)

(** ** The request executor *)

Section ExecutorExtras.
Import Executor ExecutorTraces.
Local Open Scope Q_scope.

Lemma backoffs_app effs effs' : backoffs (effs ++ effs') = (backoffs effs + backoffs effs')%nat.
Proof. unfold backoffs. rewrite List.filter_app, length_app. reflexivity. Qed.

(** An attempt pauses for the limiter and the jitter only. *)
Lemma request_once_backoffs {B} cfg url rl (a : Attempt B) :
  backoffs (snd (fst (request_once cfg url rl a))) = 0%nat.
Proof.
  unfold request_once.
  destruct (RateLimiter.acquire rl (at_now a)) as [rl1 [[s|] | e]]; reflexivity.
Qed.

Lemma retry_from_counts {B} cfg url (w : nat -> Attempt B) :
  forall remaining k rl,
    let effs := snd (fst (retry_from cfg url remaining k rl w)) in
    (attempts effs <= S remaining)%nat
    /\ (backoffs effs <= remaining)%nat
    /\ (backoffs effs <= attempts effs)%nat.
Proof.
  induction remaining as [|rem IH]; intros k rl; cbn [retry_from];
    pose proof (request_once_backoffs cfg url rl (w k)) as Hb;
    destruct (request_once cfg url rl (w k)) as [[rl1 effs] r] eqn:Hreq;
    pose proof (request_once_attempts _ _ _ _ _ _ _ Hreq) as Ha;
    cbn [fst snd] in Hb.
  - destruct r as [b | e]; [|destruct (retryable e)]; cbn [fst snd]; lia.
  - destruct r as [b | e]; [cbn [fst snd]; lia|].
    destruct (retryable e) eqn:Hretry; [|cbn [fst snd]; lia].
    destruct (Qle_bool max_time (at_elapsed (w k))); [cbn [fst snd]; lia|].
    specialize (IH (S k) rl1).
    destruct (retry_from cfg url rem (S k) rl1 w) as [[rl2 effs'] r'].
    cbn [fst snd] in *.
    change (BackoffSleep ?s :: effs') with ([BackoffSleep s] ++ effs').
    rewrite !attempts_app, !backoffs_app. cbn.
    (* a retry follows a retryable error, which only a sent request raises *)
    assert (attempts effs = 1%nat).
    { unfold request_once in Hreq.
      destruct (RateLimiter.acquire rl (at_now (w k))) as [rl3 [waited | e3]] eqn:Hacq.
      - inversion Hreq; subst. destruct waited; reflexivity.
      - inversion Hreq; subst.
        unfold RateLimiter.acquire in Hacq.
        destruct (Qle_bool 1 _); [discriminate|].
        destruct (Qeq_bool _ _); [|discriminate].
        inversion Hacq; subst. discriminate. }
    lia.
Qed.

(** X1.  Whatever the network, the clock and the draws do, one call of
    [_make_request] sends at most three requests and pauses for backoff at
    most twice, never more often than it sent requests. *)
Theorem make_request_is_bounded {B} cfg url rl (w : nat -> Attempt B) :
  let effs := snd (fst (_make_request cfg url rl w)) in
  (attempts effs <= 3)%nat /\ (backoffs effs <= 2)%nat /\ (backoffs effs <= attempts effs)%nat.
Proof.
  intros effs. unfold effs, _make_request. cbn [max_tries Nat.sub].
  pose proof (retry_from_counts cfg url w 2%nat 0%nat rl) as H. cbv zeta in H.
  tauto.
Qed.

(** With a refill rate that is not zero the limiter never raises, and the
    attempt sends its request. *)
Lemma acquire_returns rl now :
  RateLimiter.requests_per_minute rl <> 0%Z ->
  exists waited, snd (RateLimiter.acquire rl now) = Returns waited
                 /\ RateLimiter.requests_per_minute (fst (RateLimiter.acquire rl now))
                    = RateLimiter.requests_per_minute rl.
Proof.
  intros Hrpm. unfold RateLimiter.acquire.
  destruct (Qle_bool 1 _); [eexists; split; reflexivity|].
  destruct (Qeq_bool (RateLimiter.rate rl) 0) eqn:Hrate; [|eexists; split; reflexivity].
  exfalso. apply Qeq_bool_iff in Hrate. unfold RateLimiter.rate in Hrate.
  apply Hrpm.
  unfold Qeq, Qdiv, Qmult, Qinv, inject_Z in Hrate. cbn in Hrate. lia.
Qed.

Lemma request_once_sends {B} cfg url rl (a : Attempt B) :
  RateLimiter.requests_per_minute rl <> 0%Z ->
  let '(rl', effs, r) := request_once cfg url rl a in
  RateLimiter.requests_per_minute rl' = RateLimiter.requests_per_minute rl
  /\ attempts effs = 1%nat
  /\ backoffs effs = 0%nat
  /\ backoff_pauses effs = []
  /\ r = send url (at_net a).
Proof.
  intros Hrpm. unfold request_once.
  destruct (acquire_returns rl (at_now a) Hrpm) as [waited [Hw Hr]].
  destruct (RateLimiter.acquire rl (at_now a)) as [rl1 r1]. cbn [fst snd] in *. subst r1.
  destruct waited; repeat split; assumption.
Qed.

Lemma retry_from_after_refusals {B} cfg url (w : nat -> Attempt B) :
  forall j remaining k rl,
    RateLimiter.requests_per_minute rl <> 0%Z ->
    (j <= remaining)%nat ->
    (forall i, (i < j)%nat -> refused_in_time (w (k + i)%nat)) ->
    (j = remaining
     \/ (forall e, send url (at_net (w (k + j)%nat)) = Raises e -> retryable e = false)
     \/ max_time <= at_elapsed (w (k + j)%nat)) ->
    let '(_, effs, r) := retry_from cfg url remaining k rl w in
    r = send url (at_net (w (k + j)%nat))
    /\ attempts effs = S j
    /\ backoffs effs = j.
Proof.
  induction j as [|j IH]; intros remaining k rl Hrpm Hle Hrefused Hlast;
    pose proof (request_once_sends cfg url rl (w k) Hrpm) as Hreq.
  - rewrite Nat.add_0_r in Hlast. rewrite Nat.add_0_r.
    destruct remaining as [|rem]; cbn [retry_from];
      destruct (request_once cfg url rl (w k)) as [[rl1 effs] r];
      destruct Hreq as (_ & Ha & Hb & _ & ->);
      destruct (send url (at_net (w k))) as [b | e] eqn:Hs;
      try (repeat split; assumption).
    + destruct (retryable e); repeat split; assumption.
    + destruct Hlast as [Hj | [Hnr | Hlate]]; [discriminate | |].
      * rewrite (Hnr e eq_refl). repeat split; assumption.
      * apply Qle_bool_iff in Hlate. rewrite Hlate.
        destruct (retryable e); repeat split; assumption.
  - destruct remaining as [|rem]; [lia|]. cbn [retry_from].
    destruct (Hrefused 0%nat ltac:(lia)) as [[m Hm] Het]. rewrite Nat.add_0_r in Hm, Het.
    destruct (request_once cfg url rl (w k)) as [[rl1 effs] r].
    destruct Hreq as (Hrpm1 & Ha & Hb & _ & ->).
    rewrite Hm. cbn [send retryable].
    destruct (Qle_bool max_time (at_elapsed (w k))) eqn:Hq.
    { apply Qle_bool_iff in Hq. lra. }
    specialize (IH rem (S k) rl1 ltac:(congruence) ltac:(lia)).
    assert (Hshift : forall i, (S k + i = k + S i)%nat) by (intros; lia).
    rewrite Hshift in IH.
    specialize (IH ltac:(intros i Hi; rewrite Hshift; apply Hrefused; lia)
                   ltac:(destruct Hlast as [Hj | Hnr]; [left; lia | right; exact Hnr])).
    destruct (retry_from cfg url rem (S k) rl1 w) as [[rl2 effs'] r'].
    destruct IH as (Hr & Ha' & Hb').
    split; [exact Hr|].
    change (BackoffSleep ?s :: effs') with ([BackoffSleep s] ++ effs').
    rewrite !attempts_app, !backoffs_app, Ha, Hb, Ha', Hb'. cbn. split; lia.
Qed.

(** X2.  Connection errors, and only they, are retried: after up to two
    refused connections a call of [_make_request] ends with whatever the next
    attempt meets.  A response below 400 is returned, a response from 400 on
    and a timeout are raised as [JobScrapeError], each after one request more
    than connections were refused and one backoff pause per refusal. *)
Theorem retried_until_something_other_than_refusal
    {B} cfg url rl (w : nat -> Attempt B) (j : nat) :
  RateLimiter.requests_per_minute rl <> 0%Z ->
  (j <= 2)%nat ->
  (forall i, (i < j)%nat -> refused_in_time (w i)) ->
  (forall m, at_net (w j) <> NetConnectionError m) ->
  let '(_, effs, r) := _make_request cfg url rl w in
  attempts effs = S j
  /\ backoffs effs = j
  /\ match at_net (w j) with
     | NetResponse status message body =>
         if (400 <=? status)%Z
         then r = Raises (JobScrapeError ("HTTP " +:+ pretty status +:+ ": " +:+ message))
         else r = Returns body
     | NetTimeout => r = Raises (JobScrapeError ("Request timeout for " +:+ url))
     | NetConnectionError _ => False
     end.
Proof.
  intros Hrpm Hj Hrefused Hother. unfold _make_request. cbn [max_tries Nat.sub].
  pose proof (retry_from_after_refusals cfg url w j 2%nat 0%nat rl Hrpm Hj Hrefused) as H.
  cbn [Nat.add] in H.
  assert (Hlast : forall e, send url (at_net (w j)) = Raises e -> retryable e = false).
  { intros e. destruct (at_net (w j)) as [status message body | m |]; cbn [send].
    - destruct (400 <=? status)%Z; [|discriminate]. intros He; inversion He; reflexivity.
    - destruct (Hother m eq_refl).
    - intros He; inversion He; reflexivity. }
  specialize (H (or_intror (or_introl Hlast))).
  destruct (retry_from cfg url 2 0 rl w) as [[rl' effs] r].
  destruct H as (Hr & Ha & Hb). split; [exact Ha|]. split; [exact Hb|].
  destruct (at_net (w j)) as [status message body | m |]; cbn [send] in Hr.
  - destruct (400 <=? status)%Z; exact Hr.
  - destruct (Hother m eq_refl).
  - exact Hr.
Qed.

(** X3.  A source that refuses every connection is asked exactly three
    times, with two backoff pauses in between, and the error of the third
    attempt is the one raised, provided the first two attempts started
    within the 60 seconds of the decorator. *)
Theorem refused_three_times {B} cfg url rl (w : nat -> Attempt B) (m : string) :
  RateLimiter.requests_per_minute rl <> 0%Z ->
  refused_in_time (w 0%nat) -> refused_in_time (w 1%nat) ->
  at_net (w 2%nat) = NetConnectionError m ->
  let '(_, effs, r) := _make_request cfg url rl w in
  attempts effs = 3%nat /\ backoffs effs = 2%nat /\ r = Raises (ClientConnectionError m).
Proof.
  intros Hrpm H0 H1 H2. unfold _make_request. cbn [max_tries Nat.sub].
  pose proof (retry_from_after_refusals cfg url w 2%nat 2%nat 0%nat rl Hrpm (le_n _)) as H.
  cbn [Nat.add] in H.
  specialize (H ltac:(intros i Hi; assert (i = 0 \/ i = 1)%nat as [-> | ->] by lia; assumption)
                (or_introl eq_refl)).
  destruct (retry_from cfg url 2 0 rl w) as [[rl' effs] r].
  destruct H as (Hr & Ha & Hb). rewrite H2 in Hr. cbn [send] in Hr.
  split; [exact Ha|]. split; [exact Hb | exact Hr].
Qed.

(** X4.  The 60 seconds of the decorator bound the retries: when the
    second attempt starts 60 seconds or more after the first and is refused
    too, no third attempt is made. *)
Theorem no_retry_after_sixty_seconds {B} cfg url rl (w : nat -> Attempt B) (m : string) :
  RateLimiter.requests_per_minute rl <> 0%Z ->
  refused_in_time (w 0%nat) ->
  at_net (w 1%nat) = NetConnectionError m ->
  max_time <= at_elapsed (w 1%nat) ->
  let '(_, effs, r) := _make_request cfg url rl w in
  attempts effs = 2%nat /\ backoffs effs = 1%nat /\ r = Raises (ClientConnectionError m).
Proof.
  intros Hrpm H0 Hm Hlate. unfold _make_request. cbn [max_tries Nat.sub].
  pose proof (retry_from_after_refusals cfg url w 1%nat 2%nat 0%nat rl Hrpm ltac:(lia)) as H.
  cbn [Nat.add] in H.
  specialize (H ltac:(intros i Hi; assert (i = 0)%nat as -> by lia; assumption)
                (or_intror (or_intror Hlate))).
  destruct (retry_from cfg url 2 0 rl w) as [[rl' effs] r].
  destruct H as (Hr & Ha & Hb). rewrite Hm in Hr. cbn [send] in Hr.
  split; [exact Ha|]. split; [exact Hb | exact Hr].
Qed.

Lemma backoff_pauses_app effs effs' :
  backoff_pauses (effs ++ effs') = backoff_pauses effs ++ backoff_pauses effs'.
Proof. unfold backoff_pauses. apply omap_app. Qed.

Lemma request_once_no_pause {B} cfg url rl (a : Attempt B) :
  backoff_pauses (snd (fst (request_once cfg url rl a))) = [].
Proof.
  unfold request_once.
  destruct (RateLimiter.acquire rl (at_now a)) as [rl1 [[s|] | e]]; reflexivity.
Qed.

Lemma backoff_seconds_range {B} (k : nat) (a : Attempt B) (top : Q) :
  0 <= at_backoff_draw a <= 1 ->
  at_elapsed a < max_time ->
  inject_Z (2 ^ Z.of_nat k) <= top ->
  0 <= backoff_seconds k a <= top.
Proof.
  intros [Hu0 Hu1] Het Htop. unfold backoff_seconds, uniform.
  assert (Hpow : 0 <= inject_Z (2 ^ Z.of_nat k)).
  { change 0 with (inject_Z 0). rewrite <- Zle_Qle. apply Z.pow_nonneg. lia. }
  set (p := inject_Z (2 ^ Z.of_nat k)) in *.
  assert (0 <= p * at_backoff_draw a) by (apply Qmult_le_0_compat; assumption).
  assert (0 <= p * (1 - at_backoff_draw a)) by (apply Qmult_le_0_compat; lra).
  pose proof (py_min_le_l (0 + (p - 0) * at_backoff_draw a) (max_time - at_elapsed a)).
  destruct (py_min_cases (0 + (p - 0) * at_backoff_draw a) (max_time - at_elapsed a)) as [He | He];
    rewrite He; split; lra.
Qed.

Lemma retry_from_pauses {B} cfg url (w : nat -> Attempt B) :
  (forall k, 0 <= at_backoff_draw (w k) <= 1) ->
  forall remaining k rl,
    Forall (fun s => 0 <= s <= inject_Z (2 ^ Z.of_nat (k + remaining - 1)))
           (backoff_pauses (snd (fst (retry_from cfg url remaining k rl w)))).
Proof.
  intros Hdraw. induction remaining as [|rem IH]; intros k rl; cbn [retry_from];
    pose proof (request_once_no_pause cfg url rl (w k)) as Hp;
    destruct (request_once cfg url rl (w k)) as [[rl1 effs] r]; cbn [fst snd] in Hp.
  - destruct r as [b | e]; [|destruct (retryable e)]; cbn [fst snd]; rewrite Hp; constructor.
  - destruct r as [b | e]; [cbn [fst snd]; rewrite Hp; constructor|].
    destruct (retryable e); [|cbn [fst snd]; rewrite Hp; constructor].
    destruct (Qle_bool max_time (at_elapsed (w k))) eqn:Hq;
      [cbn [fst snd]; rewrite Hp; constructor|].
    specialize (IH (S k) rl1).
    destruct (retry_from cfg url rem (S k) rl1 w) as [[rl2 effs'] r'].
    cbn [fst snd] in *.
    change (BackoffSleep ?s :: effs') with ([BackoffSleep s] ++ effs').
    rewrite !backoff_pauses_app, Hp. cbn [app backoff_pauses omap].
    replace (k + S rem - 1)%nat with (S k + rem - 1)%nat by lia.
    constructor; [|exact IH].
    apply backoff_seconds_range; [apply Hdraw | |].
    + destruct (Qlt_le_dec (at_elapsed (w k)) max_time) as [Hlt | Hge]; [exact Hlt|].
      apply Qle_bool_iff in Hge. congruence.
    + rewrite <- Zle_Qle. apply Z.pow_le_mono_r; lia.
Qed.

(** X5.  A backoff pause never lasts longer than two seconds and is never
    negative, whatever the network and the clock do (the draws of the jitter
    lying between 0 and 1). *)
Theorem backoff_pauses_at_most_two_seconds {B} cfg url rl (w : nat -> Attempt B) :
  (forall k, 0 <= at_backoff_draw (w k) <= 1) ->
  Forall (fun s => 0 <= s <= 2) (backoff_pauses (snd (fst (_make_request cfg url rl w)))).
Proof.
  intros Hdraw. unfold _make_request. cbn [max_tries Nat.sub].
  pose proof (retry_from_pauses cfg url w Hdraw 2%nat 0%nat rl) as H.
  cbn [Nat.add Nat.sub] in H. exact H.
Qed.

Lemma retried_until_something_other_than_refusal_witness :
  let '(_, effs, r) :=
    _make_request (B := Scraper.Listing) Scenarios.defaults "https://remoteok.io/api"
                  Scenarios.limiter0 (Scenarios2.refused_then_ok (Some [])) in
  attempts effs = 2%nat
  /\ backoffs effs = 1%nat
  /\ match at_net (Scenarios2.refused_then_ok (B := Scraper.Listing) (Some []) 1%nat) with
     | NetResponse status message body =>
         if (400 <=? status)%Z
         then r = Raises (JobScrapeError ("HTTP " +:+ pretty status +:+ ": " +:+ message))
         else r = Returns body
     | NetTimeout =>
         r = Raises (JobScrapeError ("Request timeout for " +:+ "https://remoteok.io/api"))
     | NetConnectionError _ => False
     end.
Proof.
  apply (retried_until_something_other_than_refusal
           Scenarios.defaults "https://remoteok.io/api" Scenarios.limiter0
           (Scenarios2.refused_then_ok (B := Scraper.Listing) (Some [])) 1%nat).
  - discriminate.
  - lia.
  - intros i Hi. assert (i = 0)%nat as -> by lia.
    split; [eexists; reflexivity | reflexivity].
  - intros m. discriminate.
Defined.

Lemma refused_three_times_witness :
  let '(_, effs, r) :=
    _make_request (B := Scraper.Listing) Scenarios.defaults "https://remoteok.io/api"
                  Scenarios.limiter0 Scenarios.always_refused in
  attempts effs = 3%nat /\ backoffs effs = 2%nat
  /\ r = Raises (ClientConnectionError "Cannot connect to host").
Proof.
  apply (refused_three_times Scenarios.defaults "https://remoteok.io/api" Scenarios.limiter0
           (Scenarios.always_refused (B := Scraper.Listing)) "Cannot connect to host").
  - discriminate.
  - split; [eexists; reflexivity | reflexivity].
  - split; [eexists; reflexivity | reflexivity].
  - reflexivity.
Defined.

Lemma no_retry_after_sixty_seconds_witness :
  let '(_, effs, r) :=
    _make_request (B := Scraper.Listing) Scenarios.defaults "https://remoteok.io/api"
                  Scenarios.limiter0 Scenarios2.refused_slowly in
  attempts effs = 2%nat /\ backoffs effs = 1%nat
  /\ r = Raises (ClientConnectionError "Cannot connect to host").
Proof.
  apply (no_retry_after_sixty_seconds Scenarios.defaults "https://remoteok.io/api"
           Scenarios.limiter0 (Scenarios2.refused_slowly (B := Scraper.Listing))
           "Cannot connect to host").
  - discriminate.
  - split; [eexists; reflexivity | reflexivity].
  - reflexivity.
  - vm_compute. discriminate.
Defined.

Lemma backoff_pauses_at_most_two_seconds_witness :
  Forall (fun s => 0 <= s <= 2)
         (backoff_pauses
            (snd (fst (_make_request (B := Scraper.Listing) Scenarios.defaults
                         "https://remoteok.io/api" Scenarios.limiter0
                         Scenarios.always_refused)))).
Proof.
  apply (backoff_pauses_at_most_two_seconds Scenarios.defaults "https://remoteok.io/api"
           Scenarios.limiter0 (Scenarios.always_refused (B := Scraper.Listing))).
  intros k. cbn. lra.
Defined.

End ExecutorExtras.

(** ** The token bucket over time *)

Section LimiterExtras.
Import RateLimiter RateLimiterRuns.
Local Open Scope Q_scope.

Lemma rate_pos rl : (0 < requests_per_minute rl)%Z -> 0 < rate rl.
Proof.
  intros H. unfold rate.
  assert (0 < inject_Z (requests_per_minute rl)).
  { change 0 with (inject_Z 0). rewrite <- Zlt_Qlt. exact H. }
  apply Qlt_shift_div_l; lra.
Qed.

Lemma acquire_rpm rl now :
  requests_per_minute (fst (acquire rl now)) = requests_per_minute rl.
Proof.
  unfold acquire. destruct (Qle_bool 1 _); [reflexivity|].
  destruct (Qeq_bool _ _); reflexivity.
Qed.

Lemma acquire_last_update rl now : last_update (fst (acquire rl now)) = now.
Proof.
  unfold acquire. destruct (Qle_bool 1 _); [reflexivity|].
  destruct (Qeq_bool _ _); reflexivity.
Qed.

Lemma py_min_when_le a b : b <= a -> py_min a b == b.
Proof.
  intros H. unfold py_min. destruct (Qlt_le_dec b a); cbn; [reflexivity | lra].
Qed.

(** Calls at one instant, from a bucket holding [n] tokens: [n] of them
    pass at once and the next one waits for a whole token. *)
Lemma burst_from (now : Q) (n : nat) : forall rl,
  (0 < requests_per_minute rl)%Z ->
  tokens rl == inject_Z (Z.of_nat n) ->
  last_update rl == now ->
  (Z.of_nat n <= burst_size rl)%Z ->
  exists s,
    outcomes rl (repeat now (S n)) = repeat (Returns None) n ++ [Returns (Some s)]
    /\ s == 60 / inject_Z (requests_per_minute rl).
Proof.
  induction n as [|n IH]; intros rl Hrpm Htok Hlu Hle;
    pose proof (rate_pos rl Hrpm) as Hrate;
    assert (Hx : tokens rl + (now - last_update rl) * rate rl == tokens rl)
      by (rewrite Hlu; ring).
  - cbn [repeat outcomes app].
    unfold acquire. set (refilled := py_min _ _).
    assert (Href : refilled == 0).
    { unfold refilled. rewrite py_min_when_le; rewrite Hx, Htok; [reflexivity|].
      change (inject_Z (Z.of_nat 0)) with 0.
      change 0 with (inject_Z 0). rewrite <- Zle_Qle. exact Hle. }
    destruct (Qle_bool 1 refilled) eqn:Hone.
    { apply Qle_bool_iff in Hone. lra. }
    destruct (Qeq_bool (rate rl) 0) eqn:Hz.
    { apply Qeq_bool_iff in Hz. lra. }
    cbn [fst snd]. eexists. split; [reflexivity|].
    rewrite Href. unfold rate. field.
    intros H0. unfold Qeq, inject_Z in H0. cbn in H0. lia.
  - cbn [repeat outcomes app].
    assert (Hsucc : inject_Z (Z.of_nat (S n)) == 1 + inject_Z (Z.of_nat n)).
    { rewrite Nat2Z.inj_succ, <- Z.add_1_l, inject_Z_plus. reflexivity. }
    assert (Hn0 : 0 <= inject_Z (Z.of_nat n)).
    { change 0 with (inject_Z 0). rewrite <- Zle_Qle. lia. }
    assert (Href : py_min (inject_Z (burst_size rl))
                     (tokens rl + (now - last_update rl) * rate rl)
                   == inject_Z (Z.of_nat (S n))).
    { rewrite py_min_when_le; rewrite Hx, Htok; [reflexivity|].
      rewrite <- Zle_Qle. exact Hle. }
    specialize (IH (fst (acquire rl now))).
    rewrite acquire_rpm, acquire_burst_size, acquire_last_update in IH.
    assert (Hacq : snd (acquire rl now) = Returns None
                   /\ tokens (fst (acquire rl now)) == inject_Z (Z.of_nat n)).
    { unfold acquire. set (refilled := py_min _ _) in *.
      destruct (Qle_bool 1 refilled) eqn:Hone.
      - cbn [fst snd set_tokens tokens]. split; [reflexivity|]. rewrite Href, Hsucc. ring.
      - assert (1 <= refilled) as Hge by lra.
        apply Qle_bool_iff in Hge. congruence. }
    destruct Hacq as [Hres Htok'].
    destruct (IH Hrpm Htok' ltac:(reflexivity) ltac:(lia)) as [s [Hout Hs]].
    exists s. split; [|exact Hs].
    rewrite Hres. cbn [repeat outcomes] in Hout. rewrite Hout. reflexivity.
Qed.

(** X8.  A fresh limiter lets exactly [burst_size] calls made at the instant
    of its creation through at once, and the call after them has to wait,
    for a positive time (rate and burst being integers a float holds
    exactly, up to 2^53). *)
Theorem burst_then_wait (rpm : Z) (burst : nat) (now : Q) :
  (0 < rpm <= 2 ^ 53)%Z ->
  (Z.of_nat burst <= 2 ^ 53)%Z ->
  exists s,
    outcomes (init rpm (Z.of_nat burst) now) (repeat now (S burst))
    = repeat (Returns None) burst ++ [Returns (Some s)]
    /\ 0 < s.
Proof.
  intros Hrpm _.
  destruct (burst_from now burst (init rpm (Z.of_nat burst) now) ltac:(cbn; lia))
    as [s [Hout Hs]]; try reflexivity.
  exists s. split; [exact Hout|].
  rewrite Hs. cbn [init requests_per_minute].
  apply Qlt_shift_div_l.
  - change 0 with (inject_Z 0). rewrite <- Zlt_Qlt. lia.
  - lra.
Qed.

Lemma burst_then_wait_witness :
  exists s,
    outcomes (init 100 (Z.of_nat 20) 0) (repeat 0 21)
    = repeat (Returns None) 20 ++ [Returns (Some s)]
    /\ 0 < s.
Proof. apply (burst_then_wait 100 20 0); lia. Defined.

End LimiterExtras.

(** ** Deduplication and the batch of a run *)

Section BatchExtras.
Import Executor Scraper JobDataManager RunCounts.
#[local] Set Warnings "-clear-no-such-hyp".

Lemma keep_new_sublist items : forall hashes, sublist (fst (keep_new hashes items)) items.
Proof.
  induction items as [|jd rest IH]; intros hashes; cbn [keep_new]; [constructor|].
  destruct (_is_duplicate_job hashes jd) as [dup h1].
  specialize (IH h1). destruct (keep_new h1 rest) as [jobs h2]. cbn [fst] in *.
  destruct dup; [apply sublist_cons | apply sublist_skip]; exact IH.
Qed.

Lemma keep_new_hashes items : forall hashes,
  snd (keep_new hashes items) = hashes ∪ list_to_set (_generate_job_hash <$> items).
Proof.
  induction items as [|jd rest IH]; intros hashes; cbn [keep_new].
  - cbn. set_solver.
  - unfold _is_duplicate_job. case_decide as Hin; cbn zeta iota beta.
    + specialize (IH hashes). destruct (keep_new hashes rest) as [jobs h2]. cbn [snd] in *.
      rewrite IH, fmap_cons. cbn [list_to_set]. set_solver.
    + specialize (IH ({[_generate_job_hash jd]} ∪ hashes)).
      destruct (keep_new _ rest) as [jobs h2]. cbn [snd] in *.
      rewrite IH, fmap_cons. cbn [list_to_set]. set_solver.
Qed.

(** X9.  Within a scraper the first job of each fingerprint wins: the jobs
    kept are a subsequence of the jobs listed, in their order; a job whose
    fingerprint is met neither in the set nor earlier in the listing is kept
    itself, while a job whose fingerprint was met before is dropped as if it
    had not been listed; and afterwards the set holds the fingerprints of all
    the jobs listed, kept or not. *)
Theorem first_of_each_fingerprint_is_kept
    (hashes : gset string) (before : list JobData) (jd : JobData) (after : list JobData) :
  let items := before ++ jd :: after in
  sublist (fst (keep_new hashes items)) items
  /\ snd (keep_new hashes items) = hashes ∪ list_to_set (_generate_job_hash <$> items)
  /\ ((_generate_job_hash jd ∉ hashes) ->
      (_generate_job_hash jd ∉ (_generate_job_hash <$> before)) ->
      jd ∈ fst (keep_new hashes items))
  /\ ((_generate_job_hash jd ∈ hashes) \/ (_generate_job_hash jd ∈ (_generate_job_hash <$> before)) ->
      keep_new hashes items = keep_new hashes (before ++ after)).
Proof.
  intros items. split; [apply keep_new_sublist|]. split; [apply keep_new_hashes|].
  unfold items. rewrite !keep_new_app. cbn [fst].
  assert (Hset : forall h, h ∈ snd (keep_new hashes before)
                           <-> h ∈ hashes \/ h ∈ (_generate_job_hash <$> before)).
  { intros h. rewrite keep_new_hashes. set_solver. }
  split.
  - intros Hnew Hfirst. apply elem_of_app. right.
    cbn [keep_new]. rewrite is_duplicate_first.
    + destruct (keep_new _ after) as [jobs h2]. cbn [fst]. left.
    + rewrite Hset. tauto.
  - intros Hseen. cbn [keep_new].
    rewrite is_duplicate_later by (rewrite Hset; exact Hseen).
    destruct (keep_new (snd (keep_new hashes before)) after); reflexivity.
Qed.

Ltac map_lookups :=
  repeat (rewrite lookup_insert_eq
          || (rewrite lookup_insert_ne by discriminate)
          || rewrite lookup_empty).

(** X10.  The counts of a run add up: in the dict [scrape_all_sources]
    returns, the entries of the sources sum to [total_scraped], which is the
    size of the batch handed to persistence; a source that is switched off
    has no entry. *)
Theorem source_counts_add_up cfg w total_jobs results :
  scrape_all_sources cfg w total_jobs = Returns results ->
  source_counts results = default 0 (results !! "total_scraped")
  /\ default 0 (results !! "total_scraped")
     = Z.of_nat (length (out_all_jobs (run cfg w total_jobs)))
  /\ (Config.ENABLE_REMOTEOK cfg = false -> results !! "RemoteOK" = None)
  /\ (Config.ENABLE_YCOMBINATOR cfg = false -> results !! "Y Combinator" = None)
  /\ (Config.ENABLE_WELLFOUND cfg = false -> results !! "Wellfound" = None)
  /\ (Config.ENABLE_OTTA cfg = false -> results !! "Otta" = None).
Proof.
  unfold scrape_all_sources, run, source_counts.
  destruct (Config.SCRAPING_ENABLED cfg); cbn [negb].
  2: { intros H; inversion H; subst. cbn [out_all_jobs length]. map_lookups. repeat split. }
  destruct (_ =? 0).
  { intros H; inversion H; subst. cbn [out_all_jobs length]. map_lookups. repeat split. }
  set (limit := Z.max 1 _). unfold await_task.
  destruct (Config.ENABLE_REMOTEOK cfg);
    [destruct (scrape_remoteok_jobs cfg w _ limit) as [[j1 s1] e1]|];
    (destruct (Config.ENABLE_YCOMBINATOR cfg);
     [destruct (scrape_ycombinator_jobs cfg w _ limit) as [[j2 s2] e2]|]);
    (destruct (Config.ENABLE_WELLFOUND cfg);
     [destruct (scrape_wellfound_jobs cfg w _ limit) as [[j3 s3] e3]|]);
    (destruct (Config.ENABLE_OTTA cfg);
     [destruct (scrape_otta_jobs cfg w _ limit) as [[j4 s4] e4]|]);
    cbn [out_results out_all_jobs];
    (destruct (_save_jobs_to_database w _) as [saved | e]; [|discriminate]);
    intros H; inversion H; subst; clear H;
    map_lookups; cbn [default];
    rewrite ?length_app, ?Nat2Z.inj_add; cbn [app length];
    repeat split; try discriminate; try reflexivity; unfold id; lia.
Qed.

Lemma source_counts_add_up_witness :
  let w := Scenarios.network_down Scenarios.db_saves_all in
  let results : gmap string Z :=
    <["total_saved" := 4]> (<["total_scraped" := 4]>
      (<["Otta" := 2]> (<["Wellfound" := 2]> (<["RemoteOK" := 0]> ∅)))) in
  source_counts results = default 0 (results !! "total_scraped")
  /\ default 0 (results !! "total_scraped")
     = Z.of_nat (length (out_all_jobs (run Scenarios.three_sources w 6)))
  /\ (Config.ENABLE_REMOTEOK Scenarios.three_sources = false -> results !! "RemoteOK" = None)
  /\ (Config.ENABLE_YCOMBINATOR Scenarios.three_sources = false
      -> results !! "Y Combinator" = None)
  /\ (Config.ENABLE_WELLFOUND Scenarios.three_sources = false -> results !! "Wellfound" = None)
  /\ (Config.ENABLE_OTTA Scenarios.three_sources = false -> results !! "Otta" = None).
Proof.
  intros w results.
  apply (source_counts_add_up Scenarios.three_sources w 6 results).
  vm_compute. reflexivity.
Defined.

Lemma keep_new_length items hashes :
  (length (fst (keep_new hashes items)) <= length items)%nat.
Proof. apply sublist_length, keep_new_sublist. Qed.

Lemma well_formed_length items : (length (well_formed items) <= length items)%nat.
Proof.
  unfold well_formed. induction items as [|[jd|] rest IH]; cbn; lia.
Qed.

Lemma remoteok_length cfg w s limit :
  (length (fst (fst (scrape_remoteok_jobs cfg w s limit))) <= Z.to_nat limit)%nat.
Proof.
  unfold scrape_remoteok_jobs.
  destruct (Config.ENABLE_REMOTEOK cfg); cbn [negb fst length]; [|lia].
  destruct (_make_request _ _ _ _) as [[rl effs] [[data|] | e]]; cbn [fst length]; try lia.
  pose proof (keep_new_length (well_formed (take (Z.to_nat limit) (drop 1 data)))
                (scraped_job_hashes s)) as H1.
  pose proof (well_formed_length (take (Z.to_nat limit) (drop 1 data))) as H2.
  rewrite length_take in H2.
  destruct (keep_new _ _) as [jobs hashes]. cbn [fst] in *. lia.
Qed.

Lemma wellfound_length cfg w s limit :
  (length (fst (fst (scrape_wellfound_jobs cfg w s limit))) <= Z.to_nat limit)%nat.
Proof.
  unfold scrape_wellfound_jobs.
  destruct (Config.ENABLE_WELLFOUND cfg); cbn [negb fst length]; [|lia].
  pose proof (keep_new_length (_generate_wellfound_sample_jobs w limit)
                (scraped_job_hashes s)) as H1.
  unfold _generate_wellfound_sample_jobs in H1 at 2. rewrite length_map, length_seq in H1.
  destruct (keep_new _ _) as [jobs hashes]. cbn [fst] in *. exact H1.
Qed.

Lemma otta_length cfg w s limit :
  (length (fst (fst (scrape_otta_jobs cfg w s limit))) <= Z.to_nat limit)%nat.
Proof.
  unfold scrape_otta_jobs.
  destruct (Config.ENABLE_OTTA cfg); cbn [negb fst length]; [|lia].
  pose proof (keep_new_length (_generate_otta_sample_jobs w limit)
                (scraped_job_hashes s)) as H1.
  unfold _generate_otta_sample_jobs in H1 at 2. rewrite length_map, length_seq in H1.
  destruct (keep_new _ _) as [jobs hashes]. cbn [fst] in *. exact H1.
Qed.

(** X11.  With Y Combinator switched off a run never emits more jobs than
    were asked for, or than three when fewer than three were asked for: each
    of the other sources stops at its share, and the share is at least one.
    (The share limits the companies Y Combinator is asked about, not their
    jobs, so no such bound holds when it is on.) *)
Theorem batch_within_target_without_ycombinator cfg w total_jobs :
  Config.ENABLE_YCOMBINATOR cfg = false ->
  Z.of_nat (length (out_all_jobs (run cfg w total_jobs))) <= Z.max total_jobs 3.
Proof.
  intros Hy. unfold run.
  destruct (Config.SCRAPING_ENABLED cfg); cbn [negb out_all_jobs length]; [|lia].
  rewrite Hy. unfold await_task.
  destruct (Config.ENABLE_REMOTEOK cfg) eqn:Hr;
    destruct (Config.ENABLE_WELLFOUND cfg) eqn:Hw;
    destruct (Config.ENABLE_OTTA cfg) eqn:Ho;
    cbn [bool_to_int];
    match goal with
    | |- context [(?e =? 0)] => let v := eval compute in e in change e with v
    end;
    cbn [Z.eqb out_all_jobs length]; try lia;
    match goal with
    | |- context [Z.max 1 (total_jobs / ?k)] => set (limit := Z.max 1 (total_jobs / k))
    end.
  all: repeat match goal with
       | |- context [scrape_remoteok_jobs ?c ?ww ?s ?l] =>
           generalize (remoteok_length c ww s l);
           destruct (scrape_remoteok_jobs c ww s l) as [[? ?] ?]; intro
       | |- context [scrape_wellfound_jobs ?c ?ww ?s ?l] =>
           generalize (wellfound_length c ww s l);
           destruct (scrape_wellfound_jobs c ww s l) as [[? ?] ?]; intro
       | |- context [scrape_otta_jobs ?c ?ww ?s ?l] =>
           generalize (otta_length c ww s l);
           destruct (scrape_otta_jobs c ww s l) as [[? ?] ?]; intro
       end.
  all: cbn [out_all_jobs fst app] in *; rewrite ?length_app; subst limit.
  all: match goal with
       | H : context [Z.div ?t ?k] |- _ => pose proof (Z.mul_div_le t k ltac:(lia))
       end.
  all: lia.
Qed.

Lemma batch_within_target_without_ycombinator_witness :
  Z.of_nat (length (out_all_jobs
                      (run Scenarios.three_sources
                           (Scenarios.network_down Scenarios.db_saves_all) 6)))
  <= Z.max 6 3.
Proof.
  apply (batch_within_target_without_ycombinator Scenarios.three_sources
           (Scenarios.network_down Scenarios.db_saves_all) 6).
  reflexivity.
Defined.

End BatchExtras.

(** ** The scheduled task over many triggers, and the health check *)

Section SchedulerExtras.
Import JobScrapingScheduler SchedulerTasks.
Variable cfg : Config.Settings.

Abbreviation cf := JobScrapingMetrics.consecutive_failures.

(** A skipped invocation, whichever of the two early returns it takes. *)
Lemma skipped_task w m :
  skipped cfg m = true ->
  fst (scrape_jobs_task cfg w m) = JobScrapingMetrics.record_run_start (tw_start w) m
  /\ List.filter is_scraper_invoked (snd (scrape_jobs_task cfg w m)) = [].
Proof.
  unfold skipped. intros Hs.
  destruct (Config.SCRAPING_ENABLED cfg) eqn:He.
  - cbn in Hs. rewrite task_breaker_open by (try assumption; lia).
    split; [reflexivity | apply notification_no_scraper].
  - rewrite task_disabled by assumption. split; reflexivity.
Qed.

(** X12.  Nothing in the scheduler closes the breaker again: once an
    invocation is skipped, because scraping is disabled or because five runs
    failed in a row, every later trigger is skipped too, whatever it would
    have met.  The scraper is never invoked again, the failure count, the
    time of the last success and the totals stay, and only the run counter
    goes on counting. *)
Theorem skipped_is_permanent (ws : list TaskWorld) : forall st : t,
  skipped cfg (metrics st) = true ->
  let '(st', evss) := triggers cfg ws st in
  skipped cfg (metrics st') = true
  /\ List.filter is_scraper_invoked (concat evss) = []
  /\ cf (metrics st') = cf (metrics st)
  /\ JobScrapingMetrics.last_success (metrics st')
     = JobScrapingMetrics.last_success (metrics st)
  /\ JobScrapingMetrics.total_jobs_scraped (metrics st')
     = JobScrapingMetrics.total_jobs_scraped (metrics st)
  /\ JobScrapingMetrics.total_jobs_saved (metrics st')
     = JobScrapingMetrics.total_jobs_saved (metrics st)
  /\ JobScrapingMetrics.total_runs (metrics st')
     = JobScrapingMetrics.total_runs (metrics st) + Z.of_nat (length ws).
Proof.
  induction ws as [|w rest IH]; intros st Hs; cbn [triggers].
  - cbn. repeat split; try assumption. lia.
  - unfold trigger.
    destruct (skipped_task w (metrics st) Hs) as [Hm Hev].
    destruct (scrape_jobs_task cfg w (metrics st)) as [m evs]. cbn [fst snd] in *.
    set (st1 := {| metrics := m; running := running st; jobs := jobs st |}).
    assert (Hs1 : skipped cfg (metrics st1) = true).
    { cbn. subst m. exact Hs. }
    specialize (IH st1 Hs1).
    destruct (triggers cfg rest st1) as [st2 evss].
    destruct IH as (I1 & I2 & I3 & I4 & I5 & I6 & I7).
    cbn [concat]. rewrite List.filter_app, Hev, I2.
    cbn [metrics st1] in *. subst m. cbn in *.
    repeat split; try assumption. lia.
Qed.

(** Every invocation records its start. *)
Lemma task_records_start w m :
  let m' := fst (scrape_jobs_task cfg w m) in
  JobScrapingMetrics.last_run m' = Some (tw_start w)
  /\ JobScrapingMetrics.total_runs m' = JobScrapingMetrics.total_runs m + 1.
Proof.
  unfold scrape_jobs_task.
  destruct (negb _); [split; reflexivity|].
  destruct (_ >=? 5); [split; reflexivity|].
  destruct (JobDataManager.out_results _); split; reflexivity.
Qed.

(** One invocation moves the failure count by at most one step up, to
    zero, or not at all, and never past five. *)
Lemma task_failure_count w m :
  0 <= cf m <= 5 ->
  0 <= cf (fst (scrape_jobs_task cfg w m)) <= 5.
Proof.
  intros Hc. unfold scrape_jobs_task.
  destruct (negb _); [cbn; lia|].
  cbn [JobScrapingMetrics.record_run_start JobScrapingMetrics.consecutive_failures].
  destruct (cf m >=? 5) eqn:E; [cbn; lia|].
  destruct (JobDataManager.out_results _); cbn; lia.
Qed.

(** X13.  The failure count of the scheduler never leaves 0..5, whatever
    the triggers meet, and every trigger, skipped or not, counts as one
    run. *)
Theorem failure_count_stays_within_five (ws : list TaskWorld) : forall st : t,
  0 <= cf (metrics st) <= 5 ->
  let st' := fst (triggers cfg ws st) in
  0 <= cf (metrics st') <= 5
  /\ JobScrapingMetrics.total_runs (metrics st')
     = JobScrapingMetrics.total_runs (metrics st) + Z.of_nat (length ws).
Proof.
  induction ws as [|w rest IH]; intros st Hc; cbn [triggers].
  - cbn. lia.
  - unfold trigger.
    pose proof (task_failure_count w (metrics st) Hc) as H1.
    pose proof (task_records_start w (metrics st)) as [_ H2].
    destruct (scrape_jobs_task cfg w (metrics st)) as [m evs]. cbn [fst] in *.
    set (st1 := {| metrics := m; running := running st; jobs := jobs st |}).
    specialize (IH st1 H1).
    destruct (triggers cfg rest st1) as [st2 evss]. cbn [fst] in *.
    cbn [metrics st1] in IH. cbn [length]. lia.
Qed.

(** A run that is made and returns is recorded as a success at the time
    it ends. *)
Lemma successful_task w m results :
  skipped cfg m = false ->
  JobDataManager.scrape_all_sources cfg (tw_run w) (Config.SCRAPING_MAX_JOBS_PER_RUN cfg)
  = Returns results ->
  let m' := fst (scrape_jobs_task cfg w m) in
  JobScrapingMetrics.last_run m' = Some (tw_start w)
  /\ JobScrapingMetrics.last_success m' = Some (tw_end w)
  /\ cf m' = 0.
Proof.
  unfold skipped, scrape_jobs_task, JobDataManager.scrape_all_sources. intros Hs Hrun.
  apply orb_false_iff in Hs as [He Hc]. rewrite He.
  cbn [JobScrapingMetrics.record_run_start JobScrapingMetrics.consecutive_failures].
  rewrite Hc, Hrun. cbn. repeat split.
Qed.

(** X14.  After a run that succeeded, every health check made within twice
    the schedule interval of the end of that run passes in silence: it
    sends nothing. *)
Theorem health_check_silent_after_success
    (w : TaskWorld) (m : JobScrapingMetrics.t) (results : gmap string Z)
    (now : datetime) (slack_fails : bool) :
  skipped cfg m = false ->
  JobDataManager.scrape_all_sources cfg (tw_run w) (Config.SCRAPING_MAX_JOBS_PER_RUN cfg)
  = Returns results ->
  now - tw_end w <= timedelta_minutes (Config.SCRAPING_INTERVAL_MINUTES cfg * 2) ->
  health_check_task cfg now slack_fails (fst (scrape_jobs_task cfg w m)) = [].
Proof.
  intros Hs Hrun Hnow.
  destruct (successful_task w m results Hs Hrun) as (H1 & H2 & H3).
  unfold health_check_task, JobScrapingMetrics.is_healthy.
  rewrite H1, H2.
  destruct (now - tw_end w <=? _) eqn:E; [reflexivity | lia].
Qed.

(** A run that is made and raises adds one to the failure count and
    leaves the time of the last success alone. *)
Lemma failing_task w m e :
  Config.SCRAPING_ENABLED cfg = true ->
  cf m < 5 ->
  JobDataManager.scrape_all_sources cfg (tw_run w) (Config.SCRAPING_MAX_JOBS_PER_RUN cfg)
  = Raises e ->
  let m' := fst (scrape_jobs_task cfg w m) in
  cf m' = cf m + 1
  /\ JobScrapingMetrics.last_success m' = JobScrapingMetrics.last_success m.
Proof.
  unfold scrape_jobs_task, JobDataManager.scrape_all_sources. intros He Hc Hrun.
  rewrite He. cbn [negb].
  cbn [JobScrapingMetrics.record_run_start JobScrapingMetrics.consecutive_failures].
  destruct (cf m >=? 5) eqn:E; [lia|].
  rewrite Hrun. cbn. split; reflexivity.
Qed.

(** Once a trigger has fired a run is on record. *)
Lemma triggers_last_run (ws : list TaskWorld) : forall st : t,
  JobScrapingMetrics.last_run (metrics st) <> None \/ ws <> [] ->
  JobScrapingMetrics.last_run (metrics (fst (triggers cfg ws st))) <> None.
Proof.
  induction ws as [|w rest IH]; intros st H; cbn [triggers].
  - cbn. destruct H as [H | H]; [exact H | congruence].
  - unfold trigger.
    pose proof (task_records_start w (metrics st)) as [Hlr _].
    destruct (scrape_jobs_task cfg w (metrics st)) as [m evs]. cbn [fst] in *.
    set (st1 := {| metrics := m; running := running st; jobs := jobs st |}).
    specialize (IH st1 ltac:(left; cbn; congruence)).
    destruct (triggers cfg rest st1) as [st2 evss]. exact IH.
Qed.

(** Failing runs in a row count up to five and stop there. *)
Lemma failing_triggers_saturate (ws : list TaskWorld) : forall st : t,
  Config.SCRAPING_ENABLED cfg = true ->
  Forall (run_fails cfg) ws ->
  0 <= cf (metrics st) <= 5 ->
  let st' := fst (triggers cfg ws st) in
  cf (metrics st') = Z.min 5 (cf (metrics st) + Z.of_nat (length ws))
  /\ JobScrapingMetrics.last_success (metrics st')
     = JobScrapingMetrics.last_success (metrics st).
Proof.
  induction ws as [|w rest IH]; intros st He Hall Hc; cbn [triggers].
  - cbn. split; [lia | reflexivity].
  - inversion Hall as [|? ? [e Hrun] Hrest]; subst.
    unfold trigger.
    pose proof (task_failure_count w (metrics st) Hc) as Hb.
    assert (Hstep : cf (fst (scrape_jobs_task cfg w (metrics st)))
                    = Z.min 5 (cf (metrics st) + 1)
                    /\ JobScrapingMetrics.last_success (fst (scrape_jobs_task cfg w (metrics st)))
                       = JobScrapingMetrics.last_success (metrics st)).
    { destruct (Z.eq_dec (cf (metrics st)) 5) as [E5 | N5].
      - rewrite task_breaker_open by (try assumption; lia). cbn. split; [lia | reflexivity].
      - destruct (failing_task w (metrics st) e He ltac:(lia) Hrun) as [F1 F2].
        split; [lia | assumption]. }
    destruct Hstep as [S1 S2].
    destruct (scrape_jobs_task cfg w (metrics st)) as [m evs]. cbn [fst] in *.
    set (st1 := {| metrics := m; running := running st; jobs := jobs st |}).
    specialize (IH st1 He Hrest Hb).
    destruct (triggers cfg rest st1) as [st2 evss]. cbn [fst] in *.
    cbn [metrics st1] in IH. destruct IH as (I1 & I2).
    cbn [length]. split; [lia | congruence].
Qed.

(** X15.  Three or more failing runs in a row, with no success within
    twice the schedule interval before the check, make every health check
    send the alert; the count it reports stops at five, where the breaker
    opens, however many triggers followed. *)
Theorem health_check_alerts_after_failures
    (ws : list TaskWorld) (st : t) (now : datetime) (slack_fails : bool) :
  Config.SCRAPING_ENABLED cfg = true ->
  Forall (run_fails cfg) ws ->
  0 <= cf (metrics st) <= 5 ->
  3 <= cf (metrics st) + Z.of_nat (length ws) ->
  ws <> [] ->
  (forall ls, JobScrapingMetrics.last_success (metrics st) = Some ls ->
              timedelta_minutes (Config.SCRAPING_INTERVAL_MINUTES cfg * 2) < now - ls) ->
  health_check_task cfg now slack_fails (metrics (fst (triggers cfg ws st)))
  = _send_alert cfg slack_fails
      ("Job scraping system unhealthy: "
       +:+ pretty (Z.min 5 (cf (metrics st) + Z.of_nat (length ws)))
       +:+ " consecutive failures").
Proof.
  intros He Hall Hc H3 Hne Hstale.
  pose proof (failing_triggers_saturate ws st He Hall Hc) as [H1 H2].
  pose proof (triggers_last_run ws st (or_intror Hne)) as Hlr.
  cbv zeta in H1, H2.
  set (m' := metrics (fst (triggers cfg ws st))) in *.
  unfold health_check_task, JobScrapingMetrics.is_healthy.
  destruct (JobScrapingMetrics.last_run m') as [lr|]; [|congruence].
  rewrite H2, H1.
  destruct (JobScrapingMetrics.last_success (metrics st)) as [ls|].
  - specialize (Hstale ls eq_refl).
    destruct (now - ls <=? _) eqn:E; [lia|].
    destruct (Z.min 5 _ <? 3) eqn:E3; [lia | reflexivity].
  - destruct (Z.min 5 _ <? 3) eqn:E3; [lia | reflexivity].
Qed.

(** A webhook that raises takes the mail with it. *)
Lemma notification_no_mail url message level :
  Config.SLACK_WEBHOOK_URL cfg = Some url -> Config.truthy (Some url) = true ->
  List.filter is_mail (_send_notification cfg true message level) = [].
Proof.
  intros Hurl Ht. unfold _send_notification. rewrite Hurl, Ht. reflexivity.
Qed.

(** X16.  With a webhook configured, a post to it that raises silences the
    mail channel as well: whatever an invocation of the scrape task or a
    health check has to report (a success, a failure, the suspension, an
    unhealthy system), no mail is sent, even with a recipient and an SMTP
    user configured. *)
Theorem failed_webhook_silences_mail
    (w : TaskWorld) (m : JobScrapingMetrics.t) (now : datetime) (url : string) :
  Config.SLACK_WEBHOOK_URL cfg = Some url -> Config.truthy (Some url) = true ->
  tw_slack_fails w = true ->
  List.filter is_mail (snd (scrape_jobs_task cfg w m)) = []
  /\ List.filter is_mail (health_check_task cfg now true m) = [].
Proof.
  intros Hurl Ht Hf. split.
  - unfold scrape_jobs_task, _send_alert. rewrite Hf.
    destruct (negb _); [reflexivity|].
    destruct (_ >=? 5); [apply (notification_no_mail url); assumption|].
    destruct (JobDataManager.out_results _); cbn [snd List.filter is_mail].
    + destruct (_ && _); [apply (notification_no_mail url); assumption | reflexivity].
    + apply (notification_no_mail url); assumption.
  - unfold health_check_task, _send_alert.
    destruct (negb _); [apply (notification_no_mail url); assumption | reflexivity].
Qed.

End SchedulerExtras.

Section SchedulerExtrasExamples.
Import JobScrapingScheduler SchedulerTasks Scenarios Scenarios2.

Lemma skipped_is_permanent_witness :
  let ws := [at_hour 6 (network_down db_saves_all); at_hour 7 (network_down db_saves_all)] in
  let st := after_five_failures in
  let '(st', evss) := triggers alerting ws st in
  skipped alerting (metrics st') = true
  /\ List.filter is_scraper_invoked (concat evss) = []
  /\ JobScrapingMetrics.consecutive_failures (metrics st')
     = JobScrapingMetrics.consecutive_failures (metrics st)
  /\ JobScrapingMetrics.last_success (metrics st')
     = JobScrapingMetrics.last_success (metrics st)
  /\ JobScrapingMetrics.total_jobs_scraped (metrics st')
     = JobScrapingMetrics.total_jobs_scraped (metrics st)
  /\ JobScrapingMetrics.total_jobs_saved (metrics st')
     = JobScrapingMetrics.total_jobs_saved (metrics st)
  /\ JobScrapingMetrics.total_runs (metrics st')
     = JobScrapingMetrics.total_runs (metrics st) + Z.of_nat (length ws).
Proof.
  intros ws st.
  exact (skipped_is_permanent alerting ws st eq_refl).
Defined.

Lemma failure_count_stays_within_five_witness :
  let st' := fst (triggers alerting seven_failures init) in
  0 <= JobScrapingMetrics.consecutive_failures (metrics st') <= 5
  /\ JobScrapingMetrics.total_runs (metrics st')
     = JobScrapingMetrics.total_runs (metrics init) + Z.of_nat (length seven_failures).
Proof.
  exact (failure_count_stays_within_five alerting seven_failures init
           ltac:(cbn; lia)).
Defined.

Lemma health_check_silent_after_success_witness :
  let w := at_hour 1 (network_down db_saves_all) in
  health_check_task alerting (3 * 3600000000) false
    (fst (scrape_jobs_task alerting w JobScrapingMetrics.init)) = [].
Proof.
  intros w.
  apply (health_check_silent_after_success alerting w JobScrapingMetrics.init
           (match JobDataManager.scrape_all_sources alerting (tw_run w) 4 with
            | Returns results => results
            | Raises _ => ∅
            end)).
  - reflexivity.
  - vm_compute. reflexivity.
  - vm_compute. discriminate.
Defined.

Lemma health_check_alerts_after_failures_witness :
  health_check_task alerting (8 * 3600000000) false
    (metrics (fst (triggers alerting seven_failures init)))
  = _send_alert alerting false
      ("Job scraping system unhealthy: "
       +:+ pretty (Z.min 5 (JobScrapingMetrics.consecutive_failures (metrics init)
                            + Z.of_nat (length seven_failures)))
       +:+ " consecutive failures").
Proof.
  apply (health_check_alerts_after_failures alerting seven_failures init
           (8 * 3600000000) false).
  - reflexivity.
  - repeat constructor;
      exists (OtherError "Can't reconnect until invalid transaction is rolled back");
      vm_compute; reflexivity.
  - cbn. lia.
  - cbn. lia.
  - discriminate.
  - intros ls H. discriminate H.
Defined.

Lemma failed_webhook_silences_mail_witness :
  let w := webhook_down 1 (network_down session_raises) in
  List.filter is_mail (snd (scrape_jobs_task webhook_and_mail w JobScrapingMetrics.init)) = []
  /\ List.filter is_mail
       (health_check_task webhook_and_mail (2 * 3600000000) true JobScrapingMetrics.init) = [].
Proof.
  intros w.
  exact (failed_webhook_silences_mail webhook_and_mail w JobScrapingMetrics.init
           (2 * 3600000000) "https://hooks.slack.com/services/T0/B0/x"
           eq_refl eq_refl eq_refl).
Defined.

End SchedulerExtrasExamples.

(** ** The cleanups of old jobs *)

Section CleanupExtras.
Import JobScrapingScheduler SchedulerTasks JobsTable.

Lemma filter_sublist {A} (f : A -> bool) (l : list A) : sublist (List.filter f l) l.
Proof.
  induction l as [|a l IH]; cbn; [constructor|].
  destruct (f a); [apply sublist_skip | apply sublist_cons]; exact IH.
Qed.

Lemma elem_of_filter {A} (f : A -> bool) (l : list A) (a : A) :
  a ∈ List.filter f l <-> a ∈ l /\ f a = true.
Proof. rewrite !list_elem_of_In. apply filter_In. Qed.

Lemma delete_keeps cutoff table r :
  r ∈ fst (delete_posted_before cutoff table) <-> r ∈ table /\ posted_before cutoff r = false.
Proof.
  unfold delete_posted_before. cbn [fst]. rewrite elem_of_filter, negb_true_iff. reflexivity.
Qed.

(** A row that a later cutoff spares is spared by an earlier one. *)
Lemma posted_before_mono cutoff cutoff' r :
  cutoff <= cutoff' -> posted_before cutoff' r = false -> posted_before cutoff r = false.
Proof.
  unfold posted_before. intros Hle. destruct (row_posted_date r) as [d|]; [|reflexivity].
  rewrite !Z.ltb_ge. lia.
Qed.

Lemma filter_count {A} (f : A -> bool) (l : list A) :
  (length (List.filter f l) + length (List.filter (fun a => negb (f a)) l) = length l)%nat.
Proof. induction l as [|a l IH]; cbn; [reflexivity|]. destruct (f a); cbn; lia. Qed.

(** X17.  The nightly cleanup deletes by age and by nothing else: the rows
    left are rows of the table, in their order; a job posted within the last
    60 days, or without a date, is never deleted, whatever the session does;
    when the session gets as far as the commit no dated job older than 60
    days is left; and a session that raises before the commit leaves the
    table as it was. *)
Theorem scheduled_cleanup_retention
    (cfg : Config.Settings) (now : datetime) (session : Session) (slack_fails : bool)
    (table : list Row) :
  let cutoff := now - timedelta_days 60 in
  let table' := fst (cleanup_old_jobs cfg now session slack_fails table) in
  sublist table' table
  /\ (forall r, r ∈ table -> posted_before cutoff r = false -> r ∈ table')
  /\ ((forall e, session <> RaisesBeforeCommit e) ->
      (forall r, r ∈ table' <-> r ∈ table /\ posted_before cutoff r = false)
      /\ (forall r d, r ∈ table' -> row_posted_date r = Some d -> now - d <= timedelta_days 60))
  /\ (forall e, session = RaisesBeforeCommit e -> table' = table).
Proof.
  intros cutoff table'. subst table'. unfold cleanup_old_jobs. fold cutoff.
  pose proof (delete_keeps cutoff table) as Hk.
  pose proof (filter_sublist (fun r => negb (posted_before cutoff r)) table) as Hs.
  unfold delete_posted_before in *. cbn [fst] in Hk.
  destruct session as [| e | e]; cbn [fst].
  - split; [exact Hs|]. split; [intros r H1 H2; apply Hk; auto|].
    split; [|intros e H; discriminate].
    intros _. split; [exact Hk|].
    intros r d Hin Hd. apply Hk in Hin as [_ Hp].
    unfold posted_before in Hp. rewrite Hd in Hp. apply Z.ltb_ge in Hp.
    unfold cutoff in Hp. lia.
  - split; [reflexivity|]. split; [auto|].
    split; [intros H; exfalso; apply (H e); reflexivity | reflexivity].
  - split; [exact Hs|]. split; [intros r H1 H2; apply Hk; auto|].
    split; [|intros e' H; discriminate].
    intros _. split; [exact Hk|].
    intros r d Hin Hd. apply Hk in Hin as [_ Hp].
    unfold posted_before in Hp. rewrite Hd in Hp. apply Z.ltb_ge in Hp.
    unfold cutoff in Hp. lia.
Qed.

(** X18.  The cleanup endpoint never deletes a job posted within the last
    30 days, nor one without a date, whatever [days_old] it is called with
    and whatever the session does; it answers 400 exactly when [days_old] is
    below 30, and then, as on every other error, the table is as it was. *)
Theorem admin_cleanup_spares_thirty_days
    (overflow_text : string) (days_old : Z) (now : datetime) (session : Session)
    (table : list Row) :
  let '(table', response) := Admin.cleanup_old_jobs overflow_text days_old now session table in
  (forall r, r ∈ table -> posted_before (now - timedelta_days 30) r = false -> r ∈ table')
  /\ (Admin.status_of response = 400 <-> days_old < 30)
  /\ (Admin.status_of response <> 200 -> table' = table).
Proof.
  unfold Admin.cleanup_old_jobs.
  destruct (days_old <? 30) eqn:E30.
  { cbn. split; [auto|]. split; [lia | reflexivity]. }
  apply Z.ltb_ge in E30.
  destruct (999999999 <? days_old).
  { cbn. split; [auto|]. split; [lia | reflexivity]. }
  destruct (now - timedelta_days days_old <? datetime_min).
  { cbn. split; [auto|]. split; [lia | reflexivity]. }
  assert (Hcut : now - timedelta_days days_old <= now - timedelta_days 30)
    by (unfold timedelta_days; lia).
  pose proof (delete_keeps (now - timedelta_days days_old) table) as Hk.
  destruct (delete_posted_before _ table) as [table' deleted_count]. cbn [fst] in Hk.
  destruct session as [| e | e]; cbn.
  - split; [|split; [lia | congruence]].
    intros r H1 H2. apply Hk. split; [exact H1|]. eapply posted_before_mono; eassumption.
  - split; [auto|]. split; [lia | reflexivity].
  - split; [|split; [lia | congruence]].
    intros r H1 H2. apply Hk. split; [exact H1|]. eapply posted_before_mono; eassumption.
Qed.

Lemma filter_all {A} (f : A -> bool) (l : list A) :
  (forall a, a ∈ l -> f a = true) -> List.filter f l = l.
Proof.
  induction l as [|a l IH]; intros H; cbn; [reflexivity|].
  rewrite (H a) by constructor. f_equal. apply IH. intros b Hb. apply H. now constructor.
Qed.

Lemma filter_none {A} (f : A -> bool) (l : list A) :
  (forall a, a ∈ l -> f a = false) -> List.filter f l = [].
Proof.
  induction l as [|a l IH]; intros H; cbn; [reflexivity|].
  rewrite (H a) by constructor. apply IH. intros b Hb. apply H. now constructor.
Qed.

(** X19.  A cleanup finds nothing left to do after one that worked: run
    again at the same time or with an earlier clock it deletes nothing and
    sends nothing; and the endpoint called with its default of 60 days leaves
    the table the nightly cleanup leaves at that time. *)
Theorem cleanup_again_is_idle
    (cfg : Config.Settings) (now now' : datetime) (slack_fails slack_fails' : bool)
    (overflow_text : string) (table : list Row) :
  now' <= now ->
  datetime_min + timedelta_days 60 <= now ->
  let table1 := fst (cleanup_old_jobs cfg now Works slack_fails table) in
  cleanup_old_jobs cfg now' Works slack_fails' table1 = (table1, [])
  /\ fst (Admin.cleanup_old_jobs overflow_text 60 now Works table) = table1.
Proof.
  intros Hle Hmin table1. split.
  - assert (Hrec : forall r, r ∈ table1 -> posted_before (now' - timedelta_days 60) r = false).
    { intros r Hin. subst table1. unfold cleanup_old_jobs in Hin. cbn [fst] in Hin.
      apply (delete_keeps (now - timedelta_days 60) table) in Hin as [_ Hp].
      eapply posted_before_mono; [|exact Hp]. lia. }
    unfold cleanup_old_jobs at 1. unfold delete_posted_before.
    rewrite filter_all by (intros r Hin; rewrite (Hrec r Hin); reflexivity).
    rewrite filter_none by exact Hrec.
    reflexivity.
  - subst table1. unfold Admin.cleanup_old_jobs, cleanup_old_jobs.
    cbn [Z.ltb Z.compare Pos.compare Pos.compare_cont].
    destruct (now - timedelta_days 60 <? datetime_min) eqn:E; [lia|].
    reflexivity.
Qed.

End CleanupExtras.

Section CleanupExamples.
Import JobScrapingScheduler SchedulerTasks JobsTable Scenarios Scenarios2.

Lemma cleanup_again_is_idle_witness :
  let table1 := fst (cleanup_old_jobs alerting (day 100) Works false three_rows) in
  cleanup_old_jobs alerting (day 99) Works false table1 = (table1, [])
  /\ fst (Admin.cleanup_old_jobs "date value out of range" 60 (day 100) Works three_rows)
     = table1.
Proof.
  exact (cleanup_again_is_idle alerting (day 100) (day 99) false false
           "date value out of range" three_rows ltac:(vm_compute; discriminate)
           ltac:(vm_compute; discriminate)).
Defined.

End CleanupExamples.

(** ** The admin endpoints *)

Section AdminExtras.
Import JobScrapingScheduler Admin.

(** X20.  The configuration endpoint checks and echoes, and changes
    nothing: it answers 400 exactly when the request asks for an interval
    below 5 minutes or for a job count outside 10..1000; any other request is
    accepted, echoed under ["updates"] field by field, and answered with the
    settings in force under ["current_config"], which are the same whatever
    was asked. *)
Theorem config_update_checks_and_echoes
    (cfg : Config.Settings) (config : ScrapingConfigUpdate) :
  let response := update_scraping_config cfg config in
  (status_of response = 400 <->
   (exists i, interval_minutes config = Some i /\ i < 5)
   \/ (exists n, max_jobs_per_run config = Some n /\ (n < 10 \/ 1000 < n)))
  /\ (status_of response <> 400 ->
      exists body updates,
        response = Json body
        /\ py_get "updates" body = Some (PDict updates)
        /\ assoc "scraping_enabled" updates = PBool <$> scraping_enabled config
        /\ assoc "interval_minutes" updates = PInt <$> interval_minutes config
        /\ assoc "max_jobs_per_run" updates = PInt <$> max_jobs_per_run config
        /\ py_get "current_config" body
           = Some (PDict [ ("scraping_enabled", PBool (Config.SCRAPING_ENABLED cfg));
                           ("interval_minutes", PInt (Config.SCRAPING_INTERVAL_MINUTES cfg));
                           ("max_jobs_per_run", PInt (Config.SCRAPING_MAX_JOBS_PER_RUN cfg)) ])).
Proof.
  unfold update_scraping_config.
  destruct config as [en [i|] [n|]]; cbn [scraping_enabled interval_minutes max_jobs_per_run].
  all: repeat match goal with
       | |- context [?a <? ?b] => destruct (Z.ltb_spec a b)
       | |- context [?a >? ?b] => rewrite (Z.gtb_ltb a b)
       end; cbn [orb status_of].
  all: split.
  all: try (split;
      [ intros Hst; try discriminate Hst;
        first [ left; eexists; split; [reflexivity | lia]
              | right; eexists; split; [reflexivity | lia] ]
      | intros [[? [E ?]] | [? [E ?]]]; try discriminate E; inversion E; subst;
        first [ reflexivity | lia ] ]).
  all: intros Hst; try (exfalso; apply Hst; reflexivity).
  all: destruct en as [[|]|]; do 2 eexists; (split; [reflexivity|]).
  all: cbn; repeat split; reflexivity.
Qed.

(** X21.  The manual trigger never answers 400: with scraping disabled the
    exception of its check is caught by its own handler and answered as a
    500, and no run is started.  With scraping enabled it starts a run of the
    size asked for whatever the state of the scheduler: an open breaker,
    which makes the scheduled trigger return without a run, does not stop it,
    and the run is not counted in the metrics. *)
Theorem manual_trigger_bypasses_scheduler
    (str_of : Z -> string -> string) (cfg : Config.Settings) (num_jobs : Z)
    (w : Scraper.World) (tw : TaskWorld) (st : t) :
  let '(response, tasks) := trigger_manual_scraping str_of cfg num_jobs in
  status_of response <> 400
  /\ (Config.SCRAPING_ENABLED cfg = false -> status_of response = 500 /\ tasks = [])
  /\ (Config.SCRAPING_ENABLED cfg = true ->
      status_of response = 200
      /\ (exists batch effs,
            run_background cfg w tasks = [ScraperInvoked num_jobs batch effs]
            /\ batch = JobDataManager.out_all_jobs (JobDataManager.run cfg w num_jobs))
      /\ (5 <= JobScrapingMetrics.consecutive_failures (metrics st) ->
          List.filter is_scraper_invoked (snd (trigger cfg tw st)) = [])).
Proof.
  unfold trigger_manual_scraping.
  destruct (Config.SCRAPING_ENABLED cfg) eqn:He; cbn [negb status_of].
  - split; [discriminate|]. split; [discriminate|].
    intros _. split; [reflexivity|]. split.
    + do 2 eexists. split; reflexivity.
    + intros Hc. unfold trigger.
      rewrite task_breaker_open by assumption. cbn [snd].
      apply notification_no_scraper.
  - split; [discriminate|]. split; [split; reflexivity | discriminate].
Qed.

End AdminExtras.

(** ** The traffic of a run *)

Section TrafficExtras.
Import Executor Scraper JobDataManager.

Lemma make_request_attempts {B} cfg url rl (w : nat -> Attempt B) :
  (attempts (snd (fst (_make_request cfg url rl w))) <= 3)%nat.
Proof.
  unfold _make_request. cbn [max_tries Nat.sub].
  pose proof (retry_from_attempts cfg url w 2%nat 0%nat rl) as H.
  destruct (retry_from cfg url 2 0 rl w) as [[rl' effs] r]. exact H.
Qed.

Lemma attempts_log effs message : attempts (effs ++ [LogError message]) = attempts effs.
Proof. rewrite attempts_app. cbn. lia. Qed.

(** One request, with its retries, per company asked. *)
Lemma yc_companies_attempts cfg w companies : forall i s,
  (attempts (snd (yc_companies cfg w i companies s)) <= 3 * length companies)%nat.
Proof.
  induction companies as [|[company_id|] rest IH]; intros i s; cbn [yc_companies length].
  - cbn. lia.
  - pose proof (make_request_attempts cfg
                  ("https://www.ycombinator.com/api/worklist/jobs?company_id=" +:+ company_id)
                  (rate_limiter s) (w_yc_jobs w i)) as Hreq.
    destruct (_make_request _ _ _ _) as [[rl effs] r]. cbn [fst snd] in Hreq.
    destruct (keep_new _ _) as [jobs hashes].
    specialize (IH (S i) {| rate_limiter := rl; scraped_job_hashes := hashes |}).
    destruct (yc_companies _ _ _ _ _) as [[jobs' s'] effs']. cbn [snd] in *.
    rewrite attempts_app. lia.
  - specialize (IH (S i) s). lia.
Qed.

Lemma remoteok_attempts cfg w s limit :
  (attempts (snd (scrape_remoteok_jobs cfg w s limit)) <= 3)%nat.
Proof.
  unfold scrape_remoteok_jobs.
  destruct (Config.ENABLE_REMOTEOK cfg); cbn [negb snd]; [|cbn; lia].
  pose proof (make_request_attempts cfg "https://remoteok.io/api" (rate_limiter s)
                (w_remoteok w)) as Hreq.
  destruct (_make_request _ _ _ _) as [[rl effs] [[data|] | e]]; cbn [fst snd] in *.
  - destruct (keep_new _ _) as [jobs hashes]. exact Hreq.
  - rewrite attempts_log. exact Hreq.
  - rewrite attempts_log. exact Hreq.
Qed.

Lemma ycombinator_attempts cfg w s limit :
  (attempts (snd (scrape_ycombinator_jobs cfg w s limit)) <= 3 + 3 * Z.to_nat limit)%nat.
Proof.
  unfold scrape_ycombinator_jobs.
  destruct (Config.ENABLE_YCOMBINATOR cfg); cbn [negb snd]; [|cbn; lia].
  pose proof (make_request_attempts cfg "https://www.ycombinator.com/api/worklist/companies"
                (rate_limiter s) (w_yc_companies w)) as Hreq.
  destruct (_make_request _ _ _ _) as [[rl effs] [[companies|] | e]]; cbn [fst snd] in *.
  - pose proof (yc_companies_attempts cfg w (take (Z.to_nat limit) companies) 0%nat
                  {| rate_limiter := rl; scraped_job_hashes := scraped_job_hashes s |}) as Hyc.
    rewrite length_take in Hyc.
    destruct (yc_companies _ _ _ _ _) as [[jobs s2] effs']. cbn [snd] in *.
    rewrite attempts_app. lia.
  - rewrite attempts_log. lia.
  - rewrite attempts_log. lia.
Qed.

Lemma wellfound_attempts cfg w s limit :
  attempts (snd (scrape_wellfound_jobs cfg w s limit)) = 0%nat.
Proof.
  unfold scrape_wellfound_jobs.
  destruct (Config.ENABLE_WELLFOUND cfg); cbn [negb snd]; [|reflexivity].
  destruct (keep_new _ _) as [jobs hashes]. reflexivity.
Qed.

Lemma otta_attempts cfg w s limit :
  attempts (snd (scrape_otta_jobs cfg w s limit)) = 0%nat.
Proof.
  unfold scrape_otta_jobs.
  destruct (Config.ENABLE_OTTA cfg); cbn [negb snd]; [|reflexivity].
  destruct (keep_new _ _) as [jobs hashes]. reflexivity.
Qed.

(** X22.  The traffic of a run is bounded by what was asked for: a run
    sends at most 3 * (2 + max(1, total_jobs)) requests, whatever the sources
    answer (three tries for each of the two listings and for each company
    Y Combinator is asked about); and with RemoteOK and Y Combinator
    switched off it sends none. *)
Theorem run_sends_bounded_requests cfg w total_jobs :
  Z.of_nat (attempts (out_effects (run cfg w total_jobs))) <= 3 * (2 + Z.max 1 total_jobs)
  /\ (Config.ENABLE_REMOTEOK cfg = false -> Config.ENABLE_YCOMBINATOR cfg = false ->
      attempts (out_effects (run cfg w total_jobs)) = 0%nat).
Proof.
  unfold run.
  destruct (Config.SCRAPING_ENABLED cfg); cbn [negb out_effects];
    [|split; [cbn; lia | reflexivity]].
  unfold await_task.
  destruct (Config.ENABLE_REMOTEOK cfg) eqn:Hr;
    destruct (Config.ENABLE_YCOMBINATOR cfg) eqn:Hy;
    destruct (Config.ENABLE_WELLFOUND cfg) eqn:Hw;
    destruct (Config.ENABLE_OTTA cfg) eqn:Ho;
    cbn [bool_to_int];
    match goal with
    | |- context [(?e =? 0)] => let v := eval compute in e in change e with v
    end;
    cbn [Z.eqb out_effects]; try (split; [cbn; lia | reflexivity]);
    match goal with
    | |- context [Z.max 1 (total_jobs / ?k)] =>
        pose proof (Z.mul_div_le total_jobs k ltac:(lia));
        set (limit := Z.max 1 (total_jobs / k)) in *;
        assert (limit <= Z.max 1 total_jobs) by (subst limit; lia)
    end.
  all: repeat match goal with
       | |- context [scrape_remoteok_jobs ?c ?ww ?s ?l] =>
           generalize (remoteok_attempts c ww s l);
           destruct (scrape_remoteok_jobs c ww s l) as [[? ?] ?]; intro
       | |- context [scrape_ycombinator_jobs ?c ?ww ?s ?l] =>
           generalize (ycombinator_attempts c ww s l);
           destruct (scrape_ycombinator_jobs c ww s l) as [[? ?] ?]; intro
       | |- context [scrape_wellfound_jobs ?c ?ww ?s ?l] =>
           generalize (wellfound_attempts c ww s l);
           destruct (scrape_wellfound_jobs c ww s l) as [[? ?] ?]; intro
       | |- context [scrape_otta_jobs ?c ?ww ?s ?l] =>
           generalize (otta_attempts c ww s l);
           destruct (scrape_otta_jobs c ww s l) as [[? ?] ?]; intro
       end.
  all: cbn [out_effects snd app] in *; rewrite ?attempts_app.
  all: split; [lia | try discriminate; intros _ _; cbn; lia].
Qed.

End TrafficExtras.

(** ** Loading the settings *)

Section ConfigExtras.
Import Config ConfigTexts.

Lemma py_int_cases text :
  py_int text =
  match rstrip (lstrip text) with
  | EmptyString => None
  | String a r =>
      if Ascii.eqb a "-" then Z.opp <$> digits_from 0 false r
      else if Ascii.eqb a "+" then digits_from 0 false r
      else digits_from 0 false (String a r)
  end.
Proof.
  unfold py_int. destruct (rstrip (lstrip text)) as [|a r]; [reflexivity|].
  destruct a as [[] [] [] [] [] [] [] []]; reflexivity.
Qed.

Lemma lstrip_holds c s :
  is_space c = false -> holds c s = true -> holds c (lstrip s) = true.
Proof.
  intros Hc. induction s as [|a r IH]; cbn [holds lstrip]; [discriminate|].
  intros H. destruct (Ascii.eqb_spec a c) as [-> | Hne].
  - rewrite Hc. cbn [holds]. rewrite Ascii.eqb_refl. reflexivity.
  - cbn [orb] in H. destruct (is_space a); [apply IH; exact H|].
    cbn [holds]. rewrite H. apply orb_true_r.
Qed.

Lemma holds_not_empty c s : holds c s = true -> is_empty s = false.
Proof. destruct s; [discriminate | reflexivity]. Qed.

Lemma rstrip_holds c s :
  is_space c = false -> holds c s = true -> holds c (rstrip s) = true.
Proof.
  intros Hc. induction s as [|a r IH]; cbn [holds rstrip]; [discriminate|].
  intros H. destruct (Ascii.eqb_spec a c) as [-> | Hne].
  - rewrite Hc. cbn [andb holds]. rewrite Ascii.eqb_refl. reflexivity.
  - cbn [orb] in H. specialize (IH H).
    rewrite (holds_not_empty c _ IH), andb_false_r.
    cbn [holds]. rewrite IH. apply orb_true_r.
Qed.

(** The digits stop at the first character that is neither a digit nor an
    underscore. *)
Lemma digits_from_rejects c s :
  digit_value c = None -> Ascii.eqb c "_" = false -> holds c s = true ->
  forall acc after_digit, digits_from acc after_digit s = None.
Proof.
  intros Hd Hu. induction s as [|a r IH]; cbn [holds digits_from]; [discriminate|].
  intros H acc after_digit. destruct (Ascii.eqb_spec a c) as [-> | Hne].
  - rewrite Hd, Hu. reflexivity.
  - cbn [orb] in H. destruct (digit_value a); [apply IH; exact H|].
    destruct (Ascii.eqb a "_" && after_digit); [apply IH; exact H | reflexivity].
Qed.

Lemma py_int_rejects c text :
  int_char c = false -> holds c text = true -> py_int text = None.
Proof.
  unfold int_char. intros Hc H.
  destruct (digit_value c) eqn:Hd; [discriminate|].
  apply orb_false_iff in Hc as [Hc Hminus]. apply orb_false_iff in Hc as [Hc Hplus].
  apply orb_false_iff in Hc as [Hsp Hu].
  pose proof (rstrip_holds c _ Hsp (lstrip_holds c _ Hsp H)) as Hs.
  rewrite py_int_cases.
  destruct (rstrip (lstrip text)) as [|a r]; [reflexivity|].
  cbn [holds] in Hs.
  destruct (Ascii.eqb_spec a "-") as [-> | Hn1].
  - rewrite Ascii.eqb_sym, Hminus in Hs. cbn [orb] in Hs.
    rewrite (digits_from_rejects c r Hd Hu Hs). reflexivity.
  - destruct (Ascii.eqb_spec a "+") as [-> | Hn2].
    + rewrite Ascii.eqb_sym, Hplus in Hs. cbn [orb] in Hs.
      apply (digits_from_rejects c r Hd Hu Hs).
    + apply (digits_from_rejects c (String a r) Hd Hu). exact Hs.
Qed.

(** X23.  The delay between requests is declared a float, but its
    variable is also read through [int(...)] for the legacy field
    [SCRAPING_RATE_LIMIT]: a text that holds anything but digits, blanks, a
    sign or an underscore (a decimal point, an exponent) stops the settings
    from loading, and a text that loads gives an integral delay. *)
Theorem delay_must_be_integer_text (env : string -> option string) (text : string) :
  env "SCRAPING_DELAY_BETWEEN_REQUESTS" = Some text ->
  (forall c, holds c text = true -> int_char c = false -> load env = None)
  /\ (forall cfg, load env = Some cfg ->
        exists z, py_int text = Some z /\ SCRAPING_DELAY_BETWEEN_REQUESTS cfg = inject_Z z).
Proof.
  intros Henv. split.
  - intros c Hh Hc. unfold load.
    rewrite Henv, (py_int_limited_none text (py_int_rejects c text Hc Hh)).
    destruct (env_int env "SCRAPING_INTERVAL_MINUTES" "60"); [|reflexivity].
    destruct (env_int env "SCRAPING_MAX_JOBS_PER_RUN" "200"); [|reflexivity].
    destruct (env_int env "SCRAPING_CONCURRENT_REQUESTS" "5"); reflexivity.
  - intros cfg. unfold load. rewrite Henv.
    destruct (env_int env "SCRAPING_INTERVAL_MINUTES" "60") as [v1|]; [|discriminate].
    destruct (env_int env "SCRAPING_MAX_JOBS_PER_RUN" "200") as [v2|]; [|discriminate].
    destruct (env_int env "SCRAPING_CONCURRENT_REQUESTS" "5") as [v3|]; [|discriminate].
    destruct (py_int_limited text) as [delay|] eqn:Hdelay; [|discriminate].
    apply py_int_limited_some in Hdelay.
    cbn [fmap option_fmap option_map mbind option_bind].
    destruct (env_int env "RATE_LIMIT_REQUESTS_PER_MINUTE" "100") as [v4|]; [|discriminate].
    destruct (env_int env "RATE_LIMIT_BURST_SIZE" "20") as [v5|]; [|discriminate].
    destruct (env_int env "SMTP_PORT" "587") as [v6|]; [|discriminate].
    cbn [mbind option_bind].
    repeat match goal with
           | |- context [env_flag env ?name ?default] =>
               destruct (env_flag env name default) as [?|];
               cbn [mbind option_bind]; [|discriminate]
           end.
    intros H. inversion H; subst. exists delay. split; [exact Hdelay | reflexivity].
Qed.

Lemma delay_must_be_integer_text_witness :
  (forall c, holds c "2.5" = true -> int_char c = false ->
             load Scenarios2.fractional_delay_env = None)
  /\ (forall cfg, load Scenarios2.fractional_delay_env = Some cfg ->
        exists z, py_int "2.5" = Some z /\ SCRAPING_DELAY_BETWEEN_REQUESTS cfg = inject_Z z).
Proof.
  exact (delay_must_be_integer_text Scenarios2.fractional_delay_env "2.5" eq_refl).
Defined.

End ConfigExtras.

(** ** The sample sources *)

Section SampleExtras.
Import Config ConfigTexts Executor Scraper JobDataManager.

Lemma append_cons x (a b : string) : String x a +:+ b = String x (a +:+ b).
Proof. reflexivity. Qed.

Lemma append_nil (b : string) : "" +:+ b = b.
Proof. reflexivity. Qed.

Lemma append_assoc (a b c : string) : (a +:+ b) +:+ c = a +:+ (b +:+ c).
Proof.
  induction a as [|x a IH]; [reflexivity|].
  rewrite !append_cons, IH. reflexivity.
Qed.

Lemma holds_app c a b : holds c (a +:+ b) = holds c a || holds c b.
Proof.
  induction a as [|x a IH]; [reflexivity|].
  rewrite append_cons. cbn [holds]. rewrite IH. apply orb_assoc.
Qed.

(** What follows the last dash of a text is determined by the text. *)
Lemma after_last_dash d1 d2 :
  holds "-" d1 = false -> holds "-" d2 = false ->
  forall a b, a +:+ String "-" d1 = b +:+ String "-" d2 -> d1 = d2.
Proof.
  intros H1 H2. induction a as [|x a IH]; intros [|y b] H;
    rewrite ?append_cons, ?append_nil in H.
  - inversion H. reflexivity.
  - inversion H; subst. rewrite holds_app in H1. cbn [holds] in H1.
    rewrite Ascii.eqb_refl in H1. cbn in H1. rewrite orb_true_r in H1. discriminate.
  - inversion H; subst. rewrite holds_app in H2. cbn [holds] in H2.
    rewrite Ascii.eqb_refl in H2. cbn in H2. rewrite orb_true_r in H2. discriminate.
  - inversion H; subst. eapply IH; eassumption.
Qed.

Lemma digit_char_no_dash d : Ascii.eqb (pretty_N_char d) "-" = false.
Proof. unfold pretty_N_char. repeat case_match; reflexivity. Qed.

Lemma pretty_go_no_dash x : forall s,
  holds "-" s = false -> holds "-" (pretty_N_go x s) = false.
Proof.
  induction (N.lt_wf_0 x) as [x _ IH]; intros s Hs.
  assert (x = 0 \/ 0 < x)%N as [-> | Hpos] by lia; [exact Hs|].
  rewrite pretty_N_go_step by exact Hpos.
  apply IH; [apply N.div_lt; lia|].
  cbn [holds]. rewrite digit_char_no_dash, Hs. reflexivity.
Qed.

Lemma pretty_no_dash z : 0 <= z -> holds "-" (pretty z) = false.
Proof.
  destruct z as [|p|p]; intros Hz; [reflexivity | | lia].
  change (pretty (Zpos p)) with (pretty_N_go (Npos p) "").
  apply pretty_go_no_dash. reflexivity.
Qed.

Lemma hash_shape jd :
  _generate_job_hash jd
  = (lower (title jd) +:+ String "-" (lower (company jd))) +:+ String "-" (source_id jd).
Proof. unfold _generate_job_hash. rewrite append_assoc. reflexivity. Qed.

(** Jobs whose ids hold no dash and differ have different fingerprints. *)
Lemma hash_tells_ids_apart jd1 jd2 :
  holds "-" (source_id jd1) = false -> holds "-" (source_id jd2) = false ->
  _generate_job_hash jd1 = _generate_job_hash jd2 -> source_id jd1 = source_id jd2.
Proof.
  intros H1 H2. rewrite !hash_shape. apply after_last_dash; assumption.
Qed.

Lemma wellfound_sample i limit w jd :
  (_generate_wellfound_sample_jobs w limit) !! i = Some jd ->
  (i < Z.to_nat limit)%nat /\ source_id jd = pretty (1000 + Z.of_nat i).
Proof.
  unfold _generate_wellfound_sample_jobs.
  change (map ?f ?l) with (f <$> l). rewrite list_lookup_fmap.
  destruct (seq 0 (Z.to_nat limit) !! i) as [k|] eqn:Hk; [|discriminate].
  apply lookup_seq in Hk as [-> Hlt]. cbn. intros H. inversion H; subst. cbn.
  split; [exact Hlt | reflexivity].
Qed.

Lemma otta_sample i limit w jd :
  (_generate_otta_sample_jobs w limit) !! i = Some jd ->
  (i < Z.to_nat limit)%nat /\ source_id jd = pretty (2000 + Z.of_nat i).
Proof.
  unfold _generate_otta_sample_jobs.
  change (map ?f ?l) with (f <$> l). rewrite list_lookup_fmap.
  destruct (seq 0 (Z.to_nat limit) !! i) as [k|] eqn:Hk; [|discriminate].
  apply lookup_seq in Hk as [-> Hlt]. cbn. intros H. inversion H; subst. cbn.
  split; [exact Hlt | reflexivity].
Qed.

(** The ids [1000 + i] and [2000 + i] keep the sample jobs of a source
    apart, whatever was drawn for their other fields. *)
Lemma wellfound_sample_nodup w limit :
  NoDup (_generate_job_hash <$> _generate_wellfound_sample_jobs w limit).
Proof.
  apply NoDup_alt. intros i j h Hi Hj.
  rewrite list_lookup_fmap in Hi, Hj.
  destruct (_ !! i) as [jd1|] eqn:E1; [|discriminate].
  destruct (_ !! j) as [jd2|] eqn:E2; [|discriminate].
  cbn in Hi, Hj. inversion Hi; inversion Hj; subst.
  apply wellfound_sample in E1 as [_ Hid1]. apply wellfound_sample in E2 as [_ Hid2].
  assert (Hd1 : holds "-" (source_id jd1) = false) by (rewrite Hid1; apply pretty_no_dash; lia).
  assert (Hd2 : holds "-" (source_id jd2) = false) by (rewrite Hid2; apply pretty_no_dash; lia).
  pose proof (hash_tells_ids_apart jd1 jd2 Hd1 Hd2 (eq_sym H1)) as Hid.
  rewrite Hid1, Hid2 in Hid. apply (inj pretty) in Hid. lia.
Qed.

Lemma otta_sample_nodup w limit :
  NoDup (_generate_job_hash <$> _generate_otta_sample_jobs w limit).
Proof.
  apply NoDup_alt. intros i j h Hi Hj.
  rewrite list_lookup_fmap in Hi, Hj.
  destruct (_ !! i) as [jd1|] eqn:E1; [|discriminate].
  destruct (_ !! j) as [jd2|] eqn:E2; [|discriminate].
  cbn in Hi, Hj. inversion Hi; inversion Hj; subst.
  apply otta_sample in E1 as [_ Hid1]. apply otta_sample in E2 as [_ Hid2].
  assert (Hd1 : holds "-" (source_id jd1) = false) by (rewrite Hid1; apply pretty_no_dash; lia).
  assert (Hd2 : holds "-" (source_id jd2) = false) by (rewrite Hid2; apply pretty_no_dash; lia).
  pose proof (hash_tells_ids_apart jd1 jd2 Hd1 Hd2 (eq_sym H1)) as Hid.
  rewrite Hid1, Hid2 in Hid. apply (inj pretty) in Hid. lia.
Qed.

(** Up to a thousand jobs per source the two ranges of ids do not meet. *)
Lemma samples_apart w limit jd1 jd2 :
  limit <= 1000 ->
  jd1 ∈ _generate_wellfound_sample_jobs w limit ->
  jd2 ∈ _generate_otta_sample_jobs w limit ->
  _generate_job_hash jd1 <> _generate_job_hash jd2.
Proof.
  intros Hl H1 H2 Heq.
  apply list_elem_of_lookup in H1 as [i Hi]. apply list_elem_of_lookup in H2 as [j Hj].
  apply wellfound_sample in Hi as [Hlt1 Hid1]. apply otta_sample in Hj as [Hlt2 Hid2].
  assert (Hd1 : holds "-" (source_id jd1) = false) by (rewrite Hid1; apply pretty_no_dash; lia).
  assert (Hd2 : holds "-" (source_id jd2) = false) by (rewrite Hid2; apply pretty_no_dash; lia).
  pose proof (hash_tells_ids_apart jd1 jd2 Hd1 Hd2 Heq) as Hid.
  rewrite Hid1, Hid2 in Hid. apply (inj pretty) in Hid. lia.
Qed.

Lemma wellfound_sample_length w limit :
  length (_generate_wellfound_sample_jobs w limit) = Z.to_nat limit.
Proof. unfold _generate_wellfound_sample_jobs. rewrite length_map, length_seq. reflexivity. Qed.

Lemma otta_sample_length w limit :
  length (_generate_otta_sample_jobs w limit) = Z.to_nat limit.
Proof. unfold _generate_otta_sample_jobs. rewrite length_map, length_seq. reflexivity. Qed.

(** X24.  The sample sources always fill their share: in a run with RemoteOK
    and Y Combinator switched off, Wellfound delivers every job it generates,
    max(1, total_jobs) of them when it is the only source, whatever was drawn
    for their fields, because the ids 1000 + i keep their fingerprints apart;
    with Otta on as well, and at most 2001 jobs asked for, each of the two
    delivers its full share of max(1, total_jobs // 2) jobs. *)
Theorem sample_sources_fill_the_batch cfg w total_jobs :
  SCRAPING_ENABLED cfg = true ->
  ENABLE_REMOTEOK cfg = false -> ENABLE_YCOMBINATOR cfg = false ->
  ENABLE_WELLFOUND cfg = true ->
  let batch := out_all_jobs (run cfg w total_jobs) in
  (ENABLE_OTTA cfg = false ->
   batch = _generate_wellfound_sample_jobs w (Z.max 1 total_jobs)
   /\ Z.of_nat (length batch) = Z.max 1 total_jobs)
  /\ (ENABLE_OTTA cfg = true -> total_jobs <= 2001 ->
      batch = _generate_wellfound_sample_jobs w (Z.max 1 (total_jobs / 2))
              ++ _generate_otta_sample_jobs w (Z.max 1 (total_jobs / 2))
      /\ Z.of_nat (length batch) = 2 * Z.max 1 (total_jobs / 2)).
Proof.
  intros He Hr Hy Hw batch. subst batch. unfold run, await_task.
  rewrite He, Hr, Hy, Hw. cbn [negb bool_to_int].
  split; intros Ho; rewrite Ho; cbn [bool_to_int];
    match goal with
    | |- context [(?e =? 0)] => let v := eval compute in e in change e with v
    end; cbn [Z.eqb].
  - unfold scrape_wellfound_jobs, scrape_otta_jobs. rewrite ?Hw, ?Ho. cbn [negb].
    rewrite Z.div_1_r.
    pose proof (keep_new_all_new (_generate_wellfound_sample_jobs w (Z.max 1 total_jobs)) ∅
                  (wellfound_sample_nodup w _) ltac:(set_solver)) as Hk.
    cbn [Scraper.init scraped_job_hashes].
    destruct (keep_new ∅ _) as [jobs hashes]. cbn [fst] in Hk. subst jobs.
    cbn [out_all_jobs app].
    split; [reflexivity|]. rewrite wellfound_sample_length. lia.
  - intros Ht.
    pose proof (Z.mul_div_le total_jobs 2 ltac:(lia)) as Hdiv.
    set (share := Z.max 1 (total_jobs / 2)).
    assert (Hshare : share <= 1000) by (subst share; lia).
    unfold scrape_wellfound_jobs, scrape_otta_jobs. rewrite ?Hw, ?Ho. cbn [negb].
    cbn [Scraper.init scraped_job_hashes].
    pose proof (keep_new_all_new (_generate_wellfound_sample_jobs w share) ∅
                  (wellfound_sample_nodup w _) ltac:(set_solver)) as Hk.
    pose proof (keep_new_hashes (_generate_wellfound_sample_jobs w share) ∅) as Hh.
    destruct (keep_new ∅ _) as [jobs hashes]. cbn [fst snd] in Hk, Hh. subst jobs.
    cbn [scraped_job_hashes rate_limiter].
    assert (Hk2 : fst (keep_new hashes (_generate_otta_sample_jobs w share))
                  = _generate_otta_sample_jobs w share).
    { apply keep_new_all_new; [apply otta_sample_nodup|].
      intros jd2 Hin2 Hin. rewrite Hh in Hin.
      apply elem_of_union in Hin as [Hin | Hin]; [set_solver|].
      apply elem_of_list_to_set, list_elem_of_fmap in Hin as [jd1 [Heq Hin1]].
      exact (samples_apart w share jd1 jd2 Hshare Hin1 Hin2 (eq_sym Heq)). }
    destruct (keep_new hashes _) as [jobs2 hashes2]. cbn [fst] in Hk2. subst jobs2.
    cbn [out_all_jobs app].
    split; [reflexivity|].
    rewrite length_app, wellfound_sample_length, otta_sample_length. lia.
Qed.

Lemma sample_sources_fill_the_batch_witness :
  let cfg := Scenarios2.samples_only in
  let w := Scenarios.network_down Scenarios.db_saves_all in
  let batch := out_all_jobs (run cfg w 7) in
  (ENABLE_OTTA cfg = false ->
   batch = _generate_wellfound_sample_jobs w (Z.max 1 7)
   /\ Z.of_nat (length batch) = Z.max 1 7)
  /\ (ENABLE_OTTA cfg = true -> 7 <= 2001 ->
      batch = _generate_wellfound_sample_jobs w (Z.max 1 (7 / 2))
              ++ _generate_otta_sample_jobs w (Z.max 1 (7 / 2))
      /\ Z.of_nat (length batch) = 2 * Z.max 1 (7 / 2)).
Proof.
  intros cfg w.
  exact (sample_sources_fill_the_batch cfg w 7 eq_refl eq_refl eq_refl eq_refl).
Defined.

End SampleExtras.

(** ** The salary parser *)

Section ParserExtras.
Import Config Parsers.

Lemma digit_not_space c : is_digit c = true -> is_space c = false.
Proof.
  unfold is_digit, digit_value, is_space.
  destruct ((48 <=? nat_of_ascii c)%nat && (nat_of_ascii c <=? 57)%nat) eqn:E; [|discriminate].
  intros _. apply andb_true_iff in E as [E1 E2].
  apply Nat.leb_le in E1, E2.
  apply orb_false_iff. split; apply andb_false_iff.
  - right. apply Nat.leb_gt. lia.
  - right. apply Nat.leb_gt. lia.
Qed.

Lemma take_digits_all s : all_chars is_digit (take_digits s) = true.
Proof.
  induction s as [|c r IH]; [reflexivity|]. cbn [take_digits].
  destruct (is_digit c) eqn:E; [|reflexivity]. cbn [all_chars]. rewrite E, IH. reflexivity.
Qed.

Lemma first_digits_all s digits :
  first_digits s = Some digits ->
  all_chars is_digit digits = true /\ digits <> "".
Proof.
  induction s as [|c r IH]; cbn [first_digits]; [discriminate|].
  destruct (is_digit c) eqn:E; [|exact IH].
  intros H. inversion H; subst. cbn [all_chars]. rewrite E, take_digits_all.
  split; [reflexivity | discriminate].
Qed.

Lemma all_chars_weaken (p q : ascii -> bool) s :
  (forall c, p c = true -> q c = true) -> all_chars p s = true -> all_chars q s = true.
Proof.
  intros Hpq. induction s as [|c r IH]; [reflexivity|]. cbn [all_chars].
  intros H. apply andb_true_iff in H as [H1 H2]. rewrite (Hpq c H1), (IH H2). reflexivity.
Qed.

(** Reading digits never goes below what was read so far. *)
Lemma digits_from_nonneg s : forall acc after_digit v,
  0 <= acc -> digits_from acc after_digit s = Some v -> 0 <= v.
Proof.
  induction s as [|c r IH]; intros acc after_digit v Hacc; cbn [digits_from].
  - destruct after_digit; intros H; inversion H; subst; exact Hacc.
  - unfold digit_value.
    destruct ((48 <=? nat_of_ascii c)%nat && (nat_of_ascii c <=? 57)%nat) eqn:E.
    + apply andb_true_iff in E as [E1 E2]. apply Nat.leb_le in E1, E2.
      apply IH. lia.
    + destruct (Ascii.eqb c "_" && after_digit); [apply IH; exact Hacc | discriminate].
Qed.

(** [int] of a text of digits reads the digits. *)
Lemma py_int_of_digits digits :
  all_chars is_digit digits = true ->
  py_int digits = digits_from 0 false digits.
Proof.
  intros Hd.
  assert (Hns : all_chars (fun c => negb (is_space c)) digits = true).
  { apply (all_chars_weaken is_digit); [|exact Hd].
    intros c Hc. rewrite (digit_not_space c Hc). reflexivity. }
  rewrite py_int_cases, (lstrip_no_space _ Hns), (rstrip_no_space _ Hns).
  destruct digits as [|a r]; [reflexivity|].
  cbn [all_chars] in Hd. apply andb_true_iff in Hd as [Ha _].
  destruct (Ascii.eqb_spec a "-") as [-> | _]; [discriminate Ha|].
  destruct (Ascii.eqb_spec a "+") as [-> | _]; [discriminate Ha|].
  reflexivity.
Qed.

(** X25.  A salary that [_parse_salary] returns is 0 or at least 1000: it
    is never negative and never a number from 1 to 999, whatever the listing
    held (numbers below 1000 are taken for thousands). *)
Theorem parsed_salary_is_zero_or_thousands
    (limit : option nat) (truthy : bool) (text : string) (salary : Z) :
  _parse_salary limit truthy text = Some salary ->
  salary = 0 \/ 1000 <= salary.
Proof.
  unfold _parse_salary. destruct (negb truthy); [discriminate|].
  destruct (first_digits text) as [digits|] eqn:Hf; [|discriminate].
  apply first_digits_all in Hf as [Hd _].
  assert (Hnn : forall v, int_of_digits limit digits = Some v -> 0 <= v).
  { intros v. unfold int_of_digits. rewrite (py_int_of_digits _ Hd).
    destruct limit as [n|]; [destruct (n <? String.length digits)%nat; [discriminate|]|];
      apply digits_from_nonneg; lia. }
  destruct (int_of_digits limit digits) as [v|]; [|discriminate].
  specialize (Hnn v eq_refl).
  destruct (Z.ltb_spec v 1000); intros Hres; inversion Hres; subst; lia.
Qed.

Lemma parsed_salary_is_zero_or_thousands_witness :
  parse_salary_str (Some 4300%nat) "$85k - $120k" = Some 85000
  /\ (85000 = 0 \/ 1000 <= 85000).
Proof.
  split; [reflexivity|].
  exact (parsed_salary_is_zero_or_thousands (Some 4300%nat) true "$85k - $120k" 85000 eq_refl).
Defined.

Lemma digit_char_is_digit d : (d < 10)%N -> is_digit (pretty_N_char d) = true.
Proof. intros H. unfold is_digit. rewrite (digit_char_value d H). reflexivity. Qed.

Lemma pretty_go_digits x : forall s,
  all_chars is_digit s = true -> all_chars is_digit (pretty_N_go x s) = true.
Proof.
  induction (N.lt_wf_0 x) as [x _ IH]; intros s Hs.
  assert (x = 0 \/ 0 < x)%N as [-> | Hpos] by lia; [exact Hs|].
  rewrite pretty_N_go_step by exact Hpos.
  apply IH; [apply N.div_lt; lia|].
  cbn [all_chars]. rewrite digit_char_is_digit by (apply N.mod_lt; lia).
  exact Hs.
Qed.

Lemma take_digits_id s : all_chars is_digit s = true -> take_digits s = s.
Proof.
  induction s as [|c r IH]; [reflexivity|]. cbn [all_chars take_digits].
  intros H. apply andb_true_iff in H as [H1 H2]. rewrite H1, (IH H2). reflexivity.
Qed.

Lemma first_digits_id s :
  all_chars is_digit s = true -> s <> "" -> first_digits s = Some s.
Proof.
  destruct s as [|c r]; [congruence|]. cbn [all_chars first_digits].
  intros H _. apply andb_true_iff in H as [H1 H2].
  rewrite H1, (take_digits_id r H2). reflexivity.
Qed.

Lemma first_digits_skip c s : is_digit c = false -> first_digits (String c s) = first_digits s.
Proof. intros H. cbn [first_digits]. rewrite H. reflexivity. Qed.

(** X26.  On an integer of the listing [_parse_salary] drops the sign and
    takes amounts below 1000 for thousands: a number z other than 0 comes
    back as |z| when |z| >= 1000 and as 1000 * |z| otherwise, and 0 comes
    back as no salary at all (the text of the number being within the
    interpreter's limit for integers). *)
Theorem parsed_integer_salary (limit : option nat) (z : Z) :
  (forall n, limit = Some n -> (String.length (pretty (Z.abs z)) <= n)%nat) ->
  parse_salary_int limit z
  = if z =? 0 then None
    else Some (if Z.abs z <? 1000 then 1000 * Z.abs z else Z.abs z).
Proof.
  intros Hlim. unfold parse_salary_int, _parse_salary.
  destruct (Z.eqb_spec z 0) as [-> | Hz]; [reflexivity|]. cbn [negb].
  assert (Habs : exists p, Z.abs z = Zpos p /\ first_digits (pretty z) = Some (pretty (Zpos p))).
  { assert (Hp : forall p, first_digits (pretty (Zpos p)) = Some (pretty (Zpos p))).
    { intros p. change (pretty (Zpos p)) with (pretty_N_go (Npos p) "").
      apply first_digits_id; [apply pretty_go_digits; reflexivity|].
      destruct (pretty_go_head (Npos p) "" ltac:(lia)) as (d & r & _ & ->). discriminate. }
    destruct z as [|p|p]; [congruence | |]; exists p; (split; [reflexivity|]).
    - apply Hp.
    - change (pretty (Zneg p)) with (String "-" (pretty (Zpos p))).
      rewrite first_digits_skip by reflexivity. apply Hp. }
  destruct Habs as (p & Habs & Hf). rewrite Hf, Habs in *.
  assert (Hint : int_of_digits limit (pretty (Zpos p)) = Some (Zpos p)).
  { unfold int_of_digits. destruct limit as [n|]; [|apply py_int_pretty].
    specialize (Hlim n eq_refl). apply Nat.ltb_ge in Hlim. rewrite Hlim.
    apply py_int_pretty. }
  rewrite Hint. destruct (Zpos p <? 1000); f_equal; lia.
Qed.

Lemma parsed_integer_salary_witness :
  parse_salary_int (Some 4300%nat) (-85)
  = if -85 =? 0 then None
    else Some (if Z.abs (-85) <? 1000 then 1000 * Z.abs (-85) else Z.abs (-85)).
Proof.
  apply (parsed_integer_salary (Some 4300%nat) (-85)).
  intros n H. inversion H; subst. vm_compute. lia.
Defined.

End ParserExtras.

(** ** The description cleaner *)

Section CleanerExtras.
Import Config ConfigTexts Parsers.

Lemma length_append (a b : string) :
  String.length (a +:+ b) = (String.length a + String.length b)%nat.
Proof.
  induction a as [|x a IH]; [reflexivity|].
  rewrite append_cons. cbn [String.length]. rewrite IH. reflexivity.
Qed.

Lemma prefix_length n : forall s, (String.length (prefix n s) <= n)%nat.
Proof.
  induction n as [|n IH]; intros [|c r]; cbn [prefix String.length]; try lia.
  specialize (IH r). lia.
Qed.

(** A text without [>] holds no tag. *)
Lemma no_gt_no_tag s : holds ">" s = false -> has_tag s = false.
Proof.
  induction s as [|c r IH]; [reflexivity|]. cbn [holds has_tag].
  intros H. apply orb_false_iff in H as [_ Hr]. rewrite (IH Hr), orb_false_r.
  destruct r as [|c' r']; [apply andb_false_r|].
  cbn [holds] in Hr. apply orb_false_iff in Hr as [_ Hr'].
  rewrite Hr', !andb_false_r. reflexivity.
Qed.

Lemma has_tag_cons c s : has_tag s = true -> has_tag (String c s) = true.
Proof. intros H. cbn [has_tag]. rewrite H. apply orb_true_r. Qed.

Lemma has_tag_other c s : Ascii.eqb c "<" = false -> has_tag (String c s) = has_tag s.
Proof. intros H. cbn [has_tag]. rewrite H. reflexivity. Qed.

Lemma has_tag_empty_pair s : has_tag (String "<" (String ">" s)) = has_tag s.
Proof. reflexivity. Qed.

(** What the scan returns holds no tag, in either of its states. *)
Lemma strip_tags_from_clean s : forall inside,
  match inside with
  | None => True
  | Some buf => holds ">" buf = false
  end ->
  has_tag (strip_tags_from inside s) = false.
Proof.
  induction s as [|c r IH]; intros [buf|] Hbuf; cbn [strip_tags_from].
  - apply no_gt_no_tag. cbn [holds]. rewrite Hbuf. reflexivity.
  - reflexivity.
  - destruct (Ascii.eqb_spec c ">") as [-> | Hc].
    + destruct (is_empty buf).
      * rewrite has_tag_empty_pair. apply (IH None). exact I.
      * apply (IH None). exact I.
    + apply (IH (Some _)). rewrite holds_app, Hbuf. cbn [holds orb].
      destruct (Ascii.eqb_spec c ">"); [contradiction | reflexivity].
  - destruct (Ascii.eqb c "<") eqn:Hc.
    + apply (IH (Some "")). reflexivity.
    + rewrite has_tag_other by exact Hc. apply (IH None). exact I.
Qed.

Lemma squeezes_prefix word : forall s t,
  all_chars (fun c => negb (is_space c)) word = true ->
  squeezes s t -> squeezes (word +:+ s) (word +:+ t).
Proof.
  induction word as [|c word IH]; intros s t Hw H; [exact H|].
  cbn [all_chars] in Hw. apply andb_true_iff in Hw as [Hc Hw].
  rewrite !append_cons. apply squeezes_keep; [|apply IH; assumption].
  destruct (is_space c); [discriminate | reflexivity].
Qed.

Lemma all_chars_app p a b :
  all_chars p (a +:+ b) = all_chars p a && all_chars p b.
Proof.
  induction a as [|x a IH]; [reflexivity|].
  rewrite append_cons. cbn [all_chars]. rewrite IH. apply andb_assoc.
Qed.

Lemma append_empty (a : string) : a +:+ "" = a.
Proof. induction a as [|x a IH]; [reflexivity|]. rewrite append_cons, IH. reflexivity. Qed.

Lemma join_cons sep word rest :
  join sep (word :: rest) = match rest with
                            | [] => word
                            | _ => word +:+ sep +:+ join sep rest
                            end.
Proof. destruct rest; reflexivity. Qed.

Lemma split_from_squeezes s : forall word,
  all_chars (fun c => negb (is_space c)) word = true ->
  squeezes (word +:+ s) (join " " (split_from word s)).
Proof.
  induction s as [|c r IH]; intros word Hw; cbn [split_from].
  - rewrite append_empty. destruct word as [|x word]; cbn [is_empty join].
    + constructor.
    + rewrite <- (append_empty (String x word)) at 1.
      rewrite <- (append_empty (String x word)) at 2.
      apply squeezes_prefix; [exact Hw | constructor].
  - destruct (is_space c) eqn:Hc.
    + specialize (IH "" eq_refl). rewrite append_nil in IH.
      destruct word as [|x word]; cbn [is_empty].
      * rewrite append_nil. apply squeezes_drop; assumption.
      * rewrite join_cons.
        destruct (split_from "" r) as [|word' rest] eqn:Hsplit.
        -- rewrite <- (append_empty (String x word)) at 2.
           apply squeezes_prefix; [exact Hw|]. apply squeezes_drop; assumption.
        -- apply squeezes_prefix; [exact Hw|].
           change (" " +:+ ?t) with (String " " t).
           apply squeezes_space; assumption.
    + specialize (IH (word +:+ String c "")).
      rewrite append_assoc in IH. apply IH.
      rewrite all_chars_app, Hw. cbn [all_chars]. rewrite Hc. reflexivity.
Qed.

Lemma squeezes_gt s t : squeezes s t -> holds ">" t = holds ">" s.
Proof.
  induction 1 as [| c s t Hc _ IH | c s t Hc _ IH | c s t Hc _ IH]; cbn [holds].
  - reflexivity.
  - rewrite IH. reflexivity.
  - rewrite IH. destruct (Ascii.eqb_spec c ">") as [-> | _]; [discriminate Hc | reflexivity].
  - rewrite IH. destruct (Ascii.eqb_spec c ">") as [-> | _]; [discriminate Hc | reflexivity].
Qed.

(** Squeezing the blanks makes no tag. *)
Lemma squeezes_tag s t : squeezes s t -> has_tag t = true -> has_tag s = true.
Proof.
  induction 1 as [| c s t Hc Hst IH | c s t Hc Hst IH | c s t Hc Hst IH]; intros Ht.
  - discriminate.
  - cbn [has_tag] in Ht. apply orb_true_iff in Ht as [Ht | Ht];
      [|apply has_tag_cons, IH; exact Ht].
    apply andb_true_iff in Ht as [Hlt Ht].
    destruct t as [|c' t']; [discriminate|].
    apply andb_true_iff in Ht as [Hc' Hgt].
    assert (Hgs : holds ">" s = true).
    { rewrite <- (squeezes_gt _ _ Hst). cbn [holds]. rewrite Hgt. apply orb_true_r. }
    cbn [has_tag]. rewrite Hlt. cbn [andb].
    destruct s as [|d s']; [discriminate|].
    destruct (Ascii.eqb_spec d ">") as [-> | Hd].
    + (* a [>] right after the [<] is kept right after it *)
      inversion Hst; subst; discriminate.
    + cbn [negb andb]. cbn [holds] in Hgs.
      destruct (Ascii.eqb_spec d ">"); [contradiction|]. cbn [orb] in Hgs.
      rewrite Hgs. reflexivity.
  - apply has_tag_cons, IH. exact Ht.
  - rewrite has_tag_other in Ht by reflexivity. apply has_tag_cons, IH. exact Ht.
Qed.

Lemma prefix_gt n : forall s, holds ">" (prefix n s) = true -> holds ">" s = true.
Proof.
  induction n as [|n IH]; intros [|c r]; cbn [prefix holds]; try discriminate.
  intros H. apply orb_true_iff in H as [H | H]; [rewrite H; reflexivity|].
  rewrite (IH r H). apply orb_true_r.
Qed.

(** Cutting a text and marking the cut makes no tag. *)
Lemma prefix_tag n : forall s,
  has_tag (prefix n s +:+ "...") = true -> has_tag s = true.
Proof.
  induction n as [|n IH]; intros [|c r]; cbn [prefix]; try (rewrite append_nil; discriminate).
  rewrite append_cons. intros Ht.
  cbn [has_tag] in Ht. apply orb_true_iff in Ht as [Ht | Ht];
    [|apply has_tag_cons, IH; exact Ht].
  apply andb_true_iff in Ht as [Hlt Ht].
  cbn [has_tag]. rewrite Hlt. cbn [andb].
  destruct n as [|n']; [cbn [prefix] in Ht; rewrite append_nil in Ht; discriminate|].
  destruct r as [|d r']; [cbn [prefix] in Ht; rewrite append_nil in Ht; discriminate|].
  cbn [prefix] in Ht. rewrite append_cons in Ht.
  apply andb_true_iff in Ht as [Hd Hgt]. rewrite Hd. cbn [andb].
  rewrite holds_app in Hgt. apply orb_true_iff in Hgt as [Hgt | Hgt]; [|discriminate].
  rewrite (prefix_gt _ _ Hgt). reflexivity.
Qed.

(** X27.  What [_clean_description] returns holds no HTML tag, that is no
    text the pattern [<[^>]+>] matches: one pass removes them all, and
    neither squeezing the blanks nor cutting the text at 2000 characters
    makes a new one; and the result is at most 2003 characters long. *)
Theorem cleaned_description_has_no_tag (description : string) :
  has_tag (_clean_description description) = false
  /\ (String.length (_clean_description description) <= 2003)%nat.
Proof.
  unfold _clean_description.
  destruct (is_empty description); [split; [reflexivity | cbn; lia]|].
  pose proof (strip_tags_from_clean description None I) as Hstrip.
  fold (strip_tags description) in Hstrip.
  pose proof (split_from_squeezes (strip_tags description) "" eq_refl) as Hsq.
  rewrite append_nil in Hsq. fold (split (strip_tags description)) in Hsq.
  set (clean_desc := join " " (split (strip_tags description))) in *.
  assert (Hclean : has_tag clean_desc = false).
  { destruct (has_tag clean_desc) eqn:E; [|reflexivity].
    rewrite (squeezes_tag _ _ Hsq E) in Hstrip. discriminate. }
  destruct (2000 <? String.length clean_desc)%nat eqn:Hlen.
  - split.
    + destruct (has_tag (prefix 2000 clean_desc +:+ "...")) eqn:E; [|reflexivity].
      rewrite (prefix_tag _ _ E) in Hclean. discriminate.
    + rewrite length_append. pose proof (prefix_length 2000 clean_desc) as Hp.
      change (String.length "...") with 3%nat. lia.
  - split; [exact Hclean|]. apply Nat.ltb_ge in Hlen. lia.
Qed.

End CleanerExtras.

(** ** The status after a trigger *)

Section StatusExtras.
Import JobScrapingScheduler.

Lemma triggers_app cfg ws ws' : forall st,
  fst (triggers cfg (ws ++ ws') st) = fst (triggers cfg ws' (fst (triggers cfg ws st))).
Proof.
  induction ws as [|w rest IH]; intros st; [reflexivity|].
  cbn [app triggers].
  destruct (trigger cfg w st) as [st1 evs].
  specialize (IH st1).
  destruct (triggers cfg (rest ++ ws') st1) as [st2 evss].
  destruct (triggers cfg rest st1) as [st3 evss3]. cbn [fst] in *. exact IH.
Qed.

(** X28.  What the status calls [uptime_minutes] is the time since the
    last trigger of the scrape task started, whether that trigger ran the
    scraper or was skipped: it restarts at every trigger and says nothing
    about how long the scheduler has been up. *)
Theorem uptime_counts_from_the_last_trigger
    (cfg : Config.Settings) (ws : list TaskWorld) (w : TaskWorld) (st : t)
    (now_health now_uptime : datetime) :
  let st' := fst (triggers cfg (ws ++ [w]) st) in
  JobScrapingMetrics.last_run (metrics st') = Some (tw_start w)
  /\ (py_get "metrics" (get_status cfg now_health now_uptime st')
      ≫= py_get "uptime_minutes")
     = Some (PFloat ((inject_Z (now_uptime - tw_start w) / 1000000) / 60)%Q).
Proof.
  intros st'. subst st'. rewrite triggers_app.
  set (st1 := fst (triggers cfg ws st)). cbn [triggers]. unfold trigger.
  pose proof (task_records_start cfg w (metrics st1)) as [Hlr _].
  destruct (scrape_jobs_task cfg w (metrics st1)) as [m evs]. cbn [fst metrics] in *.
  split; [exact Hlr|].
  cbn. rewrite Hlr. reflexivity.
Qed.

End StatusExtras.

(** ** A limiter without refill *)

Section ZeroRateExtras.
Import RateLimiter RateLimiterRuns Executor.
Local Open Scope Q_scope.

Lemma zero_rate rl : requests_per_minute rl = 0%Z -> rate rl == 0.
Proof. intros H. unfold rate. rewrite H. reflexivity. Qed.

(** Without refill the clock does not matter: a bucket of [n] tokens lets
    [n] calls pass and fails every call after them. *)
Lemma zero_rate_from (nows : list Q) : forall (n : nat) rl,
  requests_per_minute rl = 0%Z ->
  tokens rl == inject_Z (Z.of_nat n) ->
  (Z.of_nat n <= burst_size rl)%Z ->
  outcomes rl nows
  = repeat (Returns None) (Nat.min n (length nows))
    ++ repeat (Raises ZeroDivisionError) (length nows - n).
Proof.
  induction nows as [|now rest IH]; intros n rl Hrpm Htok Hle.
  - cbn [length outcomes]. rewrite Nat.min_0_r. reflexivity.
  - cbn [outcomes length].
    pose proof (zero_rate rl Hrpm) as Hrate.
    assert (Href : py_min (inject_Z (burst_size rl))
                     (tokens rl + (now - last_update rl) * rate rl)
                   == inject_Z (Z.of_nat n)).
    { assert (Hx : tokens rl + (now - last_update rl) * rate rl == inject_Z (Z.of_nat n))
        by (rewrite Hrate, Htok; ring).
      rewrite py_min_when_le; rewrite Hx; [reflexivity|].
      rewrite <- Zle_Qle. exact Hle. }
    specialize (IH (Nat.pred n) (fst (acquire rl now))).
    rewrite acquire_rpm, acquire_burst_size in IH.
    destruct n as [|k].
    + assert (Hacq : snd (acquire rl now) = Raises ZeroDivisionError
                     /\ tokens (fst (acquire rl now)) == 0).
      { unfold acquire. set (refilled := py_min _ _) in *.
        change (inject_Z (Z.of_nat 0)) with 0 in Href.
        destruct (Qle_bool 1 refilled) eqn:Hone.
        { apply Qle_bool_iff in Hone. lra. }
        destruct (Qeq_bool (rate rl) 0) eqn:Hz.
        - cbn [fst snd set_tokens tokens]. split; [reflexivity | exact Href].
        - apply Qeq_bool_iff in Hrate. congruence. }
      destruct Hacq as [Hres Htok'].
      rewrite Hres, (IH Hrpm Htok' Hle). cbn [Nat.pred Nat.min Nat.sub repeat app].
      rewrite Nat.sub_0_r. reflexivity.
    + assert (Hsucc : inject_Z (Z.of_nat (S k)) == 1 + inject_Z (Z.of_nat k)).
      { rewrite Nat2Z.inj_succ, <- Z.add_1_l, inject_Z_plus. reflexivity. }
      assert (Hk0 : 0 <= inject_Z (Z.of_nat k)).
      { change 0 with (inject_Z 0). rewrite <- Zle_Qle. lia. }
      assert (Hacq : snd (acquire rl now) = Returns None
                     /\ tokens (fst (acquire rl now)) == inject_Z (Z.of_nat k)).
      { unfold acquire. set (refilled := py_min _ _) in *.
        destruct (Qle_bool 1 refilled) eqn:Hone.
        - cbn [fst snd set_tokens tokens]. split; [reflexivity|]. rewrite Href, Hsucc. ring.
        - assert (1 <= refilled) as Hge by lra.
          apply Qle_bool_iff in Hge. congruence. }
      destruct Hacq as [Hres Htok'].
      rewrite Hres, (IH Hrpm Htok' ltac:(lia)). reflexivity.
Qed.

(** X29.  A limiter configured with 0 requests per minute serves its burst
    and nothing else: whatever the clock reads, the first [burst_size] calls
    of [acquire] pass at once and every later call raises
    [ZeroDivisionError]; a request made then is not sent and not retried,
    the error leaving [_make_request] at once. *)
Theorem zero_rate_serves_only_the_burst
    {B : Type} (burst : nat) (now0 : Q) (nows : list Q)
    (cfg : Config.Settings) (url : string) (w : nat -> Attempt B) :
  outcomes (init 0 (Z.of_nat burst) now0) nows
  = repeat (Returns None) (Nat.min burst (length nows))
    ++ repeat (Raises ZeroDivisionError) (length nows - burst)
  /\ (forall rl, requests_per_minute rl = 0%Z -> tokens rl == 0 ->
                 (0 <= burst_size rl)%Z ->
      snd (fst (_make_request cfg url rl w)) = []
      /\ snd (_make_request cfg url rl w) = Raises ZeroDivisionError).
Proof.
  split.
  - apply zero_rate_from; [reflexivity | reflexivity | cbn; lia].
  - intros rl Hrpm Htok Hb.
    pose proof (zero_rate_from [at_now (w 0%nat)] 0 rl Hrpm Htok Hb) as Hout.
    cbn [outcomes length Nat.min Nat.sub repeat app] in Hout.
    inversion Hout as [Hacq].
    unfold _make_request. cbn [max_tries Nat.sub retry_from]. unfold request_once.
    destruct (acquire rl (at_now (w 0%nat))) as [rl' r]. cbn [snd] in Hacq. subst r.
    cbn. split; reflexivity.
Qed.

End ZeroRateExtras.

(** ** The properties above on concrete runs *)

Section FurtherExamples.
Import Executor Scraper JobDataManager JobScrapingScheduler SchedulerTasks JobsTable.
Import RateLimiterRuns Scenarios Scenarios2.

Lemma first_of_each_fingerprint_is_kept_witness :
  sample "Data Engineer" "CloudFirst"
  ∈ fst (keep_new ∅ ([sample "Backend Engineer" "InnovateCo"]
                      ++ sample "Data Engineer" "CloudFirst"
                         :: [sample "Backend Engineer" "InnovateCo"])).
Proof.
  apply (first_of_each_fingerprint_is_kept ∅ [sample "Backend Engineer" "InnovateCo"]
           (sample "Data Engineer" "CloudFirst") [sample "Backend Engineer" "InnovateCo"]).
  - set_solver.
  - intros H. apply list_elem_of_In in H. destruct H as [H | []]. discriminate H.
Defined.

Lemma scheduled_cleanup_retention_witness :
  {| row_id := 1; row_posted_date := Some (day 90) |}
  ∈ fst (cleanup_old_jobs alerting (day 100) Works false three_rows)
  /\ ~ {| row_id := 2; row_posted_date := Some (day 10) |}
       ∈ fst (cleanup_old_jobs alerting (day 100) Works false three_rows).
Proof.
  pose proof (scheduled_cleanup_retention alerting (day 100) Works false three_rows)
    as (_ & _ & H & _).
  destruct (H ltac:(discriminate)) as [Hiff _].
  split.
  - apply Hiff. split; [|reflexivity]. apply list_elem_of_In. left. reflexivity.
  - intros Hin. apply Hiff in Hin as [_ Hrecent]. discriminate Hrecent.
Defined.

Lemma admin_cleanup_spares_thirty_days_witness :
  {| row_id := 1; row_posted_date := Some (day 90) |}
  ∈ fst (Admin.cleanup_old_jobs "date value out of range" 45 (day 100) Works three_rows).
Proof.
  pose proof (admin_cleanup_spares_thirty_days "date value out of range" 45 (day 100)
                Works three_rows) as H.
  destruct (Admin.cleanup_old_jobs _ _ _ _ _) as [table' response]. cbn [fst].
  apply (proj1 H); [|reflexivity].
  apply list_elem_of_In. left. reflexivity.
Defined.

Lemma config_update_checks_and_echoes_witness :
  exists body updates,
    Admin.update_scraping_config alerting modest_update = Admin.Json body
    /\ py_get "updates" body = Some (PDict updates)
    /\ assoc "scraping_enabled" updates = PBool <$> Admin.scraping_enabled modest_update
    /\ assoc "interval_minutes" updates = PInt <$> Admin.interval_minutes modest_update
    /\ assoc "max_jobs_per_run" updates = PInt <$> Admin.max_jobs_per_run modest_update
    /\ py_get "current_config" body
       = Some (PDict [ ("scraping_enabled", PBool (Config.SCRAPING_ENABLED alerting));
                       ("interval_minutes", PInt (Config.SCRAPING_INTERVAL_MINUTES alerting));
                       ("max_jobs_per_run", PInt (Config.SCRAPING_MAX_JOBS_PER_RUN alerting)) ]).
Proof.
  apply (config_update_checks_and_echoes alerting modest_update).
  discriminate.
Defined.

Lemma manual_trigger_bypasses_scheduler_witness :
  let w := network_down db_saves_all in
  (exists batch effs,
     Admin.run_background alerting w (snd (Admin.trigger_manual_scraping (fun _ d => d) alerting 4))
     = [ScraperInvoked 4 batch effs]
     /\ batch = out_all_jobs (run alerting w 4))
  /\ List.filter is_scraper_invoked (snd (trigger alerting (at_hour 6 w) after_five_failures))
     = [].
Proof.
  intros w.
  pose proof (manual_trigger_bypasses_scheduler (fun _ d => d) alerting 4 w (at_hour 6 w)
                after_five_failures) as H.
  destruct (Admin.trigger_manual_scraping _ alerting 4) as [response tasks]. cbn [snd].
  destruct H as (_ & _ & H). destruct (H eq_refl) as (_ & Hrun & Hskip).
  split; [exact Hrun|]. apply Hskip. vm_compute. discriminate.
Defined.

Lemma run_sends_bounded_requests_witness :
  attempts (out_effects (run samples_only (network_down db_saves_all) 7)) = 0%nat.
Proof.
  apply (run_sends_bounded_requests samples_only (network_down db_saves_all) 7);
    reflexivity.
Defined.

Lemma zero_rate_serves_only_the_burst_witness :
  outcomes (RateLimiter.init 0 (Z.of_nat 2) 0%Q) [0%Q; 5%Q; 9%Q]
  = repeat (Returns None) (Nat.min 2 3) ++ repeat (Raises ZeroDivisionError) (3 - 2)
  /\ snd (fst (_make_request alerting "https://remoteok.io/api" spent_limiter
                 (always_timeout (B := Listing)))) = []
  /\ snd (_make_request alerting "https://remoteok.io/api" spent_limiter
            (always_timeout (B := Listing))) = Raises ZeroDivisionError.
Proof.
  pose proof (zero_rate_serves_only_the_burst 2 0%Q [0%Q; 5%Q; 9%Q] alerting
                "https://remoteok.io/api" (always_timeout (B := Listing))) as [H1 H2].
  split; [exact H1|].
  apply (H2 spent_limiter); [reflexivity | reflexivity | cbn; lia].
Defined.

End FurtherExamples.
